(** * CAN-ESP monitor node: a shallow embedding of the firmware's core

  The development follows the C sources of the CAN-ESP project:
  - [can_esp_lib.c]        identifier codec, checksum framing, TX task;
  - [routing_module.c]     routing table, dispatch, configuration;
  - [ota_module.c]         firmware segmentation and the update pipeline;
  - [alert_module.c]       alert ring and its notification callback;
  - [diagnosis_module.c]   sampling of the CAN counters, thresholds, history;
  - [logger_module.c]      log buffer, alert callback, copy to the SD card;
  - [monitor_ecu.c]        the retry loop of the OTA task.

  Machine integers are [Z] with the wrap-around of their C type written
  out; byte buffers are lists of [Z]; module-level statics become record
  fields that every operation threads explicitly; calls into collaborators
  (TWAI driver, SD card, MQTT, platform OTA) are results supplied by an
  environment record or an oracle list, and every observable side effect
  (callbacks, log channel, file writes) is appended to a trace. *)

From Stdlib Require Import ZArith Lia List Bool String Ascii DecimalString.
From Stdlib Require DecimalFacts DecimalPos DecimalN.
Import ListNotations.
Local Open Scope Z_scope.

(* ------------------------------------------------------------------ *)
(** ** Fixed-width integers *)

Module CInt.

Definition to_u8 (x : Z) : Z := x mod 2 ^ 8.
Definition to_u16 (x : Z) : Z := x mod 2 ^ 16.
Definition to_u32 (x : Z) : Z := x mod 2 ^ 32.

Definition is_u8 (x : Z) : Prop := 0 <= x < 256.
Definition is_u32 (x : Z) : Prop := 0 <= x < 4294967296.

End CInt.

(* ------------------------------------------------------------------ *)
(** ** can_esp_lib.c: the 29-bit identifier codec *)

Module CanId.
Import CInt.

(** [CAN_ESP_EncodeID]: each field is masked, widened to [uint32_t] and
    shifted into place. *)
Definition CAN_ESP_EncodeID (priority module command : Z) : Z :=
  Z.lor
    (Z.lor (to_u32 (Z.shiftl (to_u32 (Z.land priority 0x07)) 26))
           (to_u32 (Z.shiftl (to_u32 (Z.land module 0x03FF)) 16)))
    (to_u32 (Z.land command 0xFFFF)).

(** [CAN_ESP_DecodeID] with its three output pointers non-null: the
    values stored through [priority], [module] and [command]. *)
Definition CAN_ESP_DecodeID (id : Z) : Z * Z * Z :=
  (to_u8 (Z.land (Z.shiftr id 26) 0x07),
   to_u16 (Z.land (Z.shiftr id 16) 0x03FF),
   to_u16 (Z.land id 0xFFFF)).

Definition encode_of_triple (t : Z * Z * Z) : Z :=
  let '(p, m, c) := t in CAN_ESP_EncodeID p m c.

End CanId.

(* ------------------------------------------------------------------ *)
(** ** can_esp_lib.c: frames, checksum mode, synchronous send/receive *)

Module CanFrame.
Import CInt.

Definition CAN_MAX_DATA_LENGTH : Z := 8.

Inductive can_esp_status_t : Type :=
| CAN_ESP_OK
| CAN_ESP_ERR_NULL_POINTER
| CAN_ESP_ERR_INVALID_LENGTH
| CAN_ESP_ERR_TRANSMIT
| CAN_ESP_ERR_RECEIVE
| CAN_ESP_ERR_DRIVER_INSTALL
| CAN_ESP_ERR_DRIVER_START
| CAN_ESP_ERR_DRIVER_STOP
| CAN_ESP_ERR_DRIVER_UNINSTALL
| CAN_ESP_ERR_TIMEOUT
| CAN_ESP_ERR_UNKNOWN.

(** The fields of [CanEspConfig_t] that the frame path reads. *)
Record CanEspConfig_t : Type := {
  transmit_timeout_ms : Z;
  receive_timeout_ms : Z;
  debug_level : Z;
  self_rx : bool;
  use_checksum : bool
}.

Record CanEspMessage_t : Type := {
  id : Z;
  length : Z;
  data : list Z;        (* uint8_t data[8] *)
  retry_count : Z
}.

(** The driver's frame, [twai_message_t]. *)
Record twai_message_t : Type := {
  identifier : Z;
  data_length_code : Z;
  tw_data : list Z;     (* uint8_t data[8] *)
  extd : bool;
  rtr : bool;
  ss : bool;
  self : bool
}.

(** [memcpy (dst, src, n)] on arrays held as lists: the first [n] cells
    of [dst] are overwritten, the others keep their content. *)
Definition memcpy (dst src : list Z) (n : Z) : list Z :=
  firstn (Z.to_nat n) src ++ skipn (Z.to_nat n) dst.

(** [a[i] = v]. *)
Definition store (a : list Z) (i : Z) (v : Z) : list Z :=
  firstn (Z.to_nat i) a ++ v :: skipn (S (Z.to_nat i)) a.

(** [CAN_ESP_CalculateChecksum]: [cs ^= data[i]] for [i < length],
    the accumulator being a [uint8_t]. *)
Definition CAN_ESP_CalculateChecksum (data : list Z) (length : Z) : Z :=
  fold_left (fun cs b => to_u8 (Z.lxor cs b))
            (firstn (Z.to_nat length) data) 0.

(** Events seen by the registered transmit callback. *)
Record tx_callback_event : Type := {
  cb_id : Z;
  cb_data : list Z;
  cb_length : Z;
  cb_status : can_esp_status_t
}.

(** What one call of [CAN_ESP_SendMessage] did: its status, the frame
    handed to [twai_transmit] (if the call got that far) and the
    callback invocations. *)
Record send_outcome : Type := {
  send_status : can_esp_status_t;
  handed_to_driver : option twai_message_t;
  send_callbacks : list tx_callback_event
}.

Definition notify_tx (registered : bool) (i : Z) (d : list Z) (n : Z)
           (st : can_esp_status_t) : list tx_callback_event :=
  if registered then [ {| cb_id := i; cb_data := d; cb_length := n;
                          cb_status := st |} ]
  else [].

(** [CAN_ESP_SendMessage].  [data] is [None] for a null pointer;
    [junk] is the content of the uninitialised local [message.data];
    [transmit_ok] is whether [twai_transmit] returned [ESP_OK];
    [cb] tells whether a transmit callback is registered. *)
Definition CAN_ESP_SendMessage (currentConfig : CanEspConfig_t) (cb : bool)
           (junk : list Z) (transmit_ok : bool)
           (id : Z) (data : option (list Z)) (length : Z) : send_outcome :=
  match data with
  | None => {| send_status := CAN_ESP_ERR_NULL_POINTER;
               handed_to_driver := None; send_callbacks := [] |}
  | Some d =>
    if CAN_MAX_DATA_LENGTH <? length then
      {| send_status := CAN_ESP_ERR_INVALID_LENGTH;
         handed_to_driver := None; send_callbacks := [] |}
    else
      let copied := memcpy junk d length in
      let framed :=
        if use_checksum currentConfig then
          if length <? CAN_MAX_DATA_LENGTH then
            Some (store copied length (CAN_ESP_CalculateChecksum d length),
                  to_u8 (length + 1))
          else None
        else Some (copied, length) in
      match framed with
      | None => {| send_status := CAN_ESP_ERR_INVALID_LENGTH;
                   handed_to_driver := None; send_callbacks := [] |}
      | Some (bytes, dlc) =>
        let message :=
          {| identifier := id; data_length_code := dlc; tw_data := bytes;
             extd := true; rtr := false; ss := false;
             self := self_rx currentConfig |} in
        if transmit_ok then
          {| send_status := CAN_ESP_OK;
             handed_to_driver := Some message;
             send_callbacks := notify_tx cb id d length CAN_ESP_OK |}
        else
          {| send_status := CAN_ESP_ERR_TRANSMIT;
             handed_to_driver := Some message;
             send_callbacks := notify_tx cb id d length CAN_ESP_ERR_TRANSMIT |}
      end
  end.

(** [CAN_ESP_ReceiveMessage].  [message] is the caller's struct ([None]
    for a null pointer) and [rx] what [twai_receive] delivered ([None]
    when it did not return [ESP_OK]).  The result is the status and the
    content of the caller's struct afterwards.  Both [data] arrays have
    8 cells: the model follows the code for a [data_length_code] of 0
    to 8; above that the code's [memcpy] runs past them, which C leaves
    undefined. *)
Definition CAN_ESP_ReceiveMessage (currentConfig : CanEspConfig_t)
           (message : option CanEspMessage_t) (rx : option twai_message_t)
  : can_esp_status_t * option CanEspMessage_t :=
  match message with
  | None => (CAN_ESP_ERR_NULL_POINTER, None)
  | Some m0 =>
    match rx with
    | Some rx_message =>
      let m1 := {| id := identifier rx_message;
                   length := data_length_code rx_message;
                   data := memcpy (data m0) (tw_data rx_message)
                                  (data_length_code rx_message);
                   retry_count := retry_count m0 |} in
      if use_checksum currentConfig then
        if length m1 <? 1 then (CAN_ESP_ERR_RECEIVE, Some m1)
        else
          let calc_cs :=
            CAN_ESP_CalculateChecksum (data m1) (to_u8 (length m1 - 1)) in
          if negb (calc_cs =? nth (Z.to_nat (length m1 - 1)) (data m1) 0)
          then (CAN_ESP_ERR_RECEIVE, Some m1)
          else (CAN_ESP_OK,
                Some {| id := id m1; length := to_u8 (length m1 - 1);
                        data := data m1; retry_count := retry_count m1 |})
      else (CAN_ESP_OK, Some m1)
    | None => (CAN_ESP_ERR_TIMEOUT, Some m0)
    end
  end.

(** The bytes that travel on the bus: the first [data_length_code]
    cells of the frame's array. *)
Definition wire_bytes (f : twai_message_t) : list Z :=
  firstn (Z.to_nat (data_length_code f)) (tw_data f).

(** A frame whose byte number [i] was replaced by [v] in transit. *)
Definition mutate (f : twai_message_t) (i : Z) (v : Z) : twai_message_t :=
  {| identifier := identifier f; data_length_code := data_length_code f;
     tw_data := store (tw_data f) i v;
     extd := extd f; rtr := rtr f; ss := ss f; self := self f |}.

(** The user-visible payload of a received message. *)
Definition payload (m : CanEspMessage_t) : list Z :=
  firstn (Z.to_nat (length m)) (data m).

(** The exclusive-or of a sequence of bytes. *)
Definition xor_bytes (l : list Z) : Z := fold_right Z.lxor 0 l.

(** A configuration with checksum mode on, and a zeroed message
    struct for the receiver. *)
Definition checksum_cfg : CanEspConfig_t :=
  {| transmit_timeout_ms := 1000; receive_timeout_ms := 1000;
     debug_level := 2; self_rx := false; use_checksum := true |}.

Definition empty_message : CanEspMessage_t :=
  {| id := 0; length := 0; data := repeat 0 8; retry_count := 0 |}.

End CanFrame.

(* ------------------------------------------------------------------ *)
(** ** can_esp_lib.c: the asynchronous transmit queue and its task *)

Module CanTx.
Import CInt CanFrame.

Definition CAN_ESP_MAX_RETRANSMISSIONS : Z := 3.
Definition CAN_ESP_BACKOFF_MS : Z := 50.
Definition TX_QUEUE_LENGTH : Z := 32.

Record CanEspLatencyMetrics_t : Type := {
  num_samples : Z;
  total_latency : Z;
  min_latency : Z;
  max_latency : Z
}.

(** The statics of [can_esp_lib.c] that the transmit path touches.
    [txQueue] is [None] while the handle is null; the head of the list
    is the front of the FreeRTOS queue.  [tx_msg_data] is the array of
    the task's local [tx_msg], which survives from one iteration to the
    next.  [handed] and [callbacks] record, oldest first, the frames
    given to [twai_transmit] and the transmit-callback invocations. *)
Record tx_state : Type := {
  txQueue : option (list CanEspMessage_t);
  totalRetransmissions : Z;
  totalCollisions : Z;
  totalTransmissionAttempts : Z;
  latencyMetrics : CanEspLatencyMetrics_t;
  busLoadTotalTime : Z;
  task_priority : Z;
  tx_msg_data : list Z;
  backoff_ms : Z;
  handed : list twai_message_t;
  callbacks : list tx_callback_event
}.

Definition INT64_MAX : Z := 9223372036854775807.

(** The statics as they are initialised, and the locals of
    [CAN_ESP_TransmitTask] on entry.  The frame buffer [tx_msg] is a
    local without initialiser: its bytes are not determined, and zero
    is taken for them here. *)
Definition tx_initial (queue : option (list CanEspMessage_t)) : tx_state :=
  {| txQueue := queue;
     totalRetransmissions := 0;
     totalCollisions := 0;
     totalTransmissionAttempts := 0;
     latencyMetrics := {| num_samples := 0; total_latency := 0;
                          min_latency := INT64_MAX; max_latency := 0 |};
     busLoadTotalTime := 0;
     task_priority := 10;
     tx_msg_data := repeat 0 8;
     backoff_ms := 0;
     handed := [];
     callbacks := [] |}.

(** [CAN_ESP_EnqueueMessage] on the queue alone: the message is copied,
    its [retry_count] is set to zero, and the copy goes to the front or
    to the back.  [xQueueSend] waits with [portMAX_DELAY], so the send
    completes once a slot is free. *)
Definition CAN_ESP_EnqueueMessage (msg : option CanEspMessage_t)
           (high_priority : bool) (queue : option (list CanEspMessage_t))
  : can_esp_status_t * option (list CanEspMessage_t) :=
  match msg with
  | None => (CAN_ESP_ERR_NULL_POINTER, queue)
  | Some m =>
    match queue with
    | None => (CAN_ESP_ERR_UNKNOWN, queue)
    | Some q =>
      let local_msg := {| id := id m; length := length m; data := data m;
                          retry_count := 0 |} in
      if high_priority then (CAN_ESP_OK, Some (local_msg :: q))
      else (CAN_ESP_OK, Some (q ++ [local_msg]))
    end
  end.

(** [convert_canesp_to_twai] writing into the array [dst_data]. *)
Definition convert_canesp_to_twai (currentConfig : CanEspConfig_t)
           (src : CanEspMessage_t) (dst_data : list Z) : twai_message_t :=
  {| identifier := id src;
     data_length_code :=
       if use_checksum currentConfig && (length src <? CAN_MAX_DATA_LENGTH)
       then to_u8 (length src + 1) else length src;
     tw_data := memcpy dst_data (data src) (length src);
     extd := true; rtr := false; ss := false;
     self := self_rx currentConfig |}.

(** [CAN_ESP_AdjustTransmitTaskPriority], task handle and queue present:
    the new priority of the task. *)
Definition CAN_ESP_AdjustTransmitTaskPriority (count currentPriority : Z) : Z :=
  let threshold := (TX_QUEUE_LENGTH * 80) / 100 in
  let baselinePriority := 10 in
  let highPriority := 15 in
  if (threshold <=? count) && (currentPriority <? highPriority)
  then highPriority
  else if (count <? threshold) && (baselinePriority <? currentPriority)
  then baselinePriority
  else currentPriority.

(** What the collaborators answer during one iteration of the task. *)
Record tx_env : Type := {
  transmit_ok : bool;   (* twai_transmit returned ESP_OK *)
  tx_start : Z;         (* esp_timer_get_time before the call *)
  tx_end : Z            (* esp_timer_get_time after the call *)
}.

Definition queue_length (q : option (list CanEspMessage_t)) : Z :=
  match q with Some l => Z.of_nat (List.length l) | None => 0 end.

(** One turn of the [for (;;)] loop of [CAN_ESP_TransmitTask].  With an
    empty queue [xQueueReceive] does not return and nothing changes. *)
Definition CAN_ESP_TransmitTask_iteration (currentConfig : CanEspConfig_t)
           (cb : bool) (e : tx_env) (s : tx_state) : tx_state :=
  match txQueue s with
  | Some (msg :: rest) =>
    let tx_msg := convert_canesp_to_twai currentConfig msg (tx_msg_data s) in
    let attempts := to_u32 (totalTransmissionAttempts s + 1) in
    let s1 :=
      if negb (transmit_ok e) then
        if retry_count msg <? CAN_ESP_MAX_RETRANSMISSIONS then
          let msg' := {| id := id msg; length := length msg;
                         data := data msg;
                         retry_count := to_u8 (retry_count msg + 1) |} in
          {| txQueue := snd (CAN_ESP_EnqueueMessage (Some msg') true (Some rest));
             totalRetransmissions := to_u32 (totalRetransmissions s + 1);
             totalCollisions := to_u32 (totalCollisions s + 1);
             totalTransmissionAttempts := attempts;
             latencyMetrics := latencyMetrics s;
             busLoadTotalTime := busLoadTotalTime s;
             task_priority := task_priority s;
             tx_msg_data := tw_data tx_msg;
             backoff_ms := backoff_ms s + CAN_ESP_BACKOFF_MS;
             handed := handed s ++ [tx_msg];
             callbacks := callbacks s |}
        else
          {| txQueue := Some rest;
             totalRetransmissions := totalRetransmissions s;
             totalCollisions := totalCollisions s;
             totalTransmissionAttempts := attempts;
             latencyMetrics := latencyMetrics s;
             busLoadTotalTime := busLoadTotalTime s;
             task_priority := task_priority s;
             tx_msg_data := tw_data tx_msg;
             backoff_ms := backoff_ms s;
             handed := handed s ++ [tx_msg];
             callbacks := callbacks s ++
               notify_tx cb (id msg) (data msg) (length msg)
                         CAN_ESP_ERR_TRANSMIT |}
      else
        let latency := tx_end e - tx_start e in
        let lm := latencyMetrics s in
        {| txQueue := Some rest;
           totalRetransmissions := totalRetransmissions s;
           totalCollisions := totalCollisions s;
           totalTransmissionAttempts := attempts;
           latencyMetrics :=
             {| num_samples := to_u32 (num_samples lm + 1);
                total_latency := total_latency lm + latency;
                min_latency := if latency <? min_latency lm
                               then latency else min_latency lm;
                max_latency := if max_latency lm <? latency
                               then latency else max_latency lm |};
           busLoadTotalTime := busLoadTotalTime s + latency;
           task_priority := task_priority s;
           tx_msg_data := tw_data tx_msg;
           backoff_ms := backoff_ms s;
           handed := handed s ++ [tx_msg];
           callbacks := callbacks s ++
             notify_tx cb (id msg) (data msg) (length msg) CAN_ESP_OK |} in
    {| txQueue := txQueue s1;
       totalRetransmissions := totalRetransmissions s1;
       totalCollisions := totalCollisions s1;
       totalTransmissionAttempts := totalTransmissionAttempts s1;
       latencyMetrics := latencyMetrics s1;
       busLoadTotalTime := busLoadTotalTime s1;
       task_priority :=
         CAN_ESP_AdjustTransmitTaskPriority (queue_length (txQueue s1))
                                            (task_priority s1);
       tx_msg_data := tx_msg_data s1;
       backoff_ms := backoff_ms s1;
       handed := handed s1;
       callbacks := callbacks s1 |}
  | _ => s
  end.

(** The task run against a finite script of collaborator answers. *)
Definition CAN_ESP_TransmitTask (currentConfig : CanEspConfig_t) (cb : bool)
           (script : list tx_env) (s : tx_state) : tx_state :=
  fold_left (fun st e => CAN_ESP_TransmitTask_iteration currentConfig cb e st)
            script s.

(** The driver refusing a frame. *)
Definition refusal : tx_env :=
  {| transmit_ok := false; tx_start := 0; tx_end := 0 |}.

(** Number of callback invocations reporting a transmit error. *)
Definition fatal_reports (s : tx_state) : nat :=
  List.length
    (filter (fun ev => match cb_status ev with
                       | CAN_ESP_ERR_TRANSMIT => true | _ => false end)
            (callbacks s)).

(** What [CAN_ESP_EnqueueMessage] stores for a message. *)
Definition queued (m : CanEspMessage_t) : CanEspMessage_t :=
  {| id := id m; length := length m; data := data m; retry_count := 0 |}.

End CanTx.

(* ------------------------------------------------------------------ *)
(** ** C strings *)

Module CStr.

(** A character array holding a C string is kept as the [string] it
    spells (the characters before the terminator). *)

(** [strncmp (a, b, n) == 0]: the comparison stops at the first
    difference, at a terminator, or after [n] characters, so it succeeds
    exactly when the first [n] characters agree. *)
Definition strncmp_eq (n : nat) (a b : string) : bool :=
  String.eqb (substring 0 n a) (substring 0 n b).

(** [strcmp (a, b) == 0]. *)
Definition strcmp_eq (a b : string) : bool := String.eqb a b.

(** [strstr (hay, needle) != NULL]. *)
Definition strstr_found (hay needle : string) : bool :=
  match index 0 needle hay with Some _ => true | None => false end.

(** What a destination of [size] bytes spells after
    [snprintf (dst, size, "%s", src)], or after zero-filling it and
    calling [strncpy (dst, src, size - 1)]: at most [size - 1]
    characters of [src]. *)
Definition bounded_copy (size : nat) (src : string) : string :=
  substring 0 (size - 1) src.

(** [%u] and [%lu]. *)
Definition dec (z : Z) : string :=
  NilZero.string_of_uint (N.to_uint (Z.to_N z)).

End CStr.

(* ------------------------------------------------------------------ *)
(** ** routing_module.c *)

Module Routing.
Import CInt CStr.

Definition MAX_ROUTING_TABLE_ENTRIES : Z := 16.
Definition MAX_NEIGHBOR_TABLE_ENTRIES : Z := 8.

Definition ROUTING_MODE_UNICAST : Z := 0.
Definition ROUTING_MODE_MULTICAST : Z := 1.
Definition ROUTING_MODE_BROADCAST : Z := 2.

Inductive routing_event : Type :=
| ROUTING_EVENT_TABLE_UPDATED
| ROUTING_EVENT_NEIGHBOR_TABLE_UPDATED
| ROUTING_EVENT_ROUTE_FAILURE
| ROUTING_EVENT_MESSAGE_RECEIVED.

Record routing_table_entry_t : Type := {
  dest_id : string;     (* char dest_id[32]  *)
  next_hop : string;    (* char next_hop[32] *)
  cost : Z;
  timestamp : Z
}.

Record neighbor_table_entry_t : Type := {
  neighbor_id : string; (* char neighbor_id[32] *)
  rssi : Z;
  link_quality : Z
}.

Record routing_config_t : Type := {
  default_cost : Z;
  retry_count : Z;
  retry_delay_ms : Z
}.

Record routing_send_message_item_t : Type := {
  item_dest_id : string;
  item_data : list Z;
  item_length : Z;
  item_mode : Z
}.

(** One invocation of a registered callback: which callback, which
    event, and the destination string when the payload is one. *)
Record notice : Type := {
  to_callback : Z;
  event : routing_event;
  about : option string
}.

(** What the send task did with an item it did not drop (the source
    logs the send; the radio transfer itself is not in the module). *)
Inductive dispatch : Type :=
| SentUnicast (hop : string) (len : Z)
| SentMulticast (group : string) (routes : Z) (len : Z)
| SentBroadcast (len : Z)
| InvalidMode (mode : Z).

(** The statics of the module.  A table [{entries[N]; count}] is kept
    as the list of its first [count] entries, the only ones the
    operations below read.  [config_ini] is the content of the file,
    line by line ([None]: no such file).  [notices] and [dispatched]
    grow at the end.  [send_task_blocked] is set once the send task
    waits for [routing_table_mutex] while holding it: the mutex comes
    from [xSemaphoreCreateMutex], is not recursive, and is given back
    by its holder only, so that wait has no end. *)
Record routing_state : Type := {
  routing_table : list routing_table_entry_t;
  neighbor_table : list neighbor_table_entry_t;
  routing_callbacks : list Z;
  routing_config : routing_config_t;
  routing_send_queue : list routing_send_message_item_t;
  config_ini : option (list string);
  slept_ms : Z;
  notices : list notice;
  dispatched : list dispatch;
  send_task_blocked : bool
}.

Definition routing_initial : routing_state :=
  {| routing_table := [];
     neighbor_table := [];
     routing_callbacks := [];
     routing_config := {| default_cost := 1; retry_count := 3;
                          retry_delay_ms := 500 |};
     routing_send_queue := [];
     config_ini := None;
     slept_ms := 0;
     notices := [];
     dispatched := [];
     send_task_blocked := false |}.

Definition set_table (t : list routing_table_entry_t) (s : routing_state)
  : routing_state :=
  {| routing_table := t;
     neighbor_table := neighbor_table s;
     routing_callbacks := routing_callbacks s;
     routing_config := routing_config s;
     routing_send_queue := routing_send_queue s;
     config_ini := config_ini s;
     slept_ms := slept_ms s;
     notices := notices s;
     dispatched := dispatched s;
     send_task_blocked := send_task_blocked s |}.

(** [routing_module_notify]: every registered callback is called once. *)
Definition routing_module_notify (ev : routing_event) (data : option string)
           (s : routing_state) : routing_state :=
  {| routing_table := routing_table s;
     neighbor_table := neighbor_table s;
     routing_callbacks := routing_callbacks s;
     routing_config := routing_config s;
     routing_send_queue := routing_send_queue s;
     config_ini := config_ini s;
     slept_ms := slept_ms s;
     notices := notices s ++
                map (fun cb => {| to_callback := cb; event := ev;
                                  about := data |})
                    (routing_callbacks s);
     dispatched := dispatched s;
     send_task_blocked := send_task_blocked s |}.

(** The test all table scans share:
    [strncmp (entries[i].dest_id, key, sizeof dest_id) == 0]. *)
Definition same_dest (key : string) (e : routing_table_entry_t) : bool :=
  strncmp_eq 32 (dest_id e) key.

(** [routing_module_insert_route]. *)
Definition routing_module_insert_route (entry : option routing_table_entry_t)
           (s : routing_state) : bool * routing_state :=
  match entry with
  | None => (false, s)
  | Some e =>
    if existsb (same_dest (dest_id e)) (routing_table s) then (false, s)
    else if MAX_ROUTING_TABLE_ENTRIES <=? Z.of_nat (List.length (routing_table s))
    then (false, s)
    else (true,
          routing_module_notify ROUTING_EVENT_TABLE_UPDATED None
            (set_table (routing_table s ++ [e]) s))
  end.

(** The scan of [routing_module_update_route]: the first entry with the
    key is overwritten by [e]; [None] when no entry has it. *)
Fixpoint overwrite_first (e : routing_table_entry_t)
         (t : list routing_table_entry_t)
  : option (list routing_table_entry_t) :=
  match t with
  | [] => None
  | x :: rest =>
    if same_dest (dest_id e) x then Some (e :: rest)
    else match overwrite_first e rest with
         | Some rest' => Some (x :: rest')
         | None => None
         end
  end.

(** [routing_module_update_route]. *)
Definition routing_module_update_route (entry : option routing_table_entry_t)
           (s : routing_state) : bool * routing_state :=
  match entry with
  | None => (false, s)
  | Some e =>
    match overwrite_first e (routing_table s) with
    | Some t' =>
      (true, routing_module_notify ROUTING_EVENT_TABLE_UPDATED None
               (set_table t' s))
    | None => (false, s)
    end
  end.

(** The scan of [routing_module_remove_route]: the first entry with the
    key is taken out and the later ones move one place down. *)
Fixpoint drop_first (key : string) (t : list routing_table_entry_t)
  : option (list routing_table_entry_t) :=
  match t with
  | [] => None
  | x :: rest =>
    if same_dest key x then Some rest
    else match drop_first key rest with
         | Some rest' => Some (x :: rest')
         | None => None
         end
  end.

(** [routing_module_remove_route]. *)
Definition routing_module_remove_route (dest : option string)
           (s : routing_state) : bool * routing_state :=
  match dest with
  | None => (false, s)
  | Some key =>
    match drop_first key (routing_table s) with
    | Some t' =>
      (true, routing_module_notify ROUTING_EVENT_TABLE_UPDATED None
               (set_table t' s))
    | None =>
      (false, routing_module_notify ROUTING_EVENT_ROUTE_FAILURE (Some key) s)
    end
  end.

(** A call of one of the three table mutators. *)
Inductive table_call : Type :=
| Insert (entry : option routing_table_entry_t)
| Update (entry : option routing_table_entry_t)
| Remove (dest : option string).

Definition table_step (s : routing_state) (c : table_call) : routing_state :=
  match c with
  | Insert e => snd (routing_module_insert_route e s)
  | Update e => snd (routing_module_update_route e s)
  | Remove d => snd (routing_module_remove_route d s)
  end.

Definition table_run (calls : list table_call) (s : routing_state)
  : routing_state := fold_left table_step calls s.

(** No two entries of the table answer to the same key. *)
Fixpoint distinct_dests (t : list routing_table_entry_t) : bool :=
  match t with
  | [] => true
  | x :: rest => negb (existsb (same_dest (dest_id x)) rest)
                 && distinct_dests rest
  end.

(** [routing_module_recalculate_routes]: one route per neighbour, as far
    as the table has room; [tick] is what [xTaskGetTickCount] returns. *)
Definition routing_module_recalculate_routes (tick : Z) (s : routing_state)
  : bool * routing_state :=
  let routes :=
    map (fun n => {| dest_id := bounded_copy 32 (neighbor_id n);
                     next_hop := bounded_copy 32 (neighbor_id n);
                     cost := default_cost (routing_config s);
                     timestamp := to_u32 tick |})
        (firstn (Z.to_nat MAX_ROUTING_TABLE_ENTRIES) (neighbor_table s)) in
  (true, routing_module_notify ROUTING_EVENT_TABLE_UPDATED None
           (set_table routes s)).

(** [routing_module_update_topology]. *)
Definition routing_module_update_topology
           (topology_info : option (list neighbor_table_entry_t)) (tick : Z)
           (s : routing_state) : bool * routing_state :=
  match topology_info with
  | None => (false, s)
  | Some nt =>
    let s1 := {| routing_table := routing_table s;
                 neighbor_table := nt;
                 routing_callbacks := routing_callbacks s;
                 routing_config := routing_config s;
                 routing_send_queue := routing_send_queue s;
                 config_ini := config_ini s;
                 slept_ms := slept_ms s;
                 notices := notices s;
                 dispatched := dispatched s;
                 send_task_blocked := send_task_blocked s |} in
    routing_module_recalculate_routes tick
      (routing_module_notify ROUTING_EVENT_NEIGHBOR_TABLE_UPDATED None s1)
  end.

(** [routing_module_save_config]: [fopen (path, "w")] either fails, and
    the file is left alone, or truncates the file, which then receives
    the three lines. *)
Definition routing_module_save_config (fopen_ok : bool) (s : routing_state)
  : bool * routing_state :=
  if fopen_ok then
    let c := routing_config s in
    (true,
     {| routing_table := routing_table s;
        neighbor_table := neighbor_table s;
        routing_callbacks := routing_callbacks s;
        routing_config := routing_config s;
        routing_send_queue := routing_send_queue s;
        config_ini :=
          Some [ ("ROUTING_DEFAULT_COST=" ++ dec (default_cost c))%string;
                 ("ROUTING_RETRY_COUNT=" ++ dec (retry_count c))%string;
                 ("ROUTING_RETRY_DELAY_MS=" ++ dec (retry_delay_ms c))%string ];
        slept_ms := slept_ms s;
        notices := notices s;
        dispatched := dispatched s;
        send_task_blocked := send_task_blocked s |})
  else (false, s).

(** [routing_module_set_config]. *)
Definition routing_module_set_config (config : option routing_config_t)
           (fopen_ok : bool) (s : routing_state) : bool * routing_state :=
  match config with
  | None => (false, s)
  | Some c =>
    let s1 := {| routing_table := routing_table s;
                 neighbor_table := neighbor_table s;
                 routing_callbacks := routing_callbacks s;
                 routing_config :=
                   {| default_cost := default_cost c;
                      retry_count := retry_count c;
                      retry_delay_ms := retry_delay_ms c |};
                 routing_send_queue := routing_send_queue s;
                 config_ini := config_ini s;
                 slept_ms := slept_ms s;
                 notices := notices s;
                 dispatched := dispatched s;
                 send_task_blocked := send_task_blocked s |} in
    let '(_, s2) := routing_module_save_config fopen_ok s1 in
    (true, s2)
  end.

(** [routing_module_send_message].  [data] is [None] for a null
    pointer, [dest] likewise; [enqueued] is whether [xQueueSend]
    returned [pdPASS].  The item's array has 256 cells: a [length]
    above that makes [memcpy] write past it, which C leaves undefined,
    so the model follows the code for a [length] of 0 to 256. *)
Definition routing_module_send_message (dest : option string)
           (data : option (list Z)) (length : Z) (mode : Z)
           (enqueued : bool) (s : routing_state) : bool * routing_state :=
  match data with
  | None => (false, routing_module_notify ROUTING_EVENT_ROUTE_FAILURE dest s)
  | Some d =>
    if length =? 0 then
      (false, routing_module_notify ROUTING_EVENT_ROUTE_FAILURE dest s)
    else
      let item :=
        {| item_dest_id := match dest with
                           | Some name => bounded_copy 32 name
                           | None => EmptyString
                           end;
           item_data := firstn (Z.to_nat length) d;
           item_length := length;
           item_mode := mode |} in
      if enqueued then
        (true,
         {| routing_table := routing_table s;
            neighbor_table := neighbor_table s;
            routing_callbacks := routing_callbacks s;
            routing_config := routing_config s;
            routing_send_queue := routing_send_queue s ++ [item];
            config_ini := config_ini s;
            slept_ms := slept_ms s;
            notices := notices s;
            dispatched := dispatched s;
            send_task_blocked := send_task_blocked s |})
      else (false, s)
  end.

(** The scan of the send task for a unicast destination. *)
Definition find_next_hop (dest : string) (t : list routing_table_entry_t)
  : option string :=
  match find (same_dest dest) t with
  | Some e => Some (bounded_copy 32 (next_hop e))
  | None => None
  end.

Definition sleep (ms : Z) (s : routing_state) : routing_state :=
  {| routing_table := routing_table s;
     neighbor_table := neighbor_table s;
     routing_callbacks := routing_callbacks s;
     routing_config := routing_config s;
     routing_send_queue := routing_send_queue s;
     config_ini := config_ini s;
     slept_ms := slept_ms s + ms;
     notices := notices s;
     dispatched := dispatched s;
     send_task_blocked := send_task_blocked s |}.

(** [xSemaphoreTake (routing_table_mutex, portMAX_DELAY)] by the send
    task while it holds the mutex: the call does not return. *)
Definition wait_for_table_mutex (s : routing_state) : routing_state :=
  {| routing_table := routing_table s;
     neighbor_table := neighbor_table s;
     routing_callbacks := routing_callbacks s;
     routing_config := routing_config s;
     routing_send_queue := routing_send_queue s;
     config_ini := config_ini s;
     slept_ms := slept_ms s;
     notices := notices s;
     dispatched := dispatched s;
     send_task_blocked := true |}.

(** The first turn of the [while (!found && attempts < retry_count)]
    loop of the send task: it sleeps [retry_delay_ms], takes
    [routing_table_mutex] and calls [routing_module_recalculate_routes],
    whose first statement takes the same mutex.  The task waits for
    itself before the table is touched, so there is no recalculation,
    no notice and no second turn. *)
Definition first_retry (s : routing_state) : routing_state :=
  wait_for_table_mutex (sleep (retry_delay_ms (routing_config s)) s).

Definition log_dispatch (d : dispatch) (s : routing_state) : routing_state :=
  {| routing_table := routing_table s;
     neighbor_table := neighbor_table s;
     routing_callbacks := routing_callbacks s;
     routing_config := routing_config s;
     routing_send_queue := routing_send_queue s;
     config_ini := config_ini s;
     slept_ms := slept_ms s;
     notices := notices s;
     dispatched := dispatched s ++ [d];
     send_task_blocked := send_task_blocked s |}.

(** One turn of the [for (;;)] loop of [routing_module_send_task], made
    by a task that is running; with an empty queue [xQueueReceive] does
    not return.  A turn that ends with [send_task_blocked] set has not
    ended in the code, and no turn follows it.  [tick] stands for the
    tick counts the recalculations of the fallback would read; no turn
    gets that far. *)
Definition routing_module_send_task_iteration (tick : nat -> Z)
           (s : routing_state) : routing_state :=
  match routing_send_queue s with
  | [] => s
  | send_item :: rest =>
    let s0 := {| routing_table := routing_table s;
                 neighbor_table := neighbor_table s;
                 routing_callbacks := routing_callbacks s;
                 routing_config := routing_config s;
                 routing_send_queue := rest;
                 config_ini := config_ini s;
                 slept_ms := slept_ms s;
                 notices := notices s;
                 dispatched := dispatched s;
                 send_task_blocked := send_task_blocked s |} in
    let dest := item_dest_id send_item in
    if item_mode send_item =? ROUTING_MODE_UNICAST then
      match find_next_hop dest (routing_table s0) with
      | Some hop => log_dispatch (SentUnicast hop (item_length send_item)) s0
      | None =>
        (* attempts is 0: the loop is entered when 0 < retry_count *)
        if 0 <? retry_count (routing_config s0) then first_retry s0
        else routing_module_notify ROUTING_EVENT_ROUTE_FAILURE (Some dest) s0
      end
    else if item_mode send_item =? ROUTING_MODE_MULTICAST then
      let count :=
        to_u8 (Z.of_nat (List.length
                 (filter (fun e => strstr_found (dest_id e) dest)
                         (routing_table s0)))) in
      if count =? 0 then
        routing_module_notify ROUTING_EVENT_ROUTE_FAILURE (Some dest) s0
      else
        log_dispatch (SentMulticast dest count (item_length send_item)) s0
    else if item_mode send_item =? ROUTING_MODE_BROADCAST then
      log_dispatch (SentBroadcast (item_length send_item)) s0
    else
      log_dispatch (InvalidMode (item_mode send_item)) s0
  end.

(** The [ROUTE_FAILURE] notices of a trace. *)
Definition route_failures (l : list notice) : list notice :=
  filter (fun n => match event n with
                   | ROUTING_EVENT_ROUTE_FAILURE => true | _ => false end) l.

(** A route entry stamped at tick 0. *)
Definition route (dest hop : string) (c : Z) : routing_table_entry_t :=
  {| dest_id := dest; next_hop := hop; cost := c; timestamp := 0 |}.

(** A state with one subscriber, an empty routing table and no
    neighbour. *)
Definition alone : routing_state :=
  {| routing_table := [];
     neighbor_table := [];
     routing_callbacks := [1];
     routing_config := {| default_cost := 1; retry_count := 3;
                          retry_delay_ms := 500 |};
     routing_send_queue := [];
     config_ini := None;
     slept_ms := 0;
     notices := [];
     dispatched := [];
     send_task_blocked := false |}.

End Routing.

(* ------------------------------------------------------------------ *)
(** ** ota_module.c *)

Module Ota.
Import CInt CStr.

Definition OTA_PACKET_SIZE : Z := 1024.

Inductive ota_status_t : Type :=
| OTA_STATUS_IDLE
| OTA_STATUS_UPDATE_AVAILABLE
| OTA_STATUS_DOWNLOADING
| OTA_STATUS_DISTRIBUTING
| OTA_STATUS_APPLYING
| OTA_STATUS_SUCCESS
| OTA_STATUS_FAILURE
| OTA_STATUS_ROLLBACK.

Record ota_config_t : Type := {
  firmware_version_monitor : Z;
  firmware_version_acceleration : Z;
  firmware_version_steering : Z;
  firmware_version_motor : Z;
  firmware_version_brake : Z;
  topic_monitor : string;
  topic_acceleration : string;
  topic_steering : string;
  topic_motor : string;
  topic_brake : string;
  check_interval_ms : Z
}.

(** [const uint8_t *]: the buffer pointed into and the distance from
    its start. *)
Record pointer : Type := {
  block : list Z;
  offset : Z
}.

Record ota_segment_t : Type := {
  data : pointer;
  size : Z
}.

(** The bytes a descriptor designates. *)
Definition slice (g : ota_segment_t) : list Z :=
  firstn (Z.to_nat (size g)) (skipn (Z.to_nat (offset (data g))) (block (data g))).

(** What the module does to the outside, oldest first. *)
Inductive effect : Type :=
| Notified (callback : Z) (status : ota_status_t) (ecu : string)
| Downloaded (topic filename : string)
| MeshSent (ecu : string) (bytes : list Z) (length mode : Z)
| ConfigWritten (lines : list string).

(** [ota_config], [ota_segments], [ota_segment_count] and the fields of
    [ota_ctx]; [written] is what the module last stored in
    [config.ini], [trace] its effects. *)
Record ota_state : Type := {
  ota_config : ota_config_t;
  ota_segments : option (list ota_segment_t);
  ota_segment_count : Z;
  status : ota_status_t;
  current_ecu : string;
  firmware_size : Z;
  firmware_data : option (list Z);
  update_in_progress : bool;
  callbacks : list Z;
  written : option (list string);
  trace : list effect
}.

Definition ota_initial : ota_state :=
  {| ota_config :=
       {| firmware_version_monitor := 1;
          firmware_version_acceleration := 1;
          firmware_version_steering := 1;
          firmware_version_motor := 1;
          firmware_version_brake := 1;
          topic_monitor := "can-esp/firmware/update/monitor_ecu";
          topic_acceleration := "can-esp/firmware/update/acceleration_control_ecu";
          topic_steering := "can-esp/firmware/update/steering_control_ecu";
          topic_motor := "can-esp/firmware/update/motor_control_ecu";
          topic_brake := "can-esp/firmware/update/brake_control_ecu";
          check_interval_ms := 60000 |};
     ota_segments := None;
     ota_segment_count := 0;
     status := OTA_STATUS_IDLE;
     current_ecu := EmptyString;
     firmware_size := 0;
     firmware_data := None;
     update_in_progress := false;
     callbacks := [];
     written := None;
     trace := [] |}.

(** Field assignments. *)
Definition set_status (v : ota_status_t) (s : ota_state) : ota_state :=
  {| ota_config := ota_config s; ota_segments := ota_segments s;
     ota_segment_count := ota_segment_count s; status := v;
     current_ecu := current_ecu s; firmware_size := firmware_size s;
     firmware_data := firmware_data s;
     update_in_progress := update_in_progress s;
     callbacks := callbacks s; written := written s; trace := trace s |}.

Definition set_current_ecu (v : string) (s : ota_state) : ota_state :=
  {| ota_config := ota_config s; ota_segments := ota_segments s;
     ota_segment_count := ota_segment_count s; status := status s;
     current_ecu := v; firmware_size := firmware_size s;
     firmware_data := firmware_data s;
     update_in_progress := update_in_progress s;
     callbacks := callbacks s; written := written s; trace := trace s |}.

Definition set_in_progress (v : bool) (s : ota_state) : ota_state :=
  {| ota_config := ota_config s; ota_segments := ota_segments s;
     ota_segment_count := ota_segment_count s; status := status s;
     current_ecu := current_ecu s; firmware_size := firmware_size s;
     firmware_data := firmware_data s;
     update_in_progress := v;
     callbacks := callbacks s; written := written s; trace := trace s |}.

Definition set_firmware (d : option (list Z)) (n : Z) (s : ota_state)
  : ota_state :=
  {| ota_config := ota_config s; ota_segments := ota_segments s;
     ota_segment_count := ota_segment_count s; status := status s;
     current_ecu := current_ecu s; firmware_size := n;
     firmware_data := d;
     update_in_progress := update_in_progress s;
     callbacks := callbacks s; written := written s; trace := trace s |}.

Definition set_segments (g : option (list ota_segment_t)) (n : Z)
           (s : ota_state) : ota_state :=
  {| ota_config := ota_config s; ota_segments := g;
     ota_segment_count := n; status := status s;
     current_ecu := current_ecu s; firmware_size := firmware_size s;
     firmware_data := firmware_data s;
     update_in_progress := update_in_progress s;
     callbacks := callbacks s; written := written s; trace := trace s |}.

Definition set_written (w : option (list string)) (s : ota_state)
  : ota_state :=
  {| ota_config := ota_config s; ota_segments := ota_segments s;
     ota_segment_count := ota_segment_count s; status := status s;
     current_ecu := current_ecu s; firmware_size := firmware_size s;
     firmware_data := firmware_data s;
     update_in_progress := update_in_progress s;
     callbacks := callbacks s; written := w; trace := trace s |}.

Definition emit (l : list effect) (s : ota_state) : ota_state :=
  {| ota_config := ota_config s; ota_segments := ota_segments s;
     ota_segment_count := ota_segment_count s; status := status s;
     current_ecu := current_ecu s; firmware_size := firmware_size s;
     firmware_data := firmware_data s;
     update_in_progress := update_in_progress s;
     callbacks := callbacks s; written := written s;
     trace := trace s ++ l |}.

(** Modelled from the spec: [ota_notify_callbacks], declared but not
    defined in the sources at hand.  "Up to 5 event subscribers receive
    (state, ecu_id, opaque_data) on every state transition": every
    registered callback is called once with the status and the ECU. *)
Definition ota_notify_callbacks (st : ota_status_t) (ecu_id : string)
           (s : ota_state) : ota_state :=
  emit (map (fun cb => Notified cb st ecu_id) (callbacks s)) s.

(** Modelled from the spec: [ota_rollback], declared but not defined in
    the sources at hand.  "Sets ROLLBACK, notifies"; the comment in
    [ota_module_rollback_update] says the same of it. *)
Definition ota_rollback (ecu_id : string) (s : ota_state) : ota_state :=
  let s1 := set_status OTA_STATUS_ROLLBACK s in
  ota_notify_callbacks (status s1) ecu_id s1.

(** [ota_module_register_callback]; [None] is a null pointer. *)
Definition ota_module_register_callback (callback : option Z)
           (s : ota_state) : bool * ota_state :=
  match callback with
  | None => (false, s)
  | Some cb =>
    if 5 <=? Z.of_nat (List.length (callbacks s)) then (false, s)
    else
      (true,
       {| ota_config := ota_config s; ota_segments := ota_segments s;
          ota_segment_count := ota_segment_count s; status := status s;
          current_ecu := current_ecu s; firmware_size := firmware_size s;
          firmware_data := firmware_data s;
          update_in_progress := update_in_progress s;
          callbacks := callbacks s ++ [cb]; written := written s;
          trace := trace s |})
  end.

(** The five ECUs the [strcmp] chains of the module tell apart. *)
Inductive ecu_slot : Type :=
| Monitor | Acceleration | Steering | Motor | Brake.

Definition slot_of (ecu_id : string) : option ecu_slot :=
  if strcmp_eq ecu_id "monitor_ecu" then Some Monitor
  else if strcmp_eq ecu_id "acceleration_control_ecu" then Some Acceleration
  else if strcmp_eq ecu_id "steering_control_ecu" then Some Steering
  else if strcmp_eq ecu_id "motor_control_ecu" then Some Motor
  else if strcmp_eq ecu_id "brake_control_ecu" then Some Brake
  else None.

Definition slot_name (k : ecu_slot) : string :=
  match k with
  | Monitor => "monitor_ecu"
  | Acceleration => "acceleration_control_ecu"
  | Steering => "steering_control_ecu"
  | Motor => "motor_control_ecu"
  | Brake => "brake_control_ecu"
  end.

Definition installed_version (c : ota_config_t) (k : ecu_slot) : Z :=
  match k with
  | Monitor => firmware_version_monitor c
  | Acceleration => firmware_version_acceleration c
  | Steering => firmware_version_steering c
  | Motor => firmware_version_motor c
  | Brake => firmware_version_brake c
  end.

Definition topic_of (c : ota_config_t) (k : ecu_slot) : string :=
  match k with
  | Monitor => topic_monitor c
  | Acceleration => topic_acceleration c
  | Steering => topic_steering c
  | Motor => topic_motor c
  | Brake => topic_brake c
  end.

(** [ota_module_check_version]. *)
Definition ota_module_check_version (ecu_id : option string)
           (available_version : Z) (s : ota_state) : bool * ota_state :=
  match ecu_id with
  | None => (false, s)
  | Some ecu =>
    match slot_of ecu with
    | None => (false, s)
    | Some k =>
      if installed_version (ota_config s) k <? available_version then
        let s1 := set_status OTA_STATUS_UPDATE_AVAILABLE s in
        let s2 := set_current_ecu (bounded_copy 32 ecu) s1 in
        (true, ota_notify_callbacks (status s2) ecu s2)
      else (false, s)
    end
  end.

(** [ota_module_check_update]; [advertised] is the version
    [mqtt_connection_module_get_update_version] stored, [None] when it
    returned false. *)
Definition ota_module_check_update (advertised : option Z) (s : ota_state)
  : bool * ota_state :=
  match advertised with
  | None => (false, s)
  | Some available_version =>
    ota_module_check_version (Some "monitor_ecu"%string) available_version s
  end.

(** [ota_module_load_firmware]; [file_data], [file_size] are what
    [sd_storage_module_read_file] returned. *)
Definition ota_module_load_firmware (file_data : option (list Z))
           (file_size : Z) (s : ota_state) : bool * ota_state :=
  match file_data with
  | None => (false, s)
  | Some d =>
    if file_size =? 0 then (false, s)
    else (true, set_firmware (Some d) file_size s)
  end.

(** Answers of the collaborators of [ota_module_download_firmware]. *)
Record download_env : Type := {
  download_ok : bool;             (* mqtt_connection_module_download_file *)
  file_data : option (list Z);    (* sd_storage_module_read_file *)
  file_size : Z
}.

(** [ota_module_download_firmware]. *)
Definition ota_module_download_firmware (e : download_env)
           (ecu_id : option string) (s : ota_state) : bool * ota_state :=
  match ecu_id with
  | None => (false, s)
  | Some ecu =>
    if update_in_progress s then (false, s)
    else
      let s1 := set_in_progress true s in
      let s2 := set_status OTA_STATUS_DOWNLOADING s1 in
      let s3 := ota_notify_callbacks (status s2) ecu s2 in
      match slot_of ecu with
      | None => (false, set_in_progress false s3)
      | Some k =>
        let topic := topic_of (ota_config s3) k in
        let version := installed_version (ota_config s3) k in
        let filename :=
          bounded_copy 128
            ("firmware_" ++ slot_name k ++ "_v" ++ dec version ++ ".bin") in
        let s4 := emit [Downloaded topic filename] s3 in
        if negb (download_ok e) then
          let s5 := set_status OTA_STATUS_FAILURE (set_in_progress false s4) in
          (false, ota_notify_callbacks (status s5) ecu s5)
        else
          let '(loaded, s5) :=
            ota_module_load_firmware (file_data e) (file_size e) s4 in
          if negb loaded then
            let s6 := set_status OTA_STATUS_FAILURE (set_in_progress false s5) in
            (false, ota_notify_callbacks (status s6) ecu s6)
          else (true, s5)
      end
  end.

(** The descriptor written at index [i] by the loop of
    [ota_module_segment_firmware]. *)
Definition segment_at (buf : list Z) (firmware_size : Z) (i : Z)
  : ota_segment_t :=
  let start := to_u32 (i * OTA_PACKET_SIZE) in
  {| data := {| block := buf; offset := start |};
     size := if OTA_PACKET_SIZE <=? to_u32 (firmware_size - start)
             then OTA_PACKET_SIZE
             else to_u32 (firmware_size - start) |}.

(** [ota_module_segment_firmware]; [malloc_ok] is whether [malloc]
    returned a block. *)
Definition ota_module_segment_firmware (malloc_ok : bool)
           (firmware_data : option (list Z)) (firmware_size : Z)
           (s : ota_state) : bool * ota_state :=
  match firmware_data with
  | None => (false, s)
  | Some buf =>
    if firmware_size =? 0 then (false, s)
    else
      let num_segments :=
        to_u32 (firmware_size + OTA_PACKET_SIZE - 1) / OTA_PACKET_SIZE in
      if negb malloc_ok then
        (false, set_segments None (ota_segment_count s) s)
      else
        (true,
         set_segments
           (Some (map (fun i => segment_at buf firmware_size (Z.of_nat i))
                      (seq 0 (Z.to_nat num_segments))))
           num_segments s)
  end.

(** The [for] loop of [ota_module_distribute_firmware] from index [i]
    on: [true] when every remaining segment was accepted by
    [routing_module_send_message], whose answer for segment [k] is
    [accepted k]. *)
Fixpoint send_segments (accepted : nat -> bool) (ecu : string) (i : nat)
         (segments : list ota_segment_t) (s : ota_state) : bool * ota_state :=
  match segments with
  | [] => (true, s)
  | g :: rest =>
    let s1 := emit [MeshSent ecu (slice g) (to_u16 (size g)) 0] s in
    if accepted i then send_segments accepted ecu (S i) rest s1
    else (false, s1)
  end.

(** [ota_module_distribute_firmware]. *)
Definition ota_module_distribute_firmware (accepted : nat -> bool)
           (ecu_id : option string) (s : ota_state) : bool * ota_state :=
  match ecu_id with
  | None => (false, s)
  | Some ecu =>
    match ota_segments s with
    | None => (false, s)
    | Some segments =>
      let s1 := set_status OTA_STATUS_DISTRIBUTING s in
      let s2 := ota_notify_callbacks (status s1) ecu s1 in
      let '(sent, s3) :=
        send_segments accepted ecu 0
          (firstn (Z.to_nat (ota_segment_count s2)) segments) s2 in
      if sent then (true, set_segments None 0 s3)
      else
        let s4 := set_status OTA_STATUS_FAILURE s3 in
        let s5 := ota_notify_callbacks (status s4) ecu s4 in
        (false, set_segments None 0 s5)
    end
  end.

(** The text [ota_module_update_config] formats, line by line. *)
Definition config_lines (c : ota_config_t) : list string :=
  [ ("OTA_FIRMWARE_VERSION_MONITOR=" ++ dec (firmware_version_monitor c))%string;
    ("OTA_FIRMWARE_VERSION_ACCELERATION=" ++ dec (firmware_version_acceleration c))%string;
    ("OTA_FIRMWARE_VERSION_STEERING=" ++ dec (firmware_version_steering c))%string;
    ("OTA_FIRMWARE_VERSION_MOTOR=" ++ dec (firmware_version_motor c))%string;
    ("OTA_FIRMWARE_VERSION_BRAKE=" ++ dec (firmware_version_brake c))%string;
    ("MQTT_TOPIC_MONITOR=" ++ topic_monitor c)%string;
    ("MQTT_TOPIC_ACCELERATION=" ++ topic_acceleration c)%string;
    ("MQTT_TOPIC_STEERING=" ++ topic_steering c)%string;
    ("MQTT_TOPIC_MOTOR=" ++ topic_motor c)%string;
    ("MQTT_TOPIC_BRAKE=" ++ topic_brake c)%string;
    ("OTA_CHECK_INTERVAL_MS=" ++ dec (check_interval_ms c))%string ].

(** [ota_module_update_config]; [write_ok] is the answer of
    [sd_storage_module_write_file].  The code formats the text in the
    512 bytes of [config_buffer]; the model writes the lines in full and
    follows the code while the text fits that buffer. *)
Definition ota_module_update_config (write_ok : bool) (s : ota_state)
  : bool * ota_state :=
  let lines := config_lines (ota_config s) in
  if negb write_ok then (false, s)
  else (true, emit [ConfigWritten lines] (set_written (Some lines) s)).

(** Answers of the platform to [ota_module_apply_update]. *)
Record apply_env : Type := {
  partition_found : bool;    (* esp_ota_get_next_update_partition *)
  begin_ok : bool;           (* esp_ota_begin *)
  write_ok : bool;           (* esp_ota_write *)
  end_ok : bool;             (* esp_ota_end *)
  set_boot_ok : bool;        (* esp_ota_set_boot_partition *)
  config_write_ok : bool     (* sd_storage_module_write_file *)
}.

(** The block every failing step of [ota_module_apply_update] runs. *)
Definition apply_failed (ecu : string) (s : ota_state) : bool * ota_state :=
  let s1 := set_status OTA_STATUS_FAILURE s in
  let s2 := ota_notify_callbacks (status s1) ecu s1 in
  (false, ota_rollback ecu s2).

(** [ota_module_apply_update]. *)
Definition ota_module_apply_update (e : apply_env) (ecu_id : option string)
           (s : ota_state) : bool * ota_state :=
  match ecu_id with
  | None => (false, s)
  | Some ecu =>
    let s1 := set_status OTA_STATUS_APPLYING s in
    let s2 := ota_notify_callbacks (status s1) ecu s1 in
    if negb (partition_found e) then apply_failed ecu s2
    else if negb (begin_ok e) then apply_failed ecu s2
    else if negb (write_ok e) then apply_failed ecu s2
    else if negb (end_ok e) then apply_failed ecu s2
    else if negb (set_boot_ok e) then apply_failed ecu s2
    else
      let s3 := set_status OTA_STATUS_SUCCESS s2 in
      let s4 := ota_notify_callbacks (status s3) ecu s3 in
      let '(_, s5) := ota_module_update_config (config_write_ok e) s4 in
      let s6 := set_firmware None (firmware_size s5) s5 in
      (true, set_in_progress false s6)
  end.

(** [ota_module_rollback_update]. *)
Definition ota_module_rollback_update (ecu_id : string) (s : ota_state)
  : bool * ota_state := (true, ota_rollback ecu_id s).

(** The installed version the configuration records for an ECU name. *)
Definition installed (ecu_id : string) (s : ota_state) : option Z :=
  match slot_of ecu_id with
  | Some k => Some (installed_version (ota_config s) k)
  | None => None
  end.

(** A call into the module together with the answers of the
    collaborators it consults.  Reloading [config.ini], which takes the
    versions from outside the module, is not among them. *)
Inductive ota_call : Type :=
| CheckVersion (ecu_id : option string) (available_version : Z)
| CheckUpdate (advertised : option Z)
| Download (e : download_env) (ecu_id : option string)
| Segment (malloc_ok : bool) (firmware_data : option (list Z))
          (firmware_size : Z)
| Distribute (accepted : nat -> bool) (ecu_id : option string)
| Apply (e : apply_env) (ecu_id : option string)
| Rollback (ecu_id : string)
| UpdateConfig (write_ok : bool).

Definition ota_step (s : ota_state) (c : ota_call) : ota_state :=
  match c with
  | CheckVersion ecu v => snd (ota_module_check_version ecu v s)
  | CheckUpdate adv => snd (ota_module_check_update adv s)
  | Download e ecu => snd (ota_module_download_firmware e ecu s)
  | Segment ok d n => snd (ota_module_segment_firmware ok d n s)
  | Distribute acc ecu => snd (ota_module_distribute_firmware acc ecu s)
  | Apply e ecu => snd (ota_module_apply_update e ecu s)
  | Rollback ecu => snd (ota_module_rollback_update ecu s)
  | UpdateConfig ok => snd (ota_module_update_config ok s)
  end.

Definition ota_run (calls : list ota_call) (s : ota_state) : ota_state :=
  fold_left ota_step calls s.

(** The monitor with one subscriber, version 1 installed everywhere. *)
Definition subscribed : ota_state :=
  snd (ota_module_register_callback (Some 1) ota_initial).

(** A firmware image of 2500 bytes and collaborators that all succeed. *)
Definition firmware : list Z := repeat 7 2500.

Definition download_fine : download_env :=
  {| download_ok := true; file_data := Some firmware; file_size := 2500 |}.

Definition platform_fine : apply_env :=
  {| partition_found := true; begin_ok := true; write_ok := true;
     end_ok := true; set_boot_ok := true; config_write_ok := true |}.

(** Download, segmentation and distribution of the 2500-byte firmware. *)
Definition pipeline : list ota_call :=
  [ Download download_fine (Some "monitor_ecu"%string);
    Segment true (Some firmware) 2500;
    Distribute (fun _ => true) (Some "monitor_ecu"%string) ].

(** The monitor update after its download: in progress. *)
Definition downloading : ota_state :=
  ota_run [ CheckVersion (Some "monitor_ecu"%string) 2;
            Download download_fine (Some "monitor_ecu"%string) ] subscribed.

End Ota.

(* ------------------------------------------------------------------ *)
(** ** alert_module.c *)

Module Alert.
Import CInt CStr.

Definition ALERT_HISTORY_SIZE : Z := 100.

Inductive AlertLevel_t : Type :=
| ALERT_LEVEL_INFO
| ALERT_LEVEL_WARNING
| ALERT_LEVEL_CRITICAL.

Record AlertData_t : Type := {
  timestamp : Z;
  level : AlertLevel_t;
  message : string      (* char message[128] *)
}.

Record AlertThresholds_t : Type := {
  tx_error_threshold : Z;
  rx_error_threshold : Z;
  bus_load_threshold : Z;
  retransmission_threshold : Z
}.

(** The fields of [DiagnosisData_t] that the module reads. *)
Record DiagnosisData_t : Type := {
  bus_off : bool;
  tx_error_counter : Z;
  rx_error_counter : Z;
  bus_load : Z;
  retransmission_count : Z
}.

(** What the module does to the outside, oldest first: a read of the
    clock, a message handed to [logger_module_log_alert], and a call of
    the function stored by
    [alert_module_register_notification_callback]. *)
Inductive effect : Type :=
| RtcRead
| LoggedAlert (lvl : AlertLevel_t) (msg : string)
| NotificationCallback (callback : Z) (alert : AlertData_t).

(** The statics of the module; [notification_callback] is [None] while
    the pointer is null. *)
Record alert_state : Type := {
  alert_history : list AlertData_t;   (* ALERT_HISTORY_SIZE cells *)
  alert_index : Z;
  alert_thresholds : AlertThresholds_t;
  notification_callback : option Z;
  trace : list effect
}.

Definition blank : AlertData_t :=
  {| timestamp := 0; level := ALERT_LEVEL_INFO; message := EmptyString |}.

Definition alert_boot : alert_state :=
  {| alert_history := repeat blank (Z.to_nat ALERT_HISTORY_SIZE);
     alert_index := 0;
     alert_thresholds := {| tx_error_threshold := 100;
                            rx_error_threshold := 100;
                            bus_load_threshold := 80;
                            retransmission_threshold := 50 |};
     notification_callback := None;
     trace := [] |}.

(** [alert_module_init]. *)
Definition alert_module_init (s : alert_state) : bool * alert_state :=
  (true,
   {| alert_history := repeat blank (Z.to_nat ALERT_HISTORY_SIZE);
      alert_index := 0;
      alert_thresholds := alert_thresholds s;
      notification_callback := notification_callback s;
      trace := trace s |}).

(** [alert_history[i] = a]. *)
Definition put (h : list AlertData_t) (i : Z) (a : AlertData_t)
  : list AlertData_t :=
  firstn (Z.to_nat i) h ++ a :: skipn (S (Z.to_nat i)) h.

(** [register_alert]; [now] is what [logger_module_get_rtc_timestamp]
    returns. *)
Definition register_alert (now : Z) (lvl : AlertLevel_t)
           (msg : option string) (s : alert_state) : alert_state :=
  match msg with
  | None => s
  | Some text =>
    let entry := {| timestamp := now; level := lvl;
                    message := bounded_copy 128 text |} in
    {| alert_history := put (alert_history s) (alert_index s) entry;
       alert_index := to_u32 (alert_index s + 1) mod ALERT_HISTORY_SIZE;
       alert_thresholds := alert_thresholds s;
       notification_callback := notification_callback s;
       trace := trace s ++ [RtcRead; LoggedAlert lvl (message entry)] |}
  end.

(** [alert_module_check_conditions]; [clock k] is the timestamp read by
    the [k]-th alert of the call. *)
Definition alert_module_check_conditions (clock : nat -> Z)
           (diag : option DiagnosisData_t) (s : alert_state) : alert_state :=
  match diag with
  | None => s
  | Some d =>
    let t := alert_thresholds s in
    let s1 :=
      if bus_off d
      then register_alert (clock 0%nat) ALERT_LEVEL_CRITICAL
             (Some "Estado Bus-Off detectado!"%string) s
      else s in
    let s2 :=
      if (tx_error_threshold t <? tx_error_counter d)
         || (rx_error_threshold t <? rx_error_counter d)
      then register_alert (clock 1%nat) ALERT_LEVEL_WARNING
             (Some "Alta taxa de erros na rede CAN!"%string) s1
      else s1 in
    let s3 :=
      if bus_load_threshold t <? bus_load d
      then register_alert (clock 2%nat) ALERT_LEVEL_WARNING
             (Some "Carga do barramento CAN acima do limiar!"%string) s2
      else s2 in
    if retransmission_threshold t <? retransmission_count d
    then register_alert (clock 3%nat) ALERT_LEVEL_WARNING
           (Some "Alta taxa de retransmissões na rede CAN!"%string) s3
    else s3
  end.

(** [alert_module_get_history]: the number of entries copied and the
    caller's buffer afterwards ([None] for a null pointer). *)
Definition alert_module_get_history (buffer : option (list AlertData_t))
           (max_entries : Z) (s : alert_state)
  : Z * option (list AlertData_t) :=
  let count := if max_entries <? ALERT_HISTORY_SIZE
               then max_entries else ALERT_HISTORY_SIZE in
  (count,
   match buffer with
   | Some b => Some (firstn (Z.to_nat count) (alert_history s)
                       ++ skipn (Z.to_nat count) b)
   | None => None
   end).

(** [alert_module_set_thresholds]. *)
Definition alert_module_set_thresholds (thresholds : option AlertThresholds_t)
           (s : alert_state) : alert_state :=
  match thresholds with
  | None => s
  | Some t =>
    {| alert_history := alert_history s;
       alert_index := alert_index s;
       alert_thresholds := t;
       notification_callback := notification_callback s;
       trace := trace s |}
  end.

(** [alert_module_register_notification_callback]. *)
Definition alert_module_register_notification_callback (callback : option Z)
           (s : alert_state) : alert_state :=
  {| alert_history := alert_history s;
     alert_index := alert_index s;
     alert_thresholds := alert_thresholds s;
     notification_callback := callback;
     trace := trace s |}.

(** A call into the module, with the answers of the clock it needs. *)
Inductive call : Type :=
| Init
| CheckConditions (clock : nat -> Z) (diag : option DiagnosisData_t)
| GetHistory (buffer : option (list AlertData_t)) (max_entries : Z)
| PrintHistory
| SetThresholds (thresholds : option AlertThresholds_t)
| RegisterNotificationCallback (callback : option Z).

Definition step (s : alert_state) (c : call) : alert_state :=
  match c with
  | Init => snd (alert_module_init s)
  | CheckConditions clock diag => alert_module_check_conditions clock diag s
  | GetHistory _ _ => s
  | PrintHistory => s
  | SetThresholds t => alert_module_set_thresholds t s
  | RegisterNotificationCallback cb =>
    alert_module_register_notification_callback cb s
  end.

Definition run (calls : list call) (s : alert_state) : alert_state :=
  fold_left step calls s.

(** The ring as the code keeps it: [ALERT_HISTORY_SIZE] cells and a
    write index inside them. *)
Definition ring_ok (s : alert_state) : Prop :=
  0 <= alert_index s < ALERT_HISTORY_SIZE
  /\ Z.of_nat (List.length (alert_history s)) = ALERT_HISTORY_SIZE.

Definition is_notification (e : effect) : bool :=
  match e with NotificationCallback _ _ => true | _ => false end.

(** The calls of the registered notification callback in a trace. *)
Definition notifications (l : list effect) : list effect :=
  filter is_notification l.

End Alert.

(* ------------------------------------------------------------------ *)
(** ** can_esp_lib.c: metrics getters and the loopback self-test *)

Module CanMetrics.
Import CInt CanFrame CanTx.

Definition CAN_ESP_SELF_TEST_ID : Z := 0x0F000001.

(** [CAN_ESP_GetBusLoad]; [busLoadStartTime] is the static set by the
    initialisation and [now] what [esp_timer_get_time] returns.  The
    division is C's, on [int64_t]: it truncates toward zero. *)
Definition CAN_ESP_GetBusLoad (busLoadStartTime now : Z) (s : tx_state) : Z :=
  let elapsed := now - busLoadStartTime in
  if elapsed <=? 0 then 0
  else to_u32 (Z.quot (busLoadTotalTime s * 100) elapsed).

(** [CAN_ESP_GetRetransmissionCount], [CAN_ESP_GetTransmissionAttempts]
    and [CAN_ESP_GetCollisionCount]. *)
Definition CAN_ESP_GetRetransmissionCount (s : tx_state) : Z :=
  totalRetransmissions s.

Definition CAN_ESP_GetTransmissionAttempts (s : tx_state) : Z :=
  totalTransmissionAttempts s.

Definition CAN_ESP_GetCollisionCount (s : tx_state) : Z :=
  totalCollisions s.

(** [CAN_ESP_GetCollisionRate]: the product is formed in 64 bits. *)
Definition CAN_ESP_GetCollisionRate (s : tx_state) : Z :=
  if totalTransmissionAttempts s =? 0 then 0
  else to_u32 ((totalCollisions s * 100) / totalTransmissionAttempts s).

Record CanEspQueueStatus_t : Type := {
  messages_waiting : Z;
  queue_capacity : Z
}.

(** [CAN_ESP_GetQueueStatus]; [status] is the caller's struct, [None]
    for a null pointer. *)
Definition CAN_ESP_GetQueueStatus (status : option CanEspQueueStatus_t)
           (s : tx_state) : can_esp_status_t * option CanEspQueueStatus_t :=
  match status with
  | None => (CAN_ESP_ERR_NULL_POINTER, None)
  | Some st =>
    match txQueue s with
    | None => (CAN_ESP_ERR_UNKNOWN, Some st)
    | Some q =>
      (CAN_ESP_OK,
       Some {| messages_waiting := Z.of_nat (List.length q);
               queue_capacity := TX_QUEUE_LENGTH |})
    end
  end.

(** [CAN_ESP_GetLatencyMetrics]. *)
Definition CAN_ESP_GetLatencyMetrics (metrics : option CanEspLatencyMetrics_t)
           (s : tx_state) : can_esp_status_t * option CanEspLatencyMetrics_t :=
  match metrics with
  | None => (CAN_ESP_ERR_NULL_POINTER, None)
  | Some _ => (CAN_ESP_OK, Some (latencyMetrics s))
  end.

(** The eight bytes of an [int64_t] as [memcpy] reads them on the
    little-endian target. *)
Definition int64_bytes (t : Z) : list Z :=
  map (fun k => Z.land (Z.shiftr t (8 * Z.of_nat k)) 0xFF) (seq 0 8).

Definition set_self_rx (v : bool) (c : CanEspConfig_t) : CanEspConfig_t :=
  {| transmit_timeout_ms := transmit_timeout_ms c;
     receive_timeout_ms := receive_timeout_ms c;
     debug_level := debug_level c;
     self_rx := v;
     use_checksum := use_checksum c |}.

(** What the collaborators answer during one self-test. *)
Record rtt_env : Type := {
  send_timestamp : Z;               (* esp_timer_get_time at the start *)
  rtt_junk : list Z;                (* the uninitialised frame of the send *)
  rtt_transmit_ok : bool;           (* twai_transmit returned ESP_OK *)
  rtt_rx_msg : CanEspMessage_t;     (* the uninitialised local rx_msg *)
  rtt_rx : option twai_message_t;   (* what twai_receive delivered *)
  finish_timestamp : Z              (* esp_timer_get_time at the end *)
}.

(** What a self-test did: its status, the value stored through
    [round_trip_time] (if any), [currentConfig] afterwards, the frame
    given to the driver (if any) and the transmit-callback invocations. *)
Record rtt_outcome : Type := {
  rtt_status : can_esp_status_t;
  rtt_stored : option Z;
  rtt_config : CanEspConfig_t;
  rtt_handed : option twai_message_t;
  rtt_callbacks : list tx_callback_event
}.

(** [CAN_ESP_MeasureRoundTripTime]; [round_trip_time] tells whether the
    pointer is non-null. *)
Definition CAN_ESP_MeasureRoundTripTime (currentConfig : CanEspConfig_t)
           (cb : bool) (e : rtt_env) (round_trip_time : bool) : rtt_outcome :=
  if negb round_trip_time then
    {| rtt_status := CAN_ESP_ERR_NULL_POINTER; rtt_stored := None;
       rtt_config := currentConfig; rtt_handed := None; rtt_callbacks := [] |}
  else
    let payload := int64_bytes (send_timestamp e) in
    let original_self_rx := self_rx currentConfig in
    let testing := set_self_rx true currentConfig in
    let sent := CAN_ESP_SendMessage testing cb (rtt_junk e) (rtt_transmit_ok e)
                  CAN_ESP_SELF_TEST_ID (Some payload) 8 in
    let restored := set_self_rx original_self_rx testing in
    match send_status sent with
    | CAN_ESP_OK =>
      match CAN_ESP_ReceiveMessage testing (Some (rtt_rx_msg e)) (rtt_rx e) with
      | (CAN_ESP_OK, Some rx_msg) =>
        if length rx_msg <? 8 then
          {| rtt_status := CAN_ESP_ERR_RECEIVE; rtt_stored := None;
             rtt_config := restored; rtt_handed := handed_to_driver sent;
             rtt_callbacks := send_callbacks sent |}
        else
          {| rtt_status := CAN_ESP_OK;
             rtt_stored := Some (finish_timestamp e - send_timestamp e);
             rtt_config := restored; rtt_handed := handed_to_driver sent;
             rtt_callbacks := send_callbacks sent |}
      | (status, _) =>
        {| rtt_status := status; rtt_stored := None;
           rtt_config := restored; rtt_handed := handed_to_driver sent;
           rtt_callbacks := send_callbacks sent |}
      end
    | status =>
      {| rtt_status := status; rtt_stored := None;
         rtt_config := restored; rtt_handed := handed_to_driver sent;
         rtt_callbacks := send_callbacks sent |}
    end.

(** A configuration with checksum mode off. *)
Definition plain_cfg : CanEspConfig_t :=
  {| transmit_timeout_ms := 1000; receive_timeout_ms := 1000;
     debug_level := 2; self_rx := false; use_checksum := false |}.

(** The driver accepting a frame after [t] microseconds. *)
Definition acceptance (t : Z) : tx_env :=
  {| transmit_ok := true; tx_start := 0; tx_end := t |}.

(** The counters of the transmit path after at most [k] effective
    turns of the task, none of them having wrapped. *)
Definition tallied (k : Z) (s : tx_state) : Prop :=
  let lm := latencyMetrics s in
  0 <= totalCollisions s
  /\ totalCollisions s = totalRetransmissions s
  /\ totalCollisions s <= totalTransmissionAttempts s <= k
  /\ 0 <= num_samples lm <= k
  /\ busLoadTotalTime s = total_latency lm
  /\ num_samples lm * min_latency lm <= total_latency lm
     <= num_samples lm * max_latency lm.

(** Every queued message carries a [retry_count] of zero. *)
Definition fresh_queue (s : tx_state) : Prop :=
  match txQueue s with
  | Some q => Forall (fun m => retry_count m = 0) q
  | None => True
  end.

End CanMetrics.

(* ------------------------------------------------------------------ *)
(** ** routing_module.c: subscribers and mesh events *)

Module RoutingRegistry.
Import CInt CStr Routing.

Definition MAX_ROUTING_CALLBACKS : Z := 10.

Definition MESH_EVENT_NEIGHBOR_CHANGE : Z := 5.
Definition MESH_EVENT_PARENT_CONNECTED : Z := 6.
Definition MESH_EVENT_ROOT_SWITCHED : Z := 7.

Definition set_callbacks (l : list Z) (s : routing_state) : routing_state :=
  {| routing_table := routing_table s;
     neighbor_table := neighbor_table s;
     routing_callbacks := l;
     routing_config := routing_config s;
     routing_send_queue := routing_send_queue s;
     config_ini := config_ini s;
     slept_ms := slept_ms s;
     notices := notices s;
     dispatched := dispatched s;
     send_task_blocked := send_task_blocked s |}.

(** [routing_module_register_callback]; [None] is a null pointer.  The
    test for a full array comes before the scan for the callback. *)
Definition routing_module_register_callback (callback : option Z)
           (s : routing_state) : bool * routing_state :=
  match callback with
  | None => (false, s)
  | Some cb =>
    if MAX_ROUTING_CALLBACKS <=? Z.of_nat (List.length (routing_callbacks s))
    then (false, s)
    else if existsb (Z.eqb cb) (routing_callbacks s) then (true, s)
    else (true, set_callbacks (routing_callbacks s ++ [cb]) s)
  end.

(** The scan of [routing_module_unregister_callback]: the first cell
    holding the callback is taken out and the later ones move down. *)
Fixpoint take_out (cb : Z) (l : list Z) : option (list Z) :=
  match l with
  | [] => None
  | x :: rest =>
    if x =? cb then Some rest
    else match take_out cb rest with
         | Some rest' => Some (x :: rest')
         | None => None
         end
  end.

(** [routing_module_unregister_callback]. *)
Definition routing_module_unregister_callback (callback : option Z)
           (s : routing_state) : bool * routing_state :=
  match callback with
  | None => (false, s)
  | Some cb =>
    match take_out cb (routing_callbacks s) with
    | Some l => (true, set_callbacks l s)
    | None => (false, s)
    end
  end.

(** A call of one of the two registry functions. *)
Inductive registry_call : Type :=
| Register (callback : option Z)
| Unregister (callback : option Z).

Definition registry_step (s : routing_state) (c : registry_call)
  : routing_state :=
  match c with
  | Register cb => snd (routing_module_register_callback cb s)
  | Unregister cb => snd (routing_module_unregister_callback cb s)
  end.

Definition registry_run (calls : list registry_call) (s : routing_state)
  : routing_state := fold_left registry_step calls s.

(** [routing_module_process_mesh_event]; [event_data] is [None] for a
    null pointer, and is read as a neighbour table by the
    neighbour-change event only. *)
Definition routing_module_process_mesh_event (event_id : Z)
           (event_data : option (list neighbor_table_entry_t)) (tick : Z)
           (s : routing_state) : bool * routing_state :=
  match event_data with
  | None => (false, s)
  | Some _ =>
    if event_id =? MESH_EVENT_NEIGHBOR_CHANGE
    then routing_module_update_topology event_data tick s
    else if event_id =? MESH_EVENT_PARENT_CONNECTED
    then routing_module_recalculate_routes tick s
    else if event_id =? MESH_EVENT_ROOT_SWITCHED
    then routing_module_recalculate_routes tick s
    else (false, s)
  end.

(** The notice every subscriber gets when a destination has no route. *)
Definition failure_notice (dest : string) (cb : Z) : notice :=
  {| to_callback := cb; event := ROUTING_EVENT_ROUTE_FAILURE;
     about := Some dest |}.

(** [routing_module_send_task] over [turns] turns of its loop: a task
    that waits for the mutex makes no further turn. *)
Fixpoint routing_module_send_task (turns : nat) (tick : nat -> Z)
         (s : routing_state) : routing_state :=
  match turns with
  | O => s
  | S n =>
    if send_task_blocked s then s
    else routing_module_send_task n tick
           (routing_module_send_task_iteration tick s)
  end.

End RoutingRegistry.

(* ------------------------------------------------------------------ *)
(** ** routing_module.c: reading [config.ini] *)

Module ConfigFile.
Import CInt CStr Routing.

Definition newline : ascii := "010"%char.

(** [isspace] in the C locale. *)
Definition isspace (c : ascii) : bool :=
  match c with
  | " "%char | "009"%char | "010"%char | "011"%char | "012"%char
  | "013"%char => true
  | _ => false
  end.

(** [isdigit (c)] and [c - '0']. *)
Definition digit_of (c : ascii) : option Z :=
  let code := Z.of_N (N_of_ascii c) in
  if (48 <=? code) && (code <=? 57) then Some (code - 48) else None.

(** The digits at the start of [s], read in base ten onto [acc]. *)
Fixpoint digits_value (s : string) (acc : Z) : Z :=
  match s with
  | EmptyString => acc
  | String c rest =>
    match digit_of c with
    | Some d => digits_value rest (10 * acc + d)
    | None => acc
    end
  end.

Fixpoint skip_spaces (s : string) : string :=
  match s with
  | EmptyString => EmptyString
  | String c rest => if isspace c then skip_spaces rest else s
  end.

(** [atoi]: white space, an optional sign, then digits.  The value is
    the mathematical one; C leaves the result undefined when it does
    not fit an [int]. *)
Definition atoi (s : string) : Z :=
  match skip_spaces s with
  | String "-"%char rest => - digits_value rest 0
  | String "+"%char rest => digits_value rest 0
  | body => digits_value body 0
  end.

(** [p + n] for a pointer [p] into a C string at least [n] long. *)
Fixpoint drop (n : nat) (s : string) : string :=
  match n, s with
  | O, _ => s
  | S n', String _ rest => drop n' rest
  | S _, EmptyString => EmptyString
  end.

(** The effect of [*strchr (line, '\n') = '\0'] when the search
    succeeds: the string ends before its first newline. *)
Fixpoint until_newline (s : string) : string :=
  match s with
  | EmptyString => EmptyString
  | String c rest =>
    if Ascii.eqb c newline then EmptyString else String c (until_newline rest)
  end.

(** What successive calls of [fgets (buf, size, file)] return while
    they read [text], a line of the file with its newline at the end:
    pieces of [size - 1] characters, then the remainder. *)
Fixpoint fgets_pieces (fuel size : nat) (text : string) : list string :=
  match fuel with
  | O => []
  | S fuel' =>
    if (String.length text <=? size - 1)%nat then [text]
    else substring 0 (size - 1) text
         :: fgets_pieces fuel' size
              (substring (size - 1) (String.length text - (size - 1)) text)
  end.

(** Every string [fgets] returns for a file given line by line (a line
    holds no newline character; the file has one after each line). *)
Definition file_reads (size : nat) (lines : list string) : list string :=
  flat_map (fun line =>
              fgets_pieces (S (String.length line)) size
                           (line ++ String newline EmptyString))
           lines.

(** The body of the [while] loop of [routing_module_load_config], the
    newline already cut off. *)
Definition read_routing_line (config_line : string) (c : routing_config_t)
  : routing_config_t :=
  if strncmp_eq 21 config_line "ROUTING_DEFAULT_COST=" then
    {| default_cost := to_u8 (atoi (drop 21 config_line));
       retry_count := retry_count c;
       retry_delay_ms := retry_delay_ms c |}
  else if strncmp_eq 20 config_line "ROUTING_RETRY_COUNT=" then
    {| default_cost := default_cost c;
       retry_count := to_u8 (atoi (drop 20 config_line));
       retry_delay_ms := retry_delay_ms c |}
  else if strncmp_eq 23 config_line "ROUTING_RETRY_DELAY_MS=" then
    {| default_cost := default_cost c;
       retry_count := retry_count c;
       retry_delay_ms := to_u32 (atoi (drop 23 config_line)) |}
  else c.

Definition set_routing_config (c : routing_config_t) (s : routing_state)
  : routing_state :=
  {| routing_table := routing_table s;
     neighbor_table := neighbor_table s;
     routing_callbacks := routing_callbacks s;
     routing_config := c;
     routing_send_queue := routing_send_queue s;
     config_ini := config_ini s;
     slept_ms := slept_ms s;
     notices := notices s;
     dispatched := dispatched s;
     send_task_blocked := send_task_blocked s |}.

(** [routing_module_load_config]: [fopen (path, "r")] fails when there
    is no file; otherwise every line read may set one field. *)
Definition routing_module_load_config (s : routing_state)
  : bool * routing_state :=
  match config_ini s with
  | None => (false, s)
  | Some lines =>
    (true,
     set_routing_config
       (fold_left (fun c piece => read_routing_line (until_newline piece) c)
                  (file_reads 128 lines) (routing_config s))
       s)
  end.

End ConfigFile.

(* ------------------------------------------------------------------ *)
(** ** ota_module.c seen from its caller: what goes onto the mesh *)

Module OtaFlow.
Import CInt CStr Ota.

(** [uint8_t data[256]] of [routing_send_message_item_t], the array
    [routing_module_send_message] copies a message into. *)
Definition ROUTING_ITEM_DATA_SIZE : Z := 256.

(** The call of [routing_module_send_message] made for a segment. *)
Definition sent (ecu : string) (g : ota_segment_t) : effect :=
  MeshSent ecu (slice g) (to_u16 (size g)) 0.

(** The byte blocks given to [routing_module_send_message], in order. *)
Definition mesh_payloads (l : list effect) : list (list Z) :=
  flat_map (fun e => match e with
                     | MeshSent _ bytes _ _ => [bytes]
                     | _ => []
                     end) l.

(** The lengths given to [routing_module_send_message], in order. *)
Definition mesh_lengths (l : list effect) : list Z :=
  flat_map (fun e => match e with
                     | MeshSent _ _ len _ => [len]
                     | _ => []
                     end) l.

(** The files asked of [mqtt_connection_module_download_file]. *)
Definition downloads (l : list effect) : list (string * string) :=
  flat_map (fun e => match e with
                     | Downloaded topic filename => [(topic, filename)]
                     | _ => []
                     end) l.

(** The loop of [ota_task] (monitor_ecu.c) around
    [ota_module_distribute_firmware]:
    [do { ... } while (!result && retry_count < g_monitor_max_retry_count)].
    [accepted k] answers the sends of attempt [k]; the result carries
    the final [retry_count]. *)
Fixpoint distribute_loop (fuel : nat) (accepted : nat -> nat -> bool)
         (g_monitor_max_retry_count : Z) (attempt : nat) (retry_count : Z)
         (s : ota_state) : bool * Z * ota_state :=
  match fuel with
  | O => (false, retry_count, s)
  | S fuel' =>
    let '(result, s1) :=
      ota_module_distribute_firmware (accepted attempt)
                                     (Some "monitor_ecu"%string) s in
    if result then (true, retry_count, s1)
    else
      let retry_count' := to_u32 (retry_count + 1) in
      if retry_count' <? g_monitor_max_retry_count
      then distribute_loop fuel' accepted g_monitor_max_retry_count
                           (S attempt) retry_count' s1
      else (false, retry_count', s1)
  end.

End OtaFlow.

(* ------------------------------------------------------------------ *)
(** ** alert_module.c: a burst of alerts *)

Module AlertRing.
Import CInt CStr Alert.

(** An alert about to be registered: the clock reading, the level and
    the text. *)
Definition pending : Type := (Z * AlertLevel_t * string)%type.

(** What [register_alert] stores for it. *)
Definition entry_of (a : pending) : AlertData_t :=
  let '(now, lvl, text) := a in
  {| timestamp := now; level := lvl; message := bounded_copy 128 text |}.

(** [register_alert] called once for each alert of the list. *)
Definition raise (alerts : list pending) (s : alert_state) : alert_state :=
  fold_left (fun st a => let '(now, lvl, text) := a in
                         register_alert now lvl (Some text) st)
            alerts s.

End AlertRing.

(* ------------------------------------------------------------------ *)
(** ** diagnosis_module.c *)

Module Diagnosis.
Import CInt CanFrame CanTx CanMetrics.

Definition DIAG_HISTORY_SIZE : Z := 50.

Record CanEspDiagnostics_t : Type := {
  tx_error_counter : Z;
  rx_error_counter : Z;
  bus_off : bool
}.

Record DiagnosisData_t : Type := {
  can_diag : CanEspDiagnostics_t;
  latency : CanEspLatencyMetrics_t;
  queue_status : CanEspQueueStatus_t;
  bus_load : Z;
  retransmission_count : Z;
  collision_count : Z;
  transmission_attempts : Z;
  abnormal : bool;
  timestamp : Z
}.

(** The statics of the module; [alerted] lists, oldest first, the
    samples the registered callback was called with. *)
Record diag_state : Type := {
  diag_history : list DiagnosisData_t;   (* DIAG_HISTORY_SIZE cells *)
  diag_history_index : Z;
  threshold_tx_errors : Z;
  threshold_rx_errors : Z;
  threshold_bus_load : Z;
  threshold_max_latency : Z;
  threshold_retrans : Z;
  threshold_collisions : Z;
  alert_callback : option Z;
  alerted : list (Z * DiagnosisData_t)
}.

(** A zero-filled sample, as the static array holds at start. *)
Definition zero_sample : DiagnosisData_t :=
  {| can_diag := {| tx_error_counter := 0; rx_error_counter := 0;
                    bus_off := false |};
     latency := {| num_samples := 0; total_latency := 0; min_latency := 0;
                   max_latency := 0 |};
     queue_status := {| messages_waiting := 0; queue_capacity := 0 |};
     bus_load := 0;
     retransmission_count := 0;
     collision_count := 0;
     transmission_attempts := 0;
     abnormal := false;
     timestamp := 0 |}.

Definition diag_boot : diag_state :=
  {| diag_history := repeat zero_sample (Z.to_nat DIAG_HISTORY_SIZE);
     diag_history_index := 0;
     threshold_tx_errors := 10;
     threshold_rx_errors := 10;
     threshold_bus_load := 80;
     threshold_max_latency := 5000;
     threshold_retrans := 5;
     threshold_collisions := 5;
     alert_callback := None;
     alerted := [] |}.

(** [CAN_ESP_GetDiagnostics] (can_esp_lib.c); [status_info] is what
    [twai_get_status_info] stored, [None] when it did not return
    [ESP_OK]. *)
Definition CAN_ESP_GetDiagnostics (diag : option CanEspDiagnostics_t)
           (status_info : option CanEspDiagnostics_t)
  : can_esp_status_t * option CanEspDiagnostics_t :=
  match diag with
  | None => (CAN_ESP_ERR_NULL_POINTER, None)
  | Some d =>
    match status_info with
    | None => (CAN_ESP_ERR_UNKNOWN, Some d)
    | Some info =>
      (CAN_ESP_OK,
       Some {| tx_error_counter := tx_error_counter info;
               rx_error_counter := rx_error_counter info;
               bus_off := bus_off info |})
    end
  end.

Definition set_abnormal (v : bool) (d : DiagnosisData_t) : DiagnosisData_t :=
  {| can_diag := can_diag d; latency := latency d;
     queue_status := queue_status d; bus_load := bus_load d;
     retransmission_count := retransmission_count d;
     collision_count := collision_count d;
     transmission_attempts := transmission_attempts d;
     abnormal := v; timestamp := timestamp d |}.

(** The six comparisons of [analyze_diagnosis_data]. *)
Definition exceeds (s : diag_state) (d : DiagnosisData_t) : bool :=
  (threshold_tx_errors s <? tx_error_counter (can_diag d))
  || (threshold_rx_errors s <? rx_error_counter (can_diag d))
  || (threshold_bus_load s <? bus_load d)
  || (threshold_max_latency s <? max_latency (latency d))
  || (threshold_retrans s <? retransmission_count d)
  || (threshold_collisions s <? collision_count d).

Definition record_alert (cb : Z) (d : DiagnosisData_t) (s : diag_state)
  : diag_state :=
  {| diag_history := diag_history s;
     diag_history_index := diag_history_index s;
     threshold_tx_errors := threshold_tx_errors s;
     threshold_rx_errors := threshold_rx_errors s;
     threshold_bus_load := threshold_bus_load s;
     threshold_max_latency := threshold_max_latency s;
     threshold_retrans := threshold_retrans s;
     threshold_collisions := threshold_collisions s;
     alert_callback := alert_callback s;
     alerted := alerted s ++ [(cb, d)] |}.

(** [analyze_diagnosis_data]: the sample afterwards and the module. *)
Definition analyze_diagnosis_data (data : DiagnosisData_t) (s : diag_state)
  : DiagnosisData_t * diag_state :=
  let d0 := set_abnormal false data in
  let d1 := if threshold_tx_errors s <? tx_error_counter (can_diag d0)
            then set_abnormal true d0 else d0 in
  let d2 := if threshold_rx_errors s <? rx_error_counter (can_diag d1)
            then set_abnormal true d1 else d1 in
  let d3 := if threshold_bus_load s <? bus_load d2
            then set_abnormal true d2 else d2 in
  let d4 := if threshold_max_latency s <? max_latency (latency d3)
            then set_abnormal true d3 else d3 in
  let d5 := if threshold_retrans s <? retransmission_count d4
            then set_abnormal true d4 else d4 in
  let d6 := if threshold_collisions s <? collision_count d5
            then set_abnormal true d5 else d5 in
  match alert_callback s with
  | Some cb => if abnormal d6 then (d6, record_alert cb d6 s) else (d6, s)
  | None => (d6, s)
  end.

(** [diag_history[i] = d]. *)
Definition keep (h : list DiagnosisData_t) (i : Z) (d : DiagnosisData_t)
  : list DiagnosisData_t :=
  firstn (Z.to_nat i) h ++ d :: skipn (S (Z.to_nat i)) h.

(** What the collaborators answer during one update. *)
Record diag_env : Type := {
  status_info : option CanEspDiagnostics_t;   (* twai_get_status_info *)
  busLoadStartTime : Z;                       (* static of can_esp_lib.c *)
  load_clock : Z;           (* esp_timer_get_time in CAN_ESP_GetBusLoad *)
  stamp_clock : Z           (* esp_timer_get_time for the timestamp *)
}.

(** [diagnosis_module_update]; [data] is the caller's struct ([None]
    for a null pointer) and [tx] the state of the CAN library.  The
    result is the return value, the caller's struct afterwards and the
    module. *)
Definition diagnosis_module_update (e : diag_env) (tx : tx_state)
           (data : option DiagnosisData_t) (s : diag_state)
  : bool * option DiagnosisData_t * diag_state :=
  match data with
  | None => (false, None, s)
  | Some d =>
    match CAN_ESP_GetDiagnostics (Some (can_diag d)) (status_info e) with
    | (CAN_ESP_OK, Some cd) =>
      match CAN_ESP_GetLatencyMetrics (Some (latency d)) tx with
      | (CAN_ESP_OK, Some lm) =>
        let d1 := {| can_diag := cd; latency := lm;
                     queue_status := queue_status d; bus_load := bus_load d;
                     retransmission_count := retransmission_count d;
                     collision_count := collision_count d;
                     transmission_attempts := transmission_attempts d;
                     abnormal := abnormal d; timestamp := timestamp d |} in
        match CAN_ESP_GetQueueStatus (Some (queue_status d)) tx with
        | (CAN_ESP_OK, Some qs) =>
          let d2 :=
            {| can_diag := cd; latency := lm; queue_status := qs;
               bus_load := CAN_ESP_GetBusLoad (busLoadStartTime e)
                                              (load_clock e) tx;
               retransmission_count := CAN_ESP_GetRetransmissionCount tx;
               collision_count := CAN_ESP_GetCollisionCount tx;
               transmission_attempts := CAN_ESP_GetTransmissionAttempts tx;
               abnormal := abnormal d;
               timestamp := stamp_clock e |} in
          let '(d3, s1) := analyze_diagnosis_data d2 s in
          (true, Some d3,
           {| diag_history := keep (diag_history s1) (diag_history_index s1) d3;
              diag_history_index :=
                to_u32 (diag_history_index s1 + 1) mod DIAG_HISTORY_SIZE;
              threshold_tx_errors := threshold_tx_errors s1;
              threshold_rx_errors := threshold_rx_errors s1;
              threshold_bus_load := threshold_bus_load s1;
              threshold_max_latency := threshold_max_latency s1;
              threshold_retrans := threshold_retrans s1;
              threshold_collisions := threshold_collisions s1;
              alert_callback := alert_callback s1;
              alerted := alerted s1 |})
        | (_, qs) =>
          (false,
           Some {| can_diag := cd; latency := lm;
                   queue_status := match qs with
                                   | Some q => q
                                   | None => queue_status d
                                   end;
                   bus_load := bus_load d;
                   retransmission_count := retransmission_count d;
                   collision_count := collision_count d;
                   transmission_attempts := transmission_attempts d;
                   abnormal := abnormal d; timestamp := timestamp d |},
           s)
        end
      | (_, _) =>
        (false,
         Some {| can_diag := cd; latency := latency d;
                 queue_status := queue_status d; bus_load := bus_load d;
                 retransmission_count := retransmission_count d;
                 collision_count := collision_count d;
                 transmission_attempts := transmission_attempts d;
                 abnormal := abnormal d; timestamp := timestamp d |},
         s)
      end
    | (_, _) => (false, Some d, s)
    end
  end.

(** [diagnosis_module_get_history]; [history] is the caller's array and
    [num_entries] tells whether that pointer is non-null.  The result
    is the return value, the array afterwards and the count stored. *)
Definition diagnosis_module_get_history
           (history : option (list DiagnosisData_t)) (max_entries : Z)
           (num_entries : bool) (s : diag_state)
  : bool * option (list DiagnosisData_t) * option Z :=
  match history with
  | None => (false, None, None)
  | Some buffer =>
    if negb num_entries then (false, Some buffer, None)
    else
      let i := Z.min DIAG_HISTORY_SIZE max_entries in
      (true,
       Some (firstn (Z.to_nat i) (diag_history s) ++ skipn (Z.to_nat i) buffer),
       Some i)
  end.

(** [diagnosis_module_set_thresholds]. *)
Definition diagnosis_module_set_thresholds (tx_errors rx_errors bus_load
           max_latency retransmissions collisions : Z) (s : diag_state)
  : bool * diag_state :=
  (true,
   {| diag_history := diag_history s;
      diag_history_index := diag_history_index s;
      threshold_tx_errors := tx_errors;
      threshold_rx_errors := rx_errors;
      threshold_bus_load := bus_load;
      threshold_max_latency := max_latency;
      threshold_retrans := retransmissions;
      threshold_collisions := collisions;
      alert_callback := alert_callback s;
      alerted := alerted s |}).

(** [diagnosis_module_register_alert_callback]. *)
Definition diagnosis_module_register_alert_callback (callback : option Z)
           (s : diag_state) : bool * diag_state :=
  match callback with
  | None => (false, s)
  | Some cb =>
    (true,
     {| diag_history := diag_history s;
        diag_history_index := diag_history_index s;
        threshold_tx_errors := threshold_tx_errors s;
        threshold_rx_errors := threshold_rx_errors s;
        threshold_bus_load := threshold_bus_load s;
        threshold_max_latency := threshold_max_latency s;
        threshold_retrans := threshold_retrans s;
        threshold_collisions := threshold_collisions s;
        alert_callback := Some cb;
        alerted := alerted s |})
  end.

(** Successive updates by a caller that, like the acquisition task,
    passes the same struct again each time; the CAN library answers
    the [k]-th update as [fst] of the [k]-th pair and is in the state
    [snd] of it. *)
Fixpoint updates (rounds : list (diag_env * tx_state)) (data : DiagnosisData_t)
         (s : diag_state) : list bool * DiagnosisData_t * diag_state :=
  match rounds with
  | [] => ([], data, s)
  | (e, tx) :: rest =>
    let '(ok, data', s1) := diagnosis_module_update e tx (Some data) s in
    let d1 := match data' with Some d => d | None => data end in
    let '(oks, d2, s2) := updates rest d1 s1 in
    (ok :: oks, d2, s2)
  end.

(** The history slots that hold a sample: a nonzero timestamp. *)
Definition stamped (h : list DiagnosisData_t) : list DiagnosisData_t :=
  filter (fun d => negb (timestamp d =? 0)) h.

End Diagnosis.

(* ------------------------------------------------------------------ *)
(** ** logger_module.c: the log buffer, its alert callback, the SD copy *)

Module Logger.
Import CInt CStr.

Definition LOGGER_MAX_ENTRIES : Z := 100.
Definition LOGGER_MSG_MAX_SIZE : nat := 128.

Inductive logger_level_t : Type :=
| LOGGER_LEVEL_INFO
| LOGGER_LEVEL_WARNING
| LOGGER_LEVEL_CRITICAL.

(** The value of an enumerator. *)
Definition level_value (l : logger_level_t) : Z :=
  match l with
  | LOGGER_LEVEL_INFO => 0
  | LOGGER_LEVEL_WARNING => 1
  | LOGGER_LEVEL_CRITICAL => 2
  end.

Record LoggerEntry_t : Type := {
  timestamp : Z;
  level : logger_level_t;
  message : string      (* char message[LOGGER_MSG_MAX_SIZE] *)
}.

(** What the module does to the outside, oldest first: a call of the
    registered alert callback, and a line handed to
    [sd_storage_module_write_with_rotation]. *)
Inductive effect : Type :=
| AlertCallback (callback : Z) (entry : LoggerEntry_t)
| SdWrite (directory : string) (line : string).

Record logger_state : Type := {
  log_buffer : list LoggerEntry_t;      (* LOGGER_MAX_ENTRIES cells *)
  log_index : Z;
  current_log_level : logger_level_t;
  sd_log_directory : string;
  alert_callback : option Z;
  trace : list effect
}.

Definition empty_entry : LoggerEntry_t :=
  {| timestamp := 0; level := LOGGER_LEVEL_INFO; message := EmptyString |}.

Definition logger_boot : logger_state :=
  {| log_buffer := repeat empty_entry (Z.to_nat LOGGER_MAX_ENTRIES);
     log_index := 0;
     current_log_level := LOGGER_LEVEL_INFO;
     sd_log_directory := "logs";
     alert_callback := None;
     trace := [] |}.

(** [logger_module_get_rtc_timestamp]; [rtc] is what [mktime] made of
    the time read from the DS3231, [None] when the chip could not be
    read. *)
Definition logger_module_get_rtc_timestamp (rtc : option Z) : Z :=
  match rtc with
  | None => 0
  | Some t => to_u32 (to_u32 t * 1000)
  end.

(** [log_buffer[i] = e]. *)
Definition write_entry (b : list LoggerEntry_t) (i : Z) (e : LoggerEntry_t)
  : list LoggerEntry_t :=
  firstn (Z.to_nat i) b ++ e :: skipn (S (Z.to_nat i)) b.

(** [logger_module_log]; [text] is what the format and its arguments
    expand to, [None] for a null format. *)
Definition logger_module_log (rtc : option Z) (lvl : logger_level_t)
           (text : option string) (s : logger_state) : logger_state :=
  match text with
  | None => s
  | Some t =>
    if level_value lvl <? level_value (current_log_level s) then s
    else
      let entry := {| timestamp := logger_module_get_rtc_timestamp rtc;
                      level := lvl;
                      message := bounded_copy LOGGER_MSG_MAX_SIZE t |} in
      {| log_buffer := write_entry (log_buffer s) (log_index s) entry;
         log_index := to_u32 (log_index s + 1) mod LOGGER_MAX_ENTRIES;
         current_log_level := current_log_level s;
         sd_log_directory := sd_log_directory s;
         alert_callback := alert_callback s;
         trace :=
           trace s ++
           match lvl, alert_callback s with
           | LOGGER_LEVEL_WARNING, Some cb => [AlertCallback cb entry]
           | LOGGER_LEVEL_CRITICAL, Some cb => [AlertCallback cb entry]
           | _, _ => []
           end |}
  end.

(** [logger_module_log_alert]. *)
Definition logger_module_log_alert (rtc : option Z) (lvl : logger_level_t)
           (message : option string) (s : logger_state) : logger_state :=
  match message with
  | None => s
  | Some m =>
    let alert_message :=
      bounded_copy LOGGER_MSG_MAX_SIZE ("ALERTA: " ++ m) in
    logger_module_log rtc lvl (Some alert_message) s
  end.

(** [logger_module_register_alert_callback]. *)
Definition logger_module_register_alert_callback (callback : option Z)
           (s : logger_state) : logger_state :=
  {| log_buffer := log_buffer s; log_index := log_index s;
     current_log_level := current_log_level s;
     sd_log_directory := sd_log_directory s;
     alert_callback := callback;
     trace := trace s |}.

(** [logger_module_set_log_level]. *)
Definition logger_module_set_log_level (lvl : logger_level_t)
           (s : logger_state) : logger_state :=
  {| log_buffer := log_buffer s; log_index := log_index s;
     current_log_level := lvl;
     sd_log_directory := sd_log_directory s;
     alert_callback := alert_callback s;
     trace := trace s |}.

(** The line [logger_module_save_logs_to_sd] formats for an entry, in
    a buffer of [LOGGER_MSG_MAX_SIZE + 32] bytes. *)
Definition log_line (e : LoggerEntry_t) : string :=
  bounded_copy (LOGGER_MSG_MAX_SIZE + 32)
    (dec (timestamp e) ++ "," ++ dec (level_value (level e)) ++ ","
     ++ message e).

(** The loop of [logger_module_save_logs_to_sd] from slot [i] on;
    [write_ok k] is the answer of
    [sd_storage_module_write_with_rotation] for slot [k]. *)
Fixpoint save_from (write_ok : nat -> bool) (dir : string) (i : nat)
         (entries : list LoggerEntry_t) (status : bool)
  : bool * list effect :=
  match entries with
  | [] => (status, [])
  | e :: rest =>
    if timestamp e =? 0 then save_from write_ok dir (S i) rest status
    else
      let '(st, l) :=
        save_from write_ok dir (S i) rest (status && write_ok i) in
      (st, SdWrite dir (log_line e) :: l)
  end.

(** [logger_module_save_logs_to_sd], the mutex being available. *)
Definition logger_module_save_logs_to_sd (write_ok : nat -> bool)
           (s : logger_state) : bool * logger_state :=
  let '(status, written) :=
    save_from write_ok (sd_log_directory s) 0
              (firstn (Z.to_nat LOGGER_MAX_ENTRIES) (log_buffer s)) true in
  (status,
   {| log_buffer := log_buffer s; log_index := log_index s;
      current_log_level := current_log_level s;
      sd_log_directory := sd_log_directory s;
      alert_callback := alert_callback s;
      trace := trace s ++ written |}).

(** A call into the module with the answers of its collaborators. *)
Inductive logger_call : Type :=
| Log (rtc : option Z) (lvl : logger_level_t) (text : option string)
| LogAlert (rtc : option Z) (lvl : logger_level_t) (message : option string)
| RegisterAlertCallback (callback : option Z)
| SetLogLevel (lvl : logger_level_t)
| SaveLogsToSd (write_ok : nat -> bool).

Definition logger_step (s : logger_state) (c : logger_call) : logger_state :=
  match c with
  | Log rtc lvl text => logger_module_log rtc lvl text s
  | LogAlert rtc lvl m => logger_module_log_alert rtc lvl m s
  | RegisterAlertCallback cb => logger_module_register_alert_callback cb s
  | SetLogLevel lvl => logger_module_set_log_level lvl s
  | SaveLogsToSd ok => snd (logger_module_save_logs_to_sd ok s)
  end.

Definition logger_run (calls : list logger_call) (s : logger_state)
  : logger_state := fold_left logger_step calls s.

(** The entries the alert callback was called with. *)
Definition heard (l : list effect) : list LoggerEntry_t :=
  flat_map (fun e => match e with
                     | AlertCallback _ entry => [entry]
                     | SdWrite _ _ => []
                     end) l.

(** The lines handed to the SD card. *)
Definition sd_lines (l : list effect) : list string :=
  flat_map (fun e => match e with
                     | SdWrite _ line => [line]
                     | AlertCallback _ _ => []
                     end) l.

(** The level [register_alert] of alert_module.c passes on: the two
    enumerations list the same three values. *)
Definition logger_level_of (l : Alert.AlertLevel_t) : logger_level_t :=
  match l with
  | Alert.ALERT_LEVEL_INFO => LOGGER_LEVEL_INFO
  | Alert.ALERT_LEVEL_WARNING => LOGGER_LEVEL_WARNING
  | Alert.ALERT_LEVEL_CRITICAL => LOGGER_LEVEL_CRITICAL
  end.

(** The logger receiving, one after the other, the alerts that the
    alert module handed to [logger_module_log_alert]; [rtc] is the
    clock reading of each. *)
Definition deliver (rtc : option Z) (l : list Alert.effect) (s : logger_state)
  : logger_state :=
  fold_left (fun st e => match e with
                         | Alert.LoggedAlert lvl msg =>
                           logger_module_log_alert rtc (logger_level_of lvl)
                                                   (Some msg) st
                         | _ => st
                         end) l s.

End Logger.

(* ================================================================== *)
(** * Properties *)

(* ------------------------------------------------------------------ *)
(** ** Conversions to fixed width *)

Module CIntFacts.
Import CInt.

Lemma to_u8_small x : is_u8 x -> to_u8 x = x.
Proof. unfold is_u8, to_u8. intros H. apply Z.mod_small. lia. Qed.

Lemma to_u32_small x : is_u32 x -> to_u32 x = x.
Proof. unfold is_u32, to_u32. intros H. apply Z.mod_small. lia. Qed.

Lemma to_u32_is_u32 x : is_u32 (to_u32 x).
Proof.
  unfold is_u32, to_u32. pose proof (Z.mod_pos_bound x (2 ^ 32)). lia.
Qed.

End CIntFacts.

(* ------------------------------------------------------------------ *)
(** ** Bit-level reasoning *)

Module Bits.

Lemma testbit_shiftr_any a k i :
  Z.testbit (Z.shiftr a k) i = if i <? 0 then false else Z.testbit a (i + k).
Proof.
  destruct (Z.ltb_spec i 0) as [Hneg | Hpos].
  - now apply Z.testbit_neg_r.
  - now apply Z.shiftr_spec.
Qed.

Lemma testbit_shiftl_any a k i :
  Z.testbit (Z.shiftl a k) i = if i <? 0 then false else Z.testbit a (i - k).
Proof.
  destruct (Z.ltb_spec i 0) as [Hneg | Hpos].
  - now apply Z.testbit_neg_r.
  - now apply Z.shiftl_spec.
Qed.

Lemma mask_3 : 0x07 = Z.ones 3. Proof. reflexivity. Qed.
Lemma mask_10 : 0x03FF = Z.ones 10. Proof. reflexivity. Qed.
Lemma mask_16 : 0xFFFF = Z.ones 16. Proof. reflexivity. Qed.
Lemma mask_29 : 0x1FFFFFFF = Z.ones 29. Proof. reflexivity. Qed.

(** Bit [i] of every operator the codec uses. *)
Ltac bits :=
  repeat first
    [ rewrite Z.lor_spec | rewrite Z.land_spec | rewrite Z.lxor_spec
    | rewrite Z.testbit_mod_pow2 by lia
    | rewrite testbit_shiftl_any
    | rewrite testbit_shiftr_any
    | rewrite Z.testbit_ones by lia ].

Ltac split_cmp :=
  repeat match goal with
  | |- context [?a <? ?b] => destruct (Z.ltb_spec a b); try lia
  | |- context [?a <=? ?b] => destruct (Z.leb_spec a b); try lia
  end.

Ltac split_bits :=
  repeat match goal with
  | |- context [Z.testbit ?a ?j] => destruct (Z.testbit a j)
  end; try reflexivity.

Ltac bitblast :=
  apply Z.bits_inj'; intros ? ?; bits; split_cmp;
  rewrite ?Z.add_simpl_r, ?Z.sub_add; split_bits.

(** Exclusive-or does not leave the byte range. *)
Lemma lxor_u8 a b : CInt.is_u8 a -> CInt.is_u8 b -> CInt.is_u8 (Z.lxor a b).
Proof.
  unfold CInt.is_u8. intros Ha Hb.
  assert (Hnn : 0 <= Z.lxor a b) by (apply Z.lxor_nonneg; lia).
  split; [exact Hnn|].
  destruct (Z.eq_dec (Z.lxor a b) 0) as [-> | Hnz]; [lia|].
  change 256 with (2 ^ 8). apply Z.log2_lt_pow2; [lia|].
  pose proof (Z.log2_lxor a b ltac:(lia) ltac:(lia)) as Hl.
  assert (Z.log2 a < 8).
  { destruct (Z.eq_dec a 0) as [-> | ?]; [simpl; lia|].
    apply Z.log2_lt_pow2; lia. }
  assert (Z.log2 b < 8).
  { destruct (Z.eq_dec b 0) as [-> | ?]; [simpl; lia|].
    apply Z.log2_lt_pow2; lia. }
  lia.
Qed.

Lemma lxor_cancel_r a b r : Z.lxor a r = Z.lxor b r -> a = b.
Proof.
  intros H. apply Z.lxor_eq.
  assert (E : Z.lxor (Z.lxor a r) (Z.lxor b r) = 0)
    by (rewrite H; apply Z.lxor_nilpotent).
  rewrite <- E.
  rewrite (Z.lxor_comm b r), Z.lxor_assoc, <- (Z.lxor_assoc r r b),
          Z.lxor_nilpotent, Z.lxor_0_l.
  reflexivity.
Qed.

End Bits.

(* ------------------------------------------------------------------ *)
(** ** The identifier codec *)

Module CanIdFacts.
Import CInt CanId Bits.

Lemma decode_after_encode p m c :
  CAN_ESP_DecodeID (CAN_ESP_EncodeID p m c)
  = (Z.land p 0x07, Z.land m 0x03FF, Z.land c 0xFFFF).
Proof.
  unfold CAN_ESP_DecodeID, CAN_ESP_EncodeID, to_u8, to_u16, to_u32.
  rewrite mask_3, mask_10, mask_16.
  f_equal; [f_equal|]; bitblast.
Qed.

Lemma encode_after_decode id :
  encode_of_triple (CAN_ESP_DecodeID id) = Z.land id 0x1FFFFFFF.
Proof.
  unfold encode_of_triple, CAN_ESP_DecodeID, CAN_ESP_EncodeID,
         to_u8, to_u16, to_u32.
  rewrite mask_3, mask_10, mask_16, mask_29.
  bitblast.
Qed.

Example encode_scenario : CAN_ESP_EncodeID 1 1 0x101 = 0x04010101.
Proof. reflexivity. Qed.

Example decode_scenario : CAN_ESP_DecodeID 0x04010101 = (1, 1, 0x101).
Proof. reflexivity. Qed.

(** C5.  Decoding an encoded identifier gives back the three fields
    masked to their widths, [(p & 7, m & 0x3FF, c & 0xFFFF)], for all
    arguments; and encoding the decoded fields of any identifier gives
    the identifier masked to 29 bits, [id & 0x1FFFFFFF]. *)
Theorem id_codec_roundtrip :
  (forall p m c,
      CAN_ESP_DecodeID (CAN_ESP_EncodeID p m c)
      = (Z.land p 7, Z.land m 0x3FF, Z.land c 0xFFFF))
  /\ (forall id,
      let '(p, m, c) := CAN_ESP_DecodeID id in
      CAN_ESP_EncodeID p m c = Z.land id 0x1FFFFFFF).
Proof.
  split.
  - exact decode_after_encode.
  - intros id. pose proof (encode_after_decode id) as H.
    unfold encode_of_triple in H.
    destruct (CAN_ESP_DecodeID id) as [[p m] c]. exact H.
Qed.

End CanIdFacts.

(* ------------------------------------------------------------------ *)
(** ** Checksum framing *)

Module CanFrameFacts.
Import CInt CIntFacts CanFrame Bits.

Lemma firstn_exact_app {A} (l r : list A) :
  firstn (List.length l) (l ++ r) = l.
Proof. induction l as [|x l IH]; simpl; [reflexivity | now rewrite IH]. Qed.

Lemma skipn_exact_app {A} (l r : list A) :
  skipn (List.length l) (l ++ r) = r.
Proof. induction l as [|x l IH]; simpl; [reflexivity | exact IH]. Qed.

Lemma skipn_past_app {A} (l r : list A) (c : A) :
  skipn (S (List.length l)) (l ++ c :: r) = r.
Proof. induction l as [|x l IH]; simpl; [reflexivity | exact IH]. Qed.

Lemma nth_exact_app (l r : list Z) (c : Z) :
  nth (List.length l) (l ++ c :: r) 0 = c.
Proof. induction l as [|x l IH]; simpl; [reflexivity | exact IH]. Qed.

Lemma xor_bytes_u8 l : Forall is_u8 l -> is_u8 (xor_bytes l).
Proof.
  induction 1 as [|a l Ha Hl IH]; simpl.
  - unfold is_u8; lia.
  - now apply lxor_u8.
Qed.

Lemma xor_bytes_middle l1 a l2 :
  xor_bytes (l1 ++ a :: l2) = Z.lxor a (xor_bytes (l1 ++ l2)).
Proof.
  induction l1 as [|x l1 IH]; simpl; [reflexivity|].
  rewrite IH.
  rewrite <- !Z.lxor_assoc. f_equal. apply Z.lxor_comm.
Qed.

(** The loop of [CAN_ESP_CalculateChecksum] from any accumulator. *)
Lemma checksum_loop l : forall acc,
  is_u8 acc -> Forall is_u8 l ->
  fold_left (fun cs b => to_u8 (Z.lxor cs b)) l acc
  = Z.lxor acc (xor_bytes l).
Proof.
  induction l as [|a l IH]; intros acc Hacc Hl; simpl.
  - now rewrite Z.lxor_0_r.
  - inversion Hl as [|? ? Ha Hl']; subst.
    rewrite to_u8_small by now apply lxor_u8.
    rewrite IH by (try apply lxor_u8; assumption).
    now rewrite Z.lxor_assoc.
Qed.

Lemma checksum_of_prefix d rest :
  Forall is_u8 d ->
  CAN_ESP_CalculateChecksum (d ++ rest) (Z.of_nat (List.length d))
  = xor_bytes d.
Proof.
  intros Hd. unfold CAN_ESP_CalculateChecksum.
  rewrite Nat2Z.id, firstn_exact_app.
  rewrite checksum_loop; [apply Z.lxor_0_l | unfold is_u8; lia | exact Hd].
Qed.

(** The array a checksum-mode send hands to the driver. *)
Lemma framed_bytes junk d :
  store (memcpy junk d (Z.of_nat (List.length d))) (Z.of_nat (List.length d))
        (CAN_ESP_CalculateChecksum d (Z.of_nat (List.length d)))
  = d ++ CAN_ESP_CalculateChecksum d (Z.of_nat (List.length d))
      :: skipn (S (List.length d)) (d ++ skipn (List.length d) junk).
Proof.
  unfold store, memcpy. rewrite !Nat2Z.id.
  rewrite firstn_all, firstn_exact_app. reflexivity.
Qed.

(** Receiving, in checksum mode, a frame whose first [|w| + 1] bytes
    are [w] followed by [c]. *)
Lemma receive_framed cfg m0 f w c rest :
  use_checksum cfg = true ->
  Forall is_u8 w ->
  Z.of_nat (List.length w) < 255 ->
  tw_data f = w ++ c :: rest ->
  data_length_code f = Z.of_nat (List.length w) + 1 ->
  CAN_ESP_ReceiveMessage cfg (Some m0) (Some f)
  = if xor_bytes w =? c
    then (CAN_ESP_OK,
          Some {| id := identifier f;
                  length := Z.of_nat (List.length w);
                  data := memcpy (data m0) (tw_data f) (data_length_code f);
                  retry_count := retry_count m0 |})
    else (CAN_ESP_ERR_RECEIVE,
          Some {| id := identifier f;
                  length := data_length_code f;
                  data := memcpy (data m0) (tw_data f) (data_length_code f);
                  retry_count := retry_count m0 |}).
Proof.
  intros Hcs Hw Hlen Hdata Hdlc.
  unfold CAN_ESP_ReceiveMessage. rewrite Hcs. cbn [length data id retry_count].
  destruct (Z.ltb_spec (data_length_code f) 1) as [Hlt | _]; [lia|].
  assert (Hpre : memcpy (data m0) (tw_data f) (data_length_code f)
                 = w ++ c :: skipn (S (List.length w)) (data m0)).
  { unfold memcpy. rewrite Hdata, Hdlc.
    replace (Z.to_nat (Z.of_nat (List.length w) + 1))
      with (S (List.length w)) by lia.
    replace (w ++ c :: rest) with ((w ++ [c]) ++ rest)
      by now rewrite <- app_assoc.
    replace (S (List.length w)) with (List.length (w ++ [c]))
      by (rewrite length_app; simpl; lia).
    rewrite firstn_exact_app, <- app_assoc. reflexivity. }
  rewrite Hpre, Hdlc.
  replace (Z.of_nat (List.length w) + 1 - 1) with (Z.of_nat (List.length w))
    by lia.
  rewrite to_u8_small by (unfold is_u8; lia).
  rewrite checksum_of_prefix by exact Hw.
  rewrite Nat2Z.id, nth_exact_app.
  destruct (xor_bytes w =? c); reflexivity.
Qed.

(** Overwriting one cell among the first [|w| + 1] of [w ++ c :: rest]
    either changes one byte of [w] or replaces [c]. *)
Lemma store_framed w c rest i v :
  0 <= i <= Z.of_nat (List.length w) ->
  (i < Z.of_nat (List.length w) /\
   exists l1 x l2, w = l1 ++ x :: l2 /\ x = nth (Z.to_nat i) w 0 /\
                   store (w ++ c :: rest) i v = (l1 ++ v :: l2) ++ c :: rest)
  \/ (i = Z.of_nat (List.length w) /\
      store (w ++ c :: rest) i v = w ++ v :: rest).
Proof.
  intros Hi.
  destruct (Z.eq_dec i (Z.of_nat (List.length w))) as [-> | Hne].
  - right. split; [reflexivity|].
    unfold store. rewrite Nat2Z.id, firstn_exact_app.
    f_equal. f_equal. apply skipn_past_app.
  - left. split; [lia|].
    assert (Hn : (Z.to_nat i < List.length w)%nat) by lia.
    destruct (nth_split w 0 Hn) as (l1 & l2 & Hw & Hl1).
    exists l1, (nth (Z.to_nat i) w 0), l2.
    split; [exact Hw | split; [reflexivity|]].
    unfold store. rewrite <- Hl1.
    rewrite Hw at 1 2. rewrite <- !app_assoc. simpl.
    rewrite firstn_exact_app.
    f_equal. f_equal. apply skipn_past_app.
Qed.

Lemma checksum_whole d :
  Forall is_u8 d ->
  CAN_ESP_CalculateChecksum d (Z.of_nat (List.length d)) = xor_bytes d.
Proof.
  intros Hd. rewrite <- (app_nil_r d) at 1. now apply checksum_of_prefix.
Qed.

(** The frame a checksum-mode send of a short payload gives the driver. *)
Lemma send_framed cfg cb junk ok id d :
  use_checksum cfg = true ->
  Forall is_u8 d ->
  Z.of_nat (List.length d) < 8 ->
  exists rest,
    handed_to_driver
      (CAN_ESP_SendMessage cfg cb junk ok id (Some d) (Z.of_nat (List.length d)))
    = Some {| identifier := id;
              data_length_code := Z.of_nat (List.length d) + 1;
              tw_data := d ++ xor_bytes d :: rest;
              extd := true; rtr := false; ss := false;
              self := self_rx cfg |}
    /\ send_status
         (CAN_ESP_SendMessage cfg cb junk ok id (Some d) (Z.of_nat (List.length d)))
       = if ok then CAN_ESP_OK else CAN_ESP_ERR_TRANSMIT.
Proof.
  intros Hcs Hd Hlen.
  exists (skipn (S (List.length d)) (d ++ skipn (List.length d) junk)).
  unfold CAN_ESP_SendMessage, CAN_MAX_DATA_LENGTH. rewrite Hcs.
  destruct (Z.ltb_spec 8 (Z.of_nat (List.length d))) as [? | _]; [lia|].
  destruct (Z.ltb_spec (Z.of_nat (List.length d)) 8) as [_ | ?]; [|lia].
  rewrite framed_bytes, checksum_whole by exact Hd.
  rewrite to_u8_small by (unfold is_u8; lia).
  destruct ok; simpl; split; reflexivity.
Qed.

Lemma firstn_succ_app {A} (l r : list A) (c : A) :
  firstn (S (List.length l)) (l ++ c :: r) = l ++ [c].
Proof.
  replace (S (List.length l)) with (List.length (l ++ [c]))
    by (rewrite length_app; simpl; lia).
  replace (l ++ c :: r) with ((l ++ [c]) ++ r) by now rewrite <- app_assoc.
  apply firstn_exact_app.
Qed.

Lemma payload_framed dst d c rest :
  firstn (List.length d)
         (memcpy dst (d ++ c :: rest) (Z.of_nat (List.length d) + 1)) = d.
Proof.
  unfold memcpy.
  replace (Z.to_nat (Z.of_nat (List.length d) + 1))
    with (S (List.length d)) by lia.
  rewrite firstn_succ_app, <- app_assoc. apply firstn_exact_app.
Qed.

Lemma wire_framed id d c rest flag :
  wire_bytes {| identifier := id;
                data_length_code := Z.of_nat (List.length d) + 1;
                tw_data := d ++ c :: rest;
                extd := true; rtr := false; ss := false; self := flag |}
  = d ++ [c].
Proof.
  unfold wire_bytes. cbn [data_length_code tw_data].
  replace (Z.to_nat (Z.of_nat (List.length d) + 1))
    with (S (List.length d)) by lia.
  apply firstn_succ_app.
Qed.

(** C6.  In checksum mode, sending a payload [d] of fewer than 8 bytes
    hands the driver a frame whose wire bytes are [d] followed by the
    exclusive-or of the bytes of [d], and succeeds when the driver does;
    receiving that frame succeeds and reports [d] with its own length;
    receiving it with any one wire byte replaced by a different byte
    fails with the receive error; and sending a payload of length 8
    fails with the invalid-length error before reaching the driver. *)
Theorem checksum_mode_roundtrip :
  forall cfg cb junk accepted id m0 d,
    use_checksum cfg = true ->
    Forall is_u8 d ->
    Z.of_nat (List.length d) < 8 ->
    (exists f,
        send_status (CAN_ESP_SendMessage cfg cb junk accepted id (Some d)
                       (Z.of_nat (List.length d)))
        = (if accepted then CAN_ESP_OK else CAN_ESP_ERR_TRANSMIT)
        /\ handed_to_driver
             (CAN_ESP_SendMessage cfg cb junk accepted id (Some d)
                (Z.of_nat (List.length d))) = Some f
        /\ wire_bytes f = d ++ [xor_bytes d]
        /\ (exists m,
               CAN_ESP_ReceiveMessage cfg (Some m0) (Some f)
               = (CAN_ESP_OK, Some m)
               /\ length m = Z.of_nat (List.length d) /\ payload m = d)
        /\ (forall i v,
               0 <= i < data_length_code f ->
               is_u8 v ->
               v <> nth (Z.to_nat i) (wire_bytes f) 0 ->
               fst (CAN_ESP_ReceiveMessage cfg (Some m0)
                                           (Some (mutate f i v)))
               = CAN_ESP_ERR_RECEIVE))
    /\ (forall d8 ok,
          Z.of_nat (List.length d8) = 8 ->
          send_status (CAN_ESP_SendMessage cfg cb junk ok id (Some d8) 8)
          = CAN_ESP_ERR_INVALID_LENGTH
          /\ handed_to_driver
               (CAN_ESP_SendMessage cfg cb junk ok id (Some d8) 8) = None).
Proof.
  intros cfg cb junk accepted id m0 d Hcs Hd Hlen. split.
  - destruct (send_framed cfg cb junk accepted id d Hcs Hd Hlen)
      as (rest & Hf & Hst).
    eexists. split; [exact Hst|]. split; [exact Hf|].
    split; [apply wire_framed|]. split.
    + eexists. split.
      * erewrite receive_framed; try eassumption; try reflexivity; [|lia].
        rewrite Z.eqb_refl. reflexivity.
      * cbn [length]. split; [reflexivity|].
        unfold payload. cbn [length data tw_data data_length_code].
        rewrite Nat2Z.id. apply payload_framed.
    + intros i v Hi Hv Hne. rewrite wire_framed in Hne.
      cbn [data_length_code] in Hi.
      destruct (store_framed d (xor_bytes d) rest i v ltac:(lia))
        as [(Hlt & l1 & x & l2 & Hw & Hx & Hst') | (Heq & Hst')].
      * assert (Hlen' : List.length (l1 ++ v :: l2) = List.length d)
          by (rewrite Hw, !length_app; reflexivity).
        erewrite receive_framed with (w := l1 ++ v :: l2) (c := xor_bytes d)
                                     (rest := rest).
        -- destruct (Z.eqb_spec (xor_bytes (l1 ++ v :: l2)) (xor_bytes d))
             as [E | _]; [|reflexivity].
           exfalso. apply Hne.
           rewrite app_nth1 by lia. rewrite <- Hx.
           rewrite Hw in E. rewrite !xor_bytes_middle in E.
           now apply lxor_cancel_r in E.
        -- exact Hcs.
        -- rewrite Hw in Hd. apply Forall_app in Hd as [H1 H2].
           apply Forall_app. split; [exact H1|].
           inversion H2; subst. now constructor.
        -- rewrite Hlen'. lia.
        -- exact Hst'.
        -- cbn [mutate data_length_code]. rewrite Hlen'. reflexivity.
      * erewrite receive_framed with (w := d) (c := v) (rest := rest);
          try eassumption; try reflexivity; [|lia].
        destruct (Z.eqb_spec (xor_bytes d) v) as [E | _]; [|reflexivity].
        exfalso. apply Hne. rewrite Heq, Nat2Z.id.
        rewrite nth_exact_app. now symmetry.
  - intros d8 ok Hlen8. unfold CAN_ESP_SendMessage, CAN_MAX_DATA_LENGTH.
    rewrite Hcs. simpl. split; reflexivity.
Qed.

(** The payload [1; 2; 3]: framed as [1; 2; 3; 0], received back, refused
    once its second byte reads 7; and a payload of 8 bytes refused. *)
Lemma checksum_mode_roundtrip_witness :
  (exists f,
      handed_to_driver
        (CAN_ESP_SendMessage checksum_cfg false (repeat 0 8) true 0x101
           (Some [1; 2; 3]) 3) = Some f
      /\ wire_bytes f = [1; 2; 3; 0]
      /\ (exists m,
             CAN_ESP_ReceiveMessage checksum_cfg (Some empty_message) (Some f)
             = (CAN_ESP_OK, Some m)
             /\ length m = 3 /\ payload m = [1; 2; 3])
      /\ fst (CAN_ESP_ReceiveMessage checksum_cfg (Some empty_message)
                                     (Some (mutate f 1 7)))
         = CAN_ESP_ERR_RECEIVE)
  /\ send_status
       (CAN_ESP_SendMessage checksum_cfg false (repeat 0 8) true 0x101
          (Some [1; 2; 3; 4; 5; 6; 7; 8]) 8)
     = CAN_ESP_ERR_INVALID_LENGTH.
Proof.
  assert (Hbytes : Forall is_u8 [1; 2; 3])
    by (repeat constructor; unfold is_u8; lia).
  destruct (checksum_mode_roundtrip checksum_cfg false (repeat 0 8) true 0x101
              empty_message [1; 2; 3] eq_refl Hbytes ltac:(simpl; lia))
    as [(f & _ & Hf & Hwire & Hrecv & Hmut) Hfull].
  split.
  - exists f. split; [exact Hf|]. split; [exact Hwire|].
    split; [exact Hrecv|].
    apply Hmut.
    + vm_compute in Hf. injection Hf as <-. simpl. lia.
    + unfold is_u8. lia.
    + rewrite Hwire. cbv. discriminate.
  - exact (proj1 (Hfull [1; 2; 3; 4; 5; 6; 7; 8] true eq_refl)).
Defined.

End CanFrameFacts.

(* ------------------------------------------------------------------ *)
(** ** The transmit task and its retry budget *)

Module CanTxFacts.
Import CInt CIntFacts CanFrame CanTx.

(** Every message [CAN_ESP_EnqueueMessage] puts on the queue has a
    [retry_count] of zero, whatever count the caller's copy carried. *)
Lemma enqueue_resets_retry_count m hp q :
  snd (CAN_ESP_EnqueueMessage (Some m) hp (Some q))
  = Some (if hp then queued m :: q else q ++ [queued m]).
Proof. destruct hp; reflexivity. Qed.

(** One refused transmission of a frame whose count is zero puts an
    identical frame back at the front. *)
Lemma refused_iteration cfg cb s m rest :
  txQueue s = Some (queued m :: rest) ->
  let s' := CAN_ESP_TransmitTask_iteration cfg cb refusal s in
  txQueue s' = Some (queued m :: rest)
  /\ callbacks s' = callbacks s
  /\ totalTransmissionAttempts s' = to_u32 (totalTransmissionAttempts s + 1)
  /\ totalRetransmissions s' = to_u32 (totalRetransmissions s + 1).
Proof.
  intros Hq. unfold CAN_ESP_TransmitTask_iteration. rewrite Hq.
  cbn. repeat split; reflexivity.
Qed.

Lemma to_u32_shift x n :
  to_u32 (to_u32 (x + 1) + Z.of_nat n) = to_u32 (x + Z.of_nat (S n)).
Proof.
  unfold to_u32. rewrite Zplus_mod_idemp_l. f_equal. lia.
Qed.

(** Any number of refused transmissions leaves the frame at the front
    of the queue and never reaches the callback. *)
Lemma refused_run cfg cb m rest : forall n s,
  txQueue s = Some (queued m :: rest) ->
  is_u32 (totalTransmissionAttempts s) ->
  is_u32 (totalRetransmissions s) ->
  let s' := CAN_ESP_TransmitTask cfg cb (repeat refusal n) s in
  txQueue s' = Some (queued m :: rest)
  /\ callbacks s' = callbacks s
  /\ totalTransmissionAttempts s'
     = to_u32 (totalTransmissionAttempts s + Z.of_nat n)
  /\ totalRetransmissions s'
     = to_u32 (totalRetransmissions s + Z.of_nat n).
Proof.
  induction n as [|n IH]; intros s Hq Ha Hr.
  - simpl. rewrite !Z.add_0_r, !to_u32_small by assumption.
    repeat split; [exact Hq | reflexivity ..].
  - destruct (refused_iteration cfg cb s m rest Hq) as (Hq1 & Hc1 & Ha1 & Hr1).
    cbn [repeat CAN_ESP_TransmitTask fold_left].
    specialize (IH (CAN_ESP_TransmitTask_iteration cfg cb refusal s) Hq1).
    rewrite Ha1, Hr1 in IH.
    specialize (IH (to_u32_is_u32 _) (to_u32_is_u32 _)).
    destruct IH as (Hq2 & Hc2 & Ha2 & Hr2).
    unfold CAN_ESP_TransmitTask in *.
    rewrite Hq2, Hc2, Hc1, Ha2, Hr2, !to_u32_shift.
    repeat split; reflexivity.
Qed.

(** C2 (what the code does at the failing input).  A frame enqueued on
    an empty queue and refused by the driver [n] times in a row, for any
    [n], is still at the front of the queue with a [retry_count] of
    zero, has been retransmitted [n] times, and the transmit callback
    has not been called: the budget of
    [CAN_ESP_MAX_RETRANSMISSIONS] retries is never used up, because the
    re-enqueue resets the count the task has just incremented. *)
Theorem refused_frame_is_retried_without_bound :
  forall cfg m n,
    let q0 := snd (CAN_ESP_EnqueueMessage (Some m) false (Some [])) in
    let s := CAN_ESP_TransmitTask cfg true (repeat refusal n) (tx_initial q0) in
    txQueue s = Some [queued m]
    /\ callbacks s = []
    /\ fatal_reports s = 0%nat
    /\ totalTransmissionAttempts s = to_u32 (Z.of_nat n)
    /\ totalRetransmissions s = to_u32 (Z.of_nat n).
Proof.
  intros cfg m n q0 s.
  destruct (refused_run cfg true m [] n (tx_initial q0) eq_refl)
    as (Hq & Hc & Ha & Hr); try (unfold is_u32; simpl; lia).
  fold s in Hq, Hc, Ha, Hr.
  unfold fatal_reports. rewrite Hq, Hc, Ha, Hr. simpl.
  repeat split; reflexivity.
Qed.

(** Frames on the queue carry a [retry_count] of zero: the enqueue
    stores zero, and the task only puts frames back through the enqueue. *)
Lemma iteration_keeps_counts_zero cfg cb e s q :
  txQueue s = Some q ->
  Forall (fun m => retry_count m = 0) q ->
  exists q',
    txQueue (CAN_ESP_TransmitTask_iteration cfg cb e s) = Some q'
    /\ Forall (fun m => retry_count m = 0) q'.
Proof.
  intros Hq Hall. unfold CAN_ESP_TransmitTask_iteration. rewrite Hq.
  destruct q as [|msg rest]; [exists []; now rewrite Hq|].
  inversion Hall as [|? ? Hmsg Hrest]; subst.
  destruct (transmit_ok e); cbn [negb].
  - exists rest. split; [reflexivity | exact Hrest].
  - destruct (retry_count msg <? CAN_ESP_MAX_RETRANSMISSIONS).
    + eexists. split; [reflexivity|]. constructor; [reflexivity | exact Hrest].
    + exists rest. split; [reflexivity | exact Hrest].
Qed.

(** Two refusals, then an accepted transmission that takes 120 us: two
    retransmissions, two collisions, three attempts, one latency sample
    and one callback, with status OK. *)
Example retry_then_succeed :
  let m := {| id := 0x100; length := 2; data := [1; 2; 0; 0; 0; 0; 0; 0];
              retry_count := 0 |} in
  let cfg := {| transmit_timeout_ms := 1000; receive_timeout_ms := 1000;
                debug_level := 2; self_rx := false; use_checksum := false |} in
  let accepted := {| transmit_ok := true; tx_start := 500; tx_end := 620 |} in
  let s := CAN_ESP_TransmitTask cfg true [refusal; refusal; accepted]
             (tx_initial (Some [m])) in
  txQueue s = Some []
  /\ totalRetransmissions s = 2
  /\ totalCollisions s = 2
  /\ totalTransmissionAttempts s = 3
  /\ num_samples (latencyMetrics s) = 1
  /\ max_latency (latencyMetrics s) = 120
  /\ map cb_status (callbacks s) = [CAN_ESP_OK].
Proof. vm_compute. repeat split; reflexivity. Qed.

(** Five refusals in a row: five retransmissions, the frame still
    queued, no error reported. *)
Example five_refusals :
  let m := {| id := 0x100; length := 2; data := [1; 2; 0; 0; 0; 0; 0; 0];
              retry_count := 0 |} in
  let cfg := {| transmit_timeout_ms := 1000; receive_timeout_ms := 1000;
                debug_level := 2; self_rx := false; use_checksum := false |} in
  let s := CAN_ESP_TransmitTask cfg true (repeat refusal 5)
             (tx_initial (Some [m])) in
  txQueue s = Some [m] /\ totalRetransmissions s = 5 /\ callbacks s = [].
Proof. vm_compute. repeat split; reflexivity. Qed.

End CanTxFacts.

(* ------------------------------------------------------------------ *)
(** ** The routing table *)

Module RoutingTableFacts.
Import CStr Routing.

(** [strncmp (., ., n) == 0] is an equivalence. *)
Lemma strncmp_eq_sym n a b : strncmp_eq n a b = strncmp_eq n b a.
Proof. unfold strncmp_eq. apply String.eqb_sym. Qed.

Lemma strncmp_eq_trans n a b c :
  strncmp_eq n a b = true -> strncmp_eq n b c = true ->
  strncmp_eq n a c = true.
Proof.
  unfold strncmp_eq. rewrite !String.eqb_eq. congruence.
Qed.

Lemma strncmp_eq_refl n a : strncmp_eq n a a = true.
Proof. unfold strncmp_eq. apply String.eqb_refl. Qed.

(** Two keys that compare equal select the same entries. *)
Lemma same_dest_key k1 k2 e :
  strncmp_eq 32 k1 k2 = true -> same_dest k1 e = same_dest k2 e.
Proof.
  intros H. unfold same_dest.
  destruct (strncmp_eq 32 (dest_id e) k1) eqn:E1,
           (strncmp_eq 32 (dest_id e) k2) eqn:E2; try reflexivity.
  - rewrite (strncmp_eq_trans _ _ _ _ E1 H) in E2. discriminate.
  - rewrite strncmp_eq_sym in H.
    rewrite (strncmp_eq_trans _ _ _ _ E2 H) in E1. discriminate.
Qed.

Lemma existsb_same_dest_key k1 k2 t :
  strncmp_eq 32 k1 k2 = true ->
  existsb (same_dest k1) t = existsb (same_dest k2) t.
Proof.
  intros H. induction t as [|x t IH]; simpl; [reflexivity|].
  now rewrite IH, (same_dest_key k1 k2 x H).
Qed.

(** Appending an entry whose key is new keeps the keys distinct. *)
Lemma distinct_append t e :
  distinct_dests t = true ->
  existsb (same_dest (dest_id e)) t = false ->
  distinct_dests (t ++ [e]) = true.
Proof.
  induction t as [|x t IH]; intros Hd Hnew; simpl in *; [reflexivity|].
  apply andb_true_iff in Hd as [Hx Ht].
  apply orb_false_iff in Hnew as [Hxe Hte].
  apply andb_true_iff. split; [|now apply IH].
  rewrite existsb_app. simpl. rewrite orb_false_r.
  apply negb_true_iff in Hx. rewrite Hx. simpl.
  apply negb_true_iff. unfold same_dest in *.
  now rewrite strncmp_eq_sym.
Qed.

(** The scans answer [None] exactly when no entry has the key. *)
Lemma overwrite_first_none e t :
  overwrite_first e t = None <-> existsb (same_dest (dest_id e)) t = false.
Proof.
  induction t as [|x t IH]; simpl; [tauto|].
  destruct (same_dest (dest_id e) x); simpl.
  - split; discriminate.
  - destruct (overwrite_first e t); split; intros H;
      try discriminate; try reflexivity; try tauto.
    apply IH in H. discriminate.
Qed.

(** Overwriting keeps, for every key, whether some entry answers to it. *)
Lemma overwrite_first_members e t t' k :
  overwrite_first e t = Some t' ->
  existsb (same_dest k) t' = existsb (same_dest k) t.
Proof.
  revert t'. induction t as [|x t IH]; intros t' H; simpl in H;
    [discriminate|].
  destruct (same_dest (dest_id e) x) eqn:Ex.
  - injection H as <-. simpl. f_equal.
    unfold same_dest in *.
    destruct (strncmp_eq 32 (dest_id e) k) eqn:E1,
             (strncmp_eq 32 (dest_id x) k) eqn:E2; try reflexivity.
    + rewrite (strncmp_eq_trans _ _ _ _ Ex E1) in E2. discriminate.
    + rewrite strncmp_eq_sym in Ex.
      rewrite (strncmp_eq_trans _ _ _ _ Ex E2) in E1. discriminate.
  - destruct (overwrite_first e t) as [r|]; [|discriminate].
    injection H as <-. simpl. now rewrite (IH r eq_refl).
Qed.

Lemma distinct_overwrite e t t' :
  distinct_dests t = true ->
  overwrite_first e t = Some t' ->
  distinct_dests t' = true.
Proof.
  revert t'. induction t as [|x t IH]; intros t' Hd H; simpl in H;
    [discriminate|].
  simpl in Hd. apply andb_true_iff in Hd as [Hx Ht].
  destruct (same_dest (dest_id e) x) eqn:Ex.
  - injection H as <-. simpl. rewrite Ht, andb_true_r.
    unfold same_dest in Ex. rewrite strncmp_eq_sym in Ex.
    now rewrite (existsb_same_dest_key _ _ t Ex).
  - destruct (overwrite_first e t) as [r|] eqn:Er; [|discriminate].
    injection H as <-. simpl.
    rewrite (overwrite_first_members e t r (dest_id x) Er), Hx.
    now rewrite (IH r Ht eq_refl).
Qed.

Lemma drop_first_members key t t' k :
  drop_first key t = Some t' ->
  existsb (same_dest k) t' = true -> existsb (same_dest k) t = true.
Proof.
  revert t'. induction t as [|x t IH]; intros t' H Hk; simpl in H;
    [discriminate|].
  simpl. destruct (same_dest key x).
  - injection H as <-. rewrite Hk. apply orb_true_r.
  - destruct (drop_first key t) as [r|]; [|discriminate].
    injection H as <-. simpl in Hk.
    apply orb_true_iff in Hk as [Hk | Hk].
    + now rewrite Hk.
    + rewrite (IH r eq_refl Hk). apply orb_true_r.
Qed.

Lemma distinct_drop key t t' :
  distinct_dests t = true ->
  drop_first key t = Some t' ->
  distinct_dests t' = true.
Proof.
  revert t'. induction t as [|x t IH]; intros t' Hd H; simpl in H;
    [discriminate|].
  simpl in Hd. apply andb_true_iff in Hd as [Hx Ht].
  destruct (same_dest key x).
  - now injection H as <-.
  - destruct (drop_first key t) as [r|] eqn:Er; [|discriminate].
    injection H as <-. simpl.
    rewrite (IH r Ht eq_refl), andb_true_r.
    apply negb_true_iff. apply negb_true_iff in Hx.
    destruct (existsb (same_dest (dest_id x)) r) eqn:E; [|reflexivity].
    rewrite (drop_first_members key t r _ Er E) in Hx. discriminate.
Qed.

(** Each mutator keeps the keys of the table distinct. *)
Lemma table_step_distinct s c :
  distinct_dests (routing_table s) = true ->
  distinct_dests (routing_table (table_step s c)) = true.
Proof.
  intros Hd. destruct c as [[e|] | [e|] | [k|]]; simpl; try exact Hd.
  - unfold routing_module_insert_route.
    destruct (existsb (same_dest (dest_id e)) (routing_table s)) eqn:Ex;
      [exact Hd|].
    destruct (MAX_ROUTING_TABLE_ENTRIES <=? _); [exact Hd|].
    simpl. now apply distinct_append.
  - unfold routing_module_update_route.
    destruct (overwrite_first e (routing_table s)) as [t'|] eqn:Eo;
      [|exact Hd].
    simpl. eapply distinct_overwrite; eassumption.
  - unfold routing_module_remove_route.
    destruct (drop_first k (routing_table s)) as [t'|] eqn:Ed;
      [|exact Hd].
    simpl. eapply distinct_drop; eassumption.
Qed.

Lemma table_run_distinct calls : forall s,
  distinct_dests (routing_table s) = true ->
  distinct_dests (routing_table (table_run calls s)) = true.
Proof.
  induction calls as [|c calls IH]; intros s Hd; [exact Hd|].
  apply IH. now apply table_step_distinct.
Qed.

Lemma existsb_false_nth k t : forall j b,
  existsb (same_dest k) t = false ->
  nth_error t j = Some b -> same_dest k b = false.
Proof.
  induction t as [|x t IH]; intros [|j] b Hex Hn; simpl in *;
    try discriminate.
  - injection Hn as <-. now apply orb_false_iff in Hex as [? _].
  - apply orb_false_iff in Hex as [_ Hex]. eapply IH; eassumption.
Qed.

(** What [distinct_dests] says: entries at different places differ in
    their keys. *)
Lemma distinct_dests_spec t :
  distinct_dests t = true ->
  forall i j a b,
    nth_error t i = Some a -> nth_error t j = Some b -> i <> j ->
    strncmp_eq 32 (dest_id a) (dest_id b) = false.
Proof.
  induction t as [|x t IH]; intros Hd i j a b Ha Hb Hij.
  - destruct i; discriminate.
  - simpl in Hd. apply andb_true_iff in Hd as [Hx Ht].
    apply negb_true_iff in Hx.
    destruct i as [|i], j as [|j]; simpl in Ha, Hb.
    + contradiction.
    + injection Ha as <-.
      pose proof (existsb_false_nth _ _ _ _ Hx Hb) as H.
      unfold same_dest in H. now rewrite strncmp_eq_sym.
    + injection Hb as <-.
      exact (existsb_false_nth _ _ _ _ Hx Ha).
    + apply (IH Ht i j); auto.
Qed.

(** C8.  Whatever calls of [routing_module_insert_route],
    [routing_module_update_route] and [routing_module_remove_route] are
    made on an empty table, two different places of the table never
    hold entries with the same [dest_id]; and inserting an entry whose
    [dest_id] is already present returns false and changes nothing. *)
Theorem routing_table_has_no_duplicate_dest :
  forall calls s,
    let s' := table_run calls (set_table [] s) in
    (forall i j a b,
        nth_error (routing_table s') i = Some a ->
        nth_error (routing_table s') j = Some b ->
        i <> j ->
        strncmp_eq 32 (dest_id a) (dest_id b) = false)
    /\ (forall e,
          existsb (same_dest (dest_id e)) (routing_table s') = true ->
          routing_module_insert_route (Some e) s' = (false, s')).
Proof.
  intros calls s s'. split.
  - apply distinct_dests_spec. unfold s'.
    apply table_run_distinct. reflexivity.
  - intros e He. unfold routing_module_insert_route. now rewrite He.
Qed.

(** Two inserts, an update, a rejected insert and a removal: the two
    entries left differ in their keys, and inserting "ECU_A" again is
    refused. *)
Lemma routing_table_has_no_duplicate_dest_witness :
  let calls := [ Insert (Some (route "ECU_A" "ECU_A" 1));
                 Insert (Some (route "ECU_B" "ECU_A" 2));
                 Insert (Some (route "ECU_C" "ECU_C" 1));
                 Update (Some (route "ECU_A" "ECU_B" 3));
                 Insert (Some (route "ECU_B" "ECU_B" 1));
                 Remove (Some "ECU_C"%string) ] in
  let s' := table_run calls (set_table [] routing_initial) in
  routing_table s' = [route "ECU_A" "ECU_B" 3; route "ECU_B" "ECU_A" 2]
  /\ strncmp_eq 32 "ECU_A" "ECU_B" = false
  /\ routing_module_insert_route (Some (route "ECU_A" "ECU_X" 9)) s'
     = (false, s').
Proof.
  intros calls s'.
  destruct (routing_table_has_no_duplicate_dest calls routing_initial)
    as [Hdistinct Hreject].
  split; [reflexivity|]. split.
  - exact (Hdistinct 0%nat 1%nat (route "ECU_A" "ECU_B" 3)
                     (route "ECU_B" "ECU_A" 2) eq_refl eq_refl
                     ltac:(discriminate)).
  - exact (Hreject (route "ECU_A" "ECU_X" 9) eq_refl).
Defined.

End RoutingTableFacts.

(* ------------------------------------------------------------------ *)
(** ** Routing configuration and dispatch *)

Module RoutingFacts.
Import CStr Routing.

(** [routing_module_set_config] always installs the new values in
    memory. *)
Lemma set_config_in_memory c ok s :
  routing_config (snd (routing_module_set_config (Some c) ok s)) = c.
Proof. destruct c, ok; reflexivity. Qed.

(** With the file opened, the three keys are written and the call
    returns true. *)
Lemma set_config_saved c s :
  let r := routing_module_set_config (Some c) true s in
  fst r = true
  /\ config_ini (snd r)
     = Some [ ("ROUTING_DEFAULT_COST=" ++ dec (default_cost c))%string;
              ("ROUTING_RETRY_COUNT=" ++ dec (retry_count c))%string;
              ("ROUTING_RETRY_DELAY_MS=" ++ dec (retry_delay_ms c))%string ].
Proof. destruct c; split; reflexivity. Qed.

(** C3 (what the code does at the failing input).  When [config.ini]
    cannot be opened for writing, [routing_module_save_config] returns
    false, yet [routing_module_set_config] returns true: it discards the
    result of the save.  The configuration in memory is the new one and
    the file is what it was. *)
Theorem set_config_hides_save_failure :
  forall c s,
    fst (routing_module_save_config false s) = false
    /\ fst (routing_module_set_config (Some c) false s) = true
    /\ routing_config (snd (routing_module_set_config (Some c) false s)) = c
    /\ config_ini (snd (routing_module_set_config (Some c) false s))
       = config_ini s.
Proof.
  intros c s. destruct c. repeat split; reflexivity.
Qed.

(** A unicast to "ECU_X" with an empty table, three retries 100 ms
    apart: the send task sleeps 100 ms once and then waits for the mutex
    it holds.  No recalculation is announced, no ROUTE_FAILURE is
    reported and nothing is sent. *)
Example unicast_fallback_waits_for_the_mutex :
  let tuned := snd (routing_module_set_config
                      (Some {| default_cost := 1; retry_count := 3;
                               retry_delay_ms := 100 |}) true alone) in
  let queued := snd (routing_module_send_message (Some "ECU_X"%string)
                       (Some [1; 2; 3; 4; 5; 6; 7; 8]) 8
                       ROUTING_MODE_UNICAST true tuned) in
  let after := routing_module_send_task_iteration (fun _ => 0) queued in
  send_task_blocked after = true
  /\ notices after = []
  /\ slept_ms after = 100
  /\ dispatched after = [].
Proof. vm_compute. repeat split; reflexivity. Qed.

(** With a neighbour "ECU_X" a recalculation would find the route, but
    the fallback never gets to it: the table stays empty. *)
Example unicast_fallback_never_recalculates :
  let met := snd (routing_module_update_topology
                    (Some [ {| neighbor_id := "ECU_X"; rssi := -40;
                               link_quality := 90 |} ]) 7 alone) in
  let emptied := set_table [] met in
  let queued := snd (routing_module_send_message (Some "ECU_X"%string)
                       (Some [1; 2]) 2 ROUTING_MODE_UNICAST true emptied) in
  let after := routing_module_send_task_iteration (fun _ => 9) queued in
  send_task_blocked after = true
  /\ dispatched after = []
  /\ routing_table after = []
  /\ notices after = notices queued.
Proof. vm_compute. repeat split; reflexivity. Qed.

(** With [retry_count] 0 the fallback is skipped and ROUTE_FAILURE about
    "ECU_X" is reported at once. *)
Example unicast_without_retries :
  let tuned := snd (routing_module_set_config
                      (Some {| default_cost := 1; retry_count := 0;
                               retry_delay_ms := 100 |}) true alone) in
  let queued := snd (routing_module_send_message (Some "ECU_X"%string)
                       (Some [1; 2]) 2 ROUTING_MODE_UNICAST true tuned) in
  let after := routing_module_send_task_iteration (fun _ => 0) queued in
  send_task_blocked after = false
  /\ map event (notices after) = [ROUTING_EVENT_ROUTE_FAILURE]
  /\ map about (notices after) = [Some "ECU_X"%string]
  /\ slept_ms after = 0
  /\ dispatched after = [].
Proof. vm_compute. repeat split; reflexivity. Qed.




End RoutingFacts.

(* ------------------------------------------------------------------ *)
(** ** Firmware segmentation *)

Module SegmentFacts.
Import CInt CIntFacts Ota.

(** Cutting a list into [n] pieces of [k] elements and gluing them
    back, when [n] pieces are enough to cover it. *)
Lemma concat_chunks {A} (k : nat) : forall (n : nat) (l : list A),
  (List.length l <= k * n)%nat ->
  List.concat (map (fun i => firstn k (skipn (k * i) l)) (seq 0 n)) = l.
Proof.
  induction n as [|n IH]; intros l Hlen.
  - destruct l; [reflexivity | simpl in Hlen; lia].
  - cbn [seq map List.concat]. rewrite Nat.mul_0_r. cbn [skipn].
    rewrite <- seq_shift, map_map.
    transitivity (firstn k l ++ skipn k l); [|apply firstn_skipn].
    f_equal.
    transitivity
      (List.concat (map (fun i => firstn k (skipn (k * i) (skipn k l)))
                        (seq 0 n)));
      [|apply IH; rewrite length_skipn; lia].
    f_equal. apply map_ext. intros i.
    rewrite skipn_skipn. do 2 f_equal. lia.
Qed.

Section Sized.
Variable buf : list Z.
Variable firmware_size : Z.
Hypothesis size_is_length : Z.of_nat (List.length buf) = firmware_size.
Hypothesis size_positive : 0 < firmware_size.
Hypothesis size_no_wrap : firmware_size <= 4294966272.

Let count : Z := to_u32 (firmware_size + OTA_PACKET_SIZE - 1) / OTA_PACKET_SIZE.

Lemma count_is_ceiling :
  OTA_PACKET_SIZE * (count - 1) < firmware_size <= OTA_PACKET_SIZE * count.
Proof.
  clear size_is_length.
  unfold count, OTA_PACKET_SIZE.
  rewrite to_u32_small by (unfold is_u32; lia).
  pose proof (Z.div_mod (firmware_size + 1024 - 1) 1024 ltac:(lia)).
  pose proof (Z.mod_pos_bound (firmware_size + 1024 - 1) 1024 ltac:(lia)).
  lia.
Qed.

(** The descriptor at an index below the count. *)
Lemma segment_at_inside i :
  0 <= i < count ->
  block (data (segment_at buf firmware_size i)) = buf
  /\ offset (data (segment_at buf firmware_size i)) = OTA_PACKET_SIZE * i
  /\ size (segment_at buf firmware_size i)
     = Z.min OTA_PACKET_SIZE (firmware_size - OTA_PACKET_SIZE * i).
Proof.
  intros Hi. pose proof count_is_ceiling as Hc.
  unfold segment_at, OTA_PACKET_SIZE in *. cbn [block data offset size].
  rewrite !(to_u32_small (i * 1024)) by (unfold is_u32; lia).
  rewrite to_u32_small by (unfold is_u32; lia).
  split; [reflexivity|]. split; [lia|].
  destruct (Z.leb_spec 1024 (firmware_size - i * 1024)); lia.
Qed.

Lemma slice_at_inside i :
  (i < Z.to_nat count)%nat ->
  slice (segment_at buf firmware_size (Z.of_nat i))
  = firstn 1024 (skipn (1024 * i) buf).
Proof.
  intros Hi.
  destruct (segment_at_inside (Z.of_nat i) ltac:(lia)) as (Hb & Ho & Hs).
  unfold slice. rewrite Hb, Ho, Hs. unfold OTA_PACKET_SIZE.
  replace (Z.to_nat (1024 * Z.of_nat i)) with (1024 * i)%nat by lia.
  destruct (Z.le_ge_cases 1024 (firmware_size - 1024 * Z.of_nat i)) as [H|H].
  - rewrite Z.min_l by lia. reflexivity.
  - rewrite Z.min_r by lia.
    rewrite !firstn_all2; [reflexivity | |]; rewrite length_skipn; lia.
Qed.

Lemma slices_cover :
  List.concat (map slice
            (map (fun i => segment_at buf firmware_size (Z.of_nat i))
                 (seq 0 (Z.to_nat count)))) = buf.
Proof.
  rewrite map_map.
  rewrite (map_ext_in _ (fun i => firstn 1024 (skipn (1024 * i) buf))).
  - apply concat_chunks. pose proof count_is_ceiling.
    unfold OTA_PACKET_SIZE in *. lia.
  - intros i Hin. apply in_seq in Hin. apply slice_at_inside. lia.
Qed.

End Sized.

Lemma nth_error_tabulate {A} (f : nat -> A) n i g :
  nth_error (map f (seq 0 n)) i = Some g -> (i < n)%nat /\ g = f i.
Proof.
  intros H.
  assert (Hi : (i < n)%nat).
  { pose proof (nth_error_Some (map f (seq 0 n)) i) as Hs.
    rewrite length_map, length_seq in Hs. apply Hs. congruence. }
  split; [exact Hi|].
  rewrite nth_error_map in H.
  rewrite (nth_error_nth' (seq 0 n) 0%nat) in H by (rewrite length_seq; lia).
  rewrite seq_nth in H by lia. simpl in H. congruence.
Qed.

(** The segmenter rejects a null buffer and an empty one and leaves the
    module as it was. *)
Lemma segment_rejects_nothing ok d n s :
  d = None \/ n = 0 ->
  ota_module_segment_firmware ok d n s = (false, s).
Proof.
  intros [-> | ->]; [reflexivity|].
  destruct d; reflexivity.
Qed.

(** C7 (amended).  For a buffer of [firmware_size] bytes with
    [0 < firmware_size <= 4294966272], so that [firmware_size + 1023]
    fits in 32 bits, and when the descriptor array is allocated, the
    segmenter returns true and stores [n] descriptors, [n] being the
    ceiling of [firmware_size / 1024]; descriptor [i] points into the
    buffer at [1024 * i]; all have size 1024 but the last, which has
    what remains; and the slices, in order, concatenate to the buffer.
    A null buffer or a zero size returns false and changes nothing. *)
Theorem segmentation_covers_firmware :
  (forall s buf firmware_size,
      Z.of_nat (List.length buf) = firmware_size ->
      0 < firmware_size ->
      firmware_size <= 4294966272 ->
      exists segments n,
        ota_module_segment_firmware true (Some buf) firmware_size s
        = (true, set_segments (Some segments) n s)
        /\ Z.of_nat (List.length segments) = n
        /\ 1024 * (n - 1) < firmware_size <= 1024 * n
        /\ (forall i g,
               nth_error segments i = Some g ->
               block (data g) = buf
               /\ offset (data g) = 1024 * Z.of_nat i
               /\ size g = if Z.of_nat i + 1 <? n then 1024
                           else firmware_size - 1024 * (n - 1))
        /\ List.concat (map slice segments) = buf)
  /\ (forall malloc_ok s firmware_data firmware_size,
        firmware_data = None \/ firmware_size = 0 ->
        ota_module_segment_firmware malloc_ok firmware_data firmware_size s
        = (false, s)).
Proof.
  split.
  - intros s buf firmware_size Hlen Hpos Hmax.
    pose proof (count_is_ceiling firmware_size Hpos Hmax) as Hc.
    set (n := to_u32 (firmware_size + OTA_PACKET_SIZE - 1) / OTA_PACKET_SIZE)
      in *.
    exists (map (fun i => segment_at buf firmware_size (Z.of_nat i))
                (seq 0 (Z.to_nat n))), n.
    unfold OTA_PACKET_SIZE in Hc.
    split; [|split; [|split; [exact Hc | split]]].
    + unfold ota_module_segment_firmware.
      destruct (Z.eqb_spec firmware_size 0); [lia | reflexivity].
    + rewrite length_map, length_seq. lia.
    + intros i g Hg. apply nth_error_tabulate in Hg as [Hi ->].
      destruct (segment_at_inside buf firmware_size Hpos Hmax (Z.of_nat i)
                  ltac:(fold n; lia)) as (Hb & Ho & Hs).
      unfold OTA_PACKET_SIZE in *.
      split; [exact Hb|]. split; [exact Ho|]. rewrite Hs.
      destruct (Z.ltb_spec (Z.of_nat i + 1) n); lia.
    + apply slices_cover; assumption.
  - intros ok s d n H. now apply segment_rejects_nothing.
Qed.

(** 2500 bytes: three descriptors of 1024, 1024 and 452 bytes; and a
    zero size refused. *)
Lemma segmentation_covers_firmware_witness :
  (exists segments,
      ota_module_segment_firmware true (Some (repeat 7 2500)) 2500 ota_initial
      = (true, set_segments (Some segments) 3 ota_initial)
      /\ map size segments = [1024; 1024; 452]
      /\ List.concat (map slice segments) = repeat 7 2500)
  /\ ota_module_segment_firmware true (Some [1; 2; 3]) 0 ota_initial
     = (false, ota_initial).
Proof.
  destruct segmentation_covers_firmware as [Hcover Hreject].
  split.
  - destruct (Hcover ota_initial (repeat 7 2500) 2500
                ltac:(vm_compute; reflexivity) ltac:(lia) ltac:(lia))
      as (segments & n & Hrun & Hn & Hceil & Hshape & Hcat).
    assert (n = 3) as -> by lia.
    exists segments. split; [exact Hrun|]. split; [|exact Hcat].
    vm_compute in Hrun. injection Hrun as <-. vm_compute. reflexivity.
  - apply Hreject. right. reflexivity.
Defined.

(** C7 (counterexample).  Two inputs with a non-null buffer and a
    positive size for which the segmenter does not produce the ceiling
    of [size / 1024] descriptors.  For a buffer of [2^32 - 1] bytes the
    sum [size + 1023] wraps around, the count is 0 instead of 4194304,
    and the call returns true with no descriptor.  And when [malloc]
    returns null, a buffer of 3 bytes gets no descriptor and the call
    returns false. *)
Lemma segmentation_counterexample :
  (let buf := repeat 0 (Z.to_nat 4294967295) in
   Z.of_nat (List.length buf) = 4294967295
   /\ ota_module_segment_firmware true (Some buf) 4294967295 ota_initial
      = (true, set_segments (Some []) 0 ota_initial)
   /\ (4294967295 + 1023) / 1024 = 4194304)
  /\ ota_module_segment_firmware false (Some [1; 2; 3]) 3 ota_initial
     = (false, set_segments None 0 ota_initial).
Proof.
  split; [|reflexivity].
  intros buf. split; [|split].
  - unfold buf. rewrite repeat_length. lia.
  - generalize buf. intros b. reflexivity.
  - reflexivity.
Qed.

End SegmentFacts.

(* ------------------------------------------------------------------ *)
(** ** The update pipeline *)

Module OtaFacts.
Import CInt CStr Ota.

Lemma notify_keeps_config st ecu s :
  ota_config (ota_notify_callbacks st ecu s) = ota_config s.
Proof. reflexivity. Qed.

Lemma send_segments_keeps_config accepted ecu segments : forall i s,
  ota_config (snd (send_segments accepted ecu i segments s)) = ota_config s.
Proof.
  induction segments as [|g rest IH]; intros i s; simpl; [reflexivity|].
  destruct (accepted i); [now rewrite IH | reflexivity].
Qed.

Lemma check_version_keeps_config ecu v s :
  ota_config (snd (ota_module_check_version ecu v s)) = ota_config s.
Proof.
  unfold ota_module_check_version.
  destruct ecu as [ecu|]; [|reflexivity].
  destruct (slot_of ecu); [|reflexivity].
  destruct (_ <? _); reflexivity.
Qed.

Lemma download_keeps_config e ecu s :
  ota_config (snd (ota_module_download_firmware e ecu s)) = ota_config s.
Proof.
  unfold ota_module_download_firmware, ota_module_load_firmware.
  destruct ecu as [ecu|]; [|reflexivity].
  destruct (update_in_progress s); [reflexivity|].
  destruct (slot_of ecu); [|reflexivity].
  destruct (download_ok e); [|reflexivity]. cbn [negb].
  destruct (file_data e); [|reflexivity].
  destruct (file_size e =? 0); reflexivity.
Qed.

Lemma segment_keeps_config ok d n s :
  ota_config (snd (ota_module_segment_firmware ok d n s)) = ota_config s.
Proof.
  unfold ota_module_segment_firmware.
  destruct d; [|reflexivity].
  destruct (n =? 0); [reflexivity|].
  destruct ok; reflexivity.
Qed.

Lemma distribute_keeps_config accepted ecu s :
  ota_config (snd (ota_module_distribute_firmware accepted ecu s))
  = ota_config s.
Proof.
  unfold ota_module_distribute_firmware.
  destruct ecu as [ecu|]; [|reflexivity].
  destruct (ota_segments s) as [segments|]; [|reflexivity].
  match goal with
  | |- context [send_segments ?a ?b ?c ?d ?e] =>
    pose proof (send_segments_keeps_config a b d c e) as H;
    destruct (send_segments a b c d e) as [sent s3]
  end.
  simpl in H. destruct sent; simpl; exact H.
Qed.

Lemma apply_keeps_config e ecu s :
  ota_config (snd (ota_module_apply_update e ecu s)) = ota_config s.
Proof.
  unfold ota_module_apply_update, apply_failed, ota_module_update_config.
  destruct ecu as [ecu|]; [|reflexivity].
  destruct (partition_found e), (begin_ok e), (write_ok e), (end_ok e),
           (set_boot_ok e), (config_write_ok e); reflexivity.
Qed.

(** No call into the module changes the versions it holds. *)
Lemma ota_step_keeps_config s c :
  ota_config (ota_step s c) = ota_config s.
Proof.
  destruct c as [ecu v | adv | e ecu | ok d n | acc ecu | e ecu | ecu | ok];
    simpl.
  - apply check_version_keeps_config.
  - destruct adv; [apply check_version_keeps_config | reflexivity].
  - apply download_keeps_config.
  - apply segment_keeps_config.
  - apply distribute_keeps_config.
  - apply apply_keeps_config.
  - reflexivity.
  - unfold ota_module_update_config. destruct ok; reflexivity.
Qed.

Lemma ota_run_keeps_config calls : forall s,
  ota_config (ota_run calls s) = ota_config s.
Proof.
  induction calls as [|c calls IH]; intros s; [reflexivity|].
  unfold ota_run in *. simpl. rewrite IH. apply ota_step_keeps_config.
Qed.

(** A successful application ends in [SUCCESS] and, when the SD card
    takes the file, has written the configuration it found. *)
Lemma apply_success e ecu s :
  fst (ota_module_apply_update e ecu s) = true ->
  status (snd (ota_module_apply_update e ecu s)) = OTA_STATUS_SUCCESS
  /\ update_in_progress (snd (ota_module_apply_update e ecu s)) = false
  /\ (config_write_ok e = true ->
      written (snd (ota_module_apply_update e ecu s))
      = Some (config_lines (ota_config s))).
Proof.
  unfold ota_module_apply_update, apply_failed, ota_module_update_config.
  destruct ecu as [ecu|]; [|discriminate].
  destruct (partition_found e), (begin_ok e), (write_ok e), (end_ok e),
           (set_boot_ok e); try discriminate.
  intros _. destruct (config_write_ok e); simpl; repeat split;
    try reflexivity; discriminate.
Qed.

Lemma check_version_true ecu v s :
  fst (ota_module_check_version (Some ecu) v s) = true ->
  exists k, slot_of ecu = Some k /\ installed_version (ota_config s) k < v.
Proof.
  unfold ota_module_check_version.
  destruct (slot_of ecu) as [k|]; [|discriminate].
  destruct (Z.ltb_spec (installed_version (ota_config s) k) v);
    [|discriminate].
  intros _. now exists k.
Qed.

(** C1 (what the code does).  Take any run in which
    [ota_module_check_version] reports version [v] available for an
    ECU, any calls into the module follow, and
    [ota_module_apply_update] then returns true.  The run ends in
    SUCCESS, but the installed version recorded for the ECU is the one
    from before the run, strictly below [v], and the configuration
    given to the SD card is the one from before the run: nothing ever
    assigns the advertised version. *)
Theorem success_keeps_the_old_installed_version :
  forall s ecu v calls e,
    fst (ota_module_check_version (Some ecu) v s) = true ->
    fst (ota_module_apply_update e (Some ecu)
           (ota_run calls (snd (ota_module_check_version (Some ecu) v s))))
    = true ->
    let final :=
      snd (ota_module_apply_update e (Some ecu)
             (ota_run calls (snd (ota_module_check_version (Some ecu) v s)))) in
    status final = OTA_STATUS_SUCCESS
    /\ (exists before,
           installed ecu s = Some before
           /\ installed ecu final = Some before
           /\ before < v)
    /\ (config_write_ok e = true ->
        written final = Some (config_lines (ota_config s))).
Proof.
  intros s ecu v calls e Hcheck Happly final.
  destruct (check_version_true ecu v s Hcheck) as (k & Hk & Hlt).
  destruct (apply_success e (Some ecu) _ Happly) as (Hst & _ & Hw).
  assert (Hcfg : ota_config final = ota_config s).
  { unfold final. rewrite apply_keeps_config, ota_run_keeps_config.
    apply check_version_keeps_config. }
  split; [exact Hst|]. split.
  - exists (installed_version (ota_config s) k).
    unfold installed. rewrite Hk, Hcfg.
    split; [reflexivity|]. split; [reflexivity | exact Hlt].
  - intros Hok. fold final in Hw. rewrite (Hw Hok).
    rewrite ota_run_keeps_config, check_version_keeps_config. reflexivity.
Qed.

(** Version 2 advertised, version 1 installed, every step succeeding:
    the run ends in SUCCESS with version 1 still recorded and written. *)
Lemma success_keeps_the_old_installed_version_witness :
  let final :=
    snd (ota_module_apply_update platform_fine (Some "monitor_ecu"%string)
           (ota_run pipeline
              (snd (ota_module_check_version (Some "monitor_ecu"%string) 2
                      subscribed)))) in
  status final = OTA_STATUS_SUCCESS
  /\ installed "monitor_ecu" final = Some 1
  /\ hd_error (match written final with Some l => l | None => [] end)
     = Some "OTA_FIRMWARE_VERSION_MONITOR=1"%string.
Proof.
  intros final.
  destruct (success_keeps_the_old_installed_version subscribed
              "monitor_ecu"%string 2 pipeline platform_fine
              ltac:(vm_compute; reflexivity) ltac:(vm_compute; reflexivity))
    as (Hst & (before & Hb & Hf & _) & Hw).
  fold final in Hst, Hf, Hw.
  split; [exact Hst|]. split.
  - rewrite Hf, <- Hb. vm_compute. reflexivity.
  - rewrite (Hw eq_refl). vm_compute. reflexivity.
Defined.

(** C4 (amended).  While [update_in_progress] is set, which is from the
    start of a download until that download fails or an application
    succeeds, [ota_module_download_firmware] for any ECU, and for a
    null one, returns false and leaves every field of the module, its
    segments and its trace as they were. *)
Theorem download_refused_while_update_in_progress :
  forall e ecu_id s,
    update_in_progress s = true ->
    ota_module_download_firmware e ecu_id s = (false, s).
Proof.
  intros e ecu_id s H. unfold ota_module_download_firmware.
  destruct ecu_id; [now rewrite H | reflexivity].
Qed.

Lemma download_refused_while_update_in_progress_witness :
  status downloading = OTA_STATUS_DOWNLOADING
  /\ ota_module_download_firmware download_fine
       (Some "brake_control_ecu"%string) downloading = (false, downloading).
Proof.
  split; [reflexivity|].
  apply (download_refused_while_update_in_progress download_fine
           (Some "brake_control_ecu"%string) downloading).
  reflexivity.
Defined.

(** C4 (counterexample).  The refusal is tied to the flag, not to the
    state, and only the download has it.  (1) In the non-idle state
    UPDATE_AVAILABLE reached for the monitor, a download for the brake
    ECU is accepted.  (2) While the monitor update is alive after its
    download, [ota_module_apply_update] for the brake ECU is not
    refused: it returns true, ends in SUCCESS, releases the monitor's
    firmware buffer and clears the flag.  (3) In the same situation,
    once segments exist, [ota_module_distribute_firmware] for the brake
    ECU is not refused either: it sends the monitor's three segments
    and consumes them. *)
Lemma second_update_is_not_refused :
  (let available :=
     snd (ota_module_check_version (Some "monitor_ecu"%string) 2 subscribed) in
   status available = OTA_STATUS_UPDATE_AVAILABLE
   /\ fst (ota_module_download_firmware download_fine
             (Some "brake_control_ecu"%string) available) = true)
  /\ (status downloading = OTA_STATUS_DOWNLOADING
      /\ update_in_progress downloading = true
      /\ firmware_data downloading = Some firmware
      /\ let r := ota_module_apply_update platform_fine
                    (Some "brake_control_ecu"%string) downloading in
         fst r = true
         /\ status (snd r) = OTA_STATUS_SUCCESS
         /\ firmware_data (snd r) = None
         /\ update_in_progress (snd r) = false)
  /\ (let segmented :=
        snd (ota_module_segment_firmware true (Some firmware) 2500
               downloading) in
      let r := ota_module_distribute_firmware (fun _ => true)
                 (Some "brake_control_ecu"%string) segmented in
      update_in_progress segmented = true
      /\ ota_segment_count segmented = 3
      /\ fst r = true
      /\ status (snd r) = OTA_STATUS_DISTRIBUTING
      /\ ota_segments (snd r) = None
      /\ List.length (trace (snd r)) = (List.length (trace segmented) + 4)%nat).
Proof. vm_compute. repeat split; reflexivity. Qed.

End OtaFacts.

(* ------------------------------------------------------------------ *)
(** ** Arrays written at one index *)

Module RingFacts.

Lemma nth_after_write {A} (h : list A) : forall (i j : nat) (a d : A),
  (i < List.length h)%nat ->
  nth j (firstn i h ++ a :: skipn (S i) h) d
  = if (j =? i)%nat then a else nth j h d.
Proof.
  induction h as [|x h IH]; intros i j a d Hi; simpl in Hi; [lia|].
  destruct i as [|i], j as [|j]; try reflexivity.
  cbn [firstn skipn app nth Nat.eqb]. apply IH. lia.
Qed.

Lemma length_after_write {A} (h : list A) (i : nat) (a : A) :
  (i < List.length h)%nat ->
  List.length (firstn i h ++ a :: skipn (S i) h) = List.length h.
Proof.
  intros Hi. rewrite length_app, length_firstn. cbn [List.length].
  rewrite length_skipn. lia.
Qed.

Lemma nth_error_after_write {A} (h : list A) : forall (i j : nat) (a : A),
  (i < List.length h)%nat ->
  nth_error (firstn i h ++ a :: skipn (S i) h) j
  = if (j =? i)%nat then Some a else nth_error h j.
Proof.
  induction h as [|x h IH]; intros i j a Hi; simpl in Hi; [lia|].
  destruct i as [|i], j as [|j]; try reflexivity.
  cbn [firstn skipn app nth_error Nat.eqb]. apply IH. lia.
Qed.

(** Writing just after a filled prefix extends the prefix. *)
Lemma write_after_prefix {A} (l : list A) (a z : A) (n : nat) :
  firstn (List.length l) (l ++ repeat z (S n))
  ++ a :: skipn (S (List.length l)) (l ++ repeat z (S n))
  = (l ++ [a]) ++ repeat z n.
Proof.
  induction l as [|x l IH]; [reflexivity|].
  cbn [List.length firstn skipn app]. f_equal. exact IH.
Qed.

End RingFacts.

(* ------------------------------------------------------------------ *)
(** ** The alert sink *)

Module AlertFacts.
Import CInt CStr Alert RingFacts.

Lemma register_alert_silent now lvl msg s :
  notifications (trace (register_alert now lvl msg s))
  = notifications (trace s).
Proof.
  destruct msg as [text|]; [|reflexivity].
  unfold notifications. simpl. rewrite filter_app. simpl. apply app_nil_r.
Qed.

Lemma check_conditions_silent clock diag s :
  notifications (trace (alert_module_check_conditions clock diag s))
  = notifications (trace s).
Proof.
  unfold alert_module_check_conditions.
  destruct diag as [d|]; [|reflexivity].
  repeat match goal with
         | |- context [if ?b then _ else _] => destruct b
         end;
    repeat rewrite register_alert_silent; reflexivity.
Qed.

Lemma step_silent s c :
  notifications (trace (step s c)) = notifications (trace s).
Proof.
  destruct c as [| clock diag | b n | | [t|] | cb]; simpl;
    try reflexivity.
  apply check_conditions_silent.
Qed.

Lemma run_silent calls : forall s,
  notifications (trace (run calls s)) = notifications (trace s).
Proof.
  induction calls as [|c calls IH]; intros s; [reflexivity|].
  unfold run in *. simpl. rewrite IH. apply step_silent.
Qed.

(** The ring keeps its shape under [register_alert]. *)
Lemma register_alert_ring now lvl msg s :
  ring_ok s -> ring_ok (register_alert now lvl msg s).
Proof.
  unfold ring_ok, ALERT_HISTORY_SIZE. intros [Hi Hl].
  destruct msg as [text|]; [|split; assumption].
  cbn [register_alert alert_index alert_history]. split.
  - unfold to_u32, ALERT_HISTORY_SIZE.
    apply Z.mod_pos_bound. lia.
  - unfold put. rewrite length_after_write; [exact Hl | lia].
Qed.

Lemma check_conditions_ring clock diag s :
  ring_ok s -> ring_ok (alert_module_check_conditions clock diag s).
Proof.
  intros H. unfold alert_module_check_conditions.
  destruct diag as [d|]; [|exact H].
  repeat match goal with
         | |- context [if ?b then _ else _] => destruct b
         end;
    repeat apply register_alert_ring; exact H.
Qed.

Lemma step_ring s c : ring_ok s -> ring_ok (step s c).
Proof.
  intros H.
  destruct c as [| clock diag | b n | | [t|] | cb]; simpl; try exact H.
  - unfold ring_ok, ALERT_HISTORY_SIZE. cbn. split; [lia | reflexivity].
  - now apply check_conditions_ring.
Qed.

Lemma run_ring calls : forall s, ring_ok s -> ring_ok (run calls s).
Proof.
  induction calls as [|c calls IH]; intros s H; [exact H|].
  unfold run in *. simpl. apply IH. now apply step_ring.
Qed.

Lemma boot_ring : ring_ok alert_boot.
Proof. split; [unfold ALERT_HISTORY_SIZE; simpl; lia | reflexivity]. Qed.

(** What [register_alert] leaves in the ring: the new entry in the cell
    at the old index, every other cell as it was, and the index one
    further, back at 0 after the last cell. *)
Lemma register_alert_writes_the_cell now lvl text s :
  ring_ok s ->
  let entry := {| timestamp := now; level := lvl;
                  message := bounded_copy 128 text |} in
  let s' := register_alert now lvl (Some text) s in
  nth_error (alert_history s') (Z.to_nat (alert_index s)) = Some entry
  /\ (forall k, k <> Z.to_nat (alert_index s) ->
                nth_error (alert_history s') k = nth_error (alert_history s) k)
  /\ alert_index s' = (alert_index s + 1) mod ALERT_HISTORY_SIZE.
Proof.
  intros [Hi Hl] entry s'. subst s' entry. unfold ALERT_HISTORY_SIZE in *.
  cbn [register_alert alert_index alert_history]. unfold put.
  assert (Hw : (Z.to_nat (alert_index s) < List.length (alert_history s))%nat)
    by lia.
  split; [|split].
  - rewrite nth_error_after_write by exact Hw. now rewrite Nat.eqb_refl.
  - intros k Hk. rewrite nth_error_after_write by exact Hw.
    destruct (Nat.eqb_spec k (Z.to_nat (alert_index s))); [contradiction|].
    reflexivity.
  - unfold to_u32, ALERT_HISTORY_SIZE.
    rewrite (Z.mod_small (alert_index s + 1)) by lia. reflexivity.
Qed.

(** C10.  No sequence of calls into the alert module ever calls the
    function stored by [alert_module_register_notification_callback],
    whether one is registered or not: the calls of it in the trace are
    those that were there before.  Each alert emitted, in any state the
    module reaches from start-up, writes the ring entry: the cell at
    [alert_index] then holds the clock's timestamp, the level and the
    message cut to 127 characters, every other cell is as it was, and
    the index moves one further round the ring.  It reads the clock and
    hands the message to the logger's alert channel, and does nothing
    else to the outside. *)
Theorem notification_callback_is_never_called :
  (forall calls s,
      notifications (trace (run calls s)) = notifications (trace s))
  /\ (forall clock diag s,
        notifications (trace (alert_module_check_conditions clock diag s))
        = notifications (trace s))
  /\ (forall calls now lvl text,
        let s := run calls alert_boot in
        let entry := {| timestamp := now; level := lvl;
                        message := bounded_copy 128 text |} in
        let s' := register_alert now lvl (Some text) s in
        nth_error (alert_history s') (Z.to_nat (alert_index s)) = Some entry
        /\ (forall k, k <> Z.to_nat (alert_index s) ->
                      nth_error (alert_history s') k
                      = nth_error (alert_history s) k)
        /\ alert_index s' = (alert_index s + 1) mod ALERT_HISTORY_SIZE
        /\ trace s' = trace s ++ [RtcRead; LoggedAlert lvl (message entry)]).
Proof.
  split; [exact run_silent|]. split; [exact check_conditions_silent|].
  intros calls now lvl text s entry s'.
  destruct (register_alert_writes_the_cell now lvl text s
              (run_ring calls alert_boot boot_ring)) as (Hcell & Hrest & Hidx).
  split; [exact Hcell|]. split; [exact Hrest|]. split; [exact Hidx|].
  reflexivity.
Qed.

(** A callback registered, then a sample that trips every rule: four
    alerts logged, the callback not called once. *)
Example four_alerts_no_notification :
  let diag := {| bus_off := true; tx_error_counter := 101;
                 rx_error_counter := 0; bus_load := 81;
                 retransmission_count := 51 |} in
  let s := run [ Init; RegisterNotificationCallback (Some 1);
                 CheckConditions (fun k => 1000 + Z.of_nat k) (Some diag) ]
               alert_boot in
  notification_callback s = Some 1
  /\ alert_index s = 4
  /\ List.length (trace s) = 8%nat
  /\ notifications (trace s) = []
  /\ nth_error (alert_history s) 0
     = Some {| timestamp := 1000; level := ALERT_LEVEL_CRITICAL;
               message := "Estado Bus-Off detectado!" |}.
Proof. vm_compute. repeat split; reflexivity. Qed.

End AlertFacts.

(* ------------------------------------------------------------------ *)
(** ** can_esp_lib.c: plain frames, the queue, metrics, the self-test *)

Module CanMetricsFacts.
Import CInt CIntFacts CanFrame CanTx CanMetrics CanFrameFacts.

Lemma skipn_nth_cons (l : list Z) : forall n,
  (n < List.length l)%nat -> skipn n l = nth n l 0 :: skipn (S n) l.
Proof.
  induction l as [|x l IH]; intros [|n] Hn; simpl in *; try lia.
  - reflexivity.
  - apply IH. lia.
Qed.

Lemma Forall_prefix {A} (P : A -> Prop) (l : list A) : forall n,
  Forall P l -> Forall P (firstn n l).
Proof.
  induction l as [|x l IH]; intros [|n] H; simpl; try constructor.
  - now inversion H.
  - apply IH. now inversion H.
Qed.

(** With checksum mode off, sending a payload [d] of at most 8 bytes
    hands the driver a frame whose wire bytes are [d], with the
    caller's identifier, and succeeds when the driver does; receiving
    that frame succeeds and reports the identifier, the length and the
    payload that were sent. *)
Theorem plain_mode_roundtrip :
  forall cfg cb junk accepted i m0 d,
    use_checksum cfg = false ->
    Z.of_nat (List.length d) <= 8 ->
    let n := Z.of_nat (List.length d) in
    let out := CAN_ESP_SendMessage cfg cb junk accepted i (Some d) n in
    send_status out = (if accepted then CAN_ESP_OK else CAN_ESP_ERR_TRANSMIT)
    /\ exists f,
         handed_to_driver out = Some f
         /\ identifier f = i
         /\ wire_bytes f = d
         /\ exists m,
              CAN_ESP_ReceiveMessage cfg (Some m0) (Some f) = (CAN_ESP_OK, Some m)
              /\ id m = i /\ length m = n /\ payload m = d.
Proof.
  intros cfg cb junk accepted i m0 d Hcs Hlen n out.
  subst out. unfold CAN_ESP_SendMessage, CAN_MAX_DATA_LENGTH. rewrite Hcs.
  fold n. destruct (Z.ltb_spec 8 n) as [? | _]; [lia|].
  assert (Hcopy : memcpy junk d n = d ++ skipn (List.length d) junk).
  { unfold memcpy, n. now rewrite Nat2Z.id, firstn_all. }
  rewrite Hcopy.
  split; [destruct accepted; reflexivity|].
  eexists. split; [destruct accepted; reflexivity|].
  cbn [identifier]. split; [reflexivity|].
  split.
  { unfold wire_bytes. cbn [data_length_code tw_data]. unfold n.
    rewrite Nat2Z.id. apply firstn_exact_app. }
  unfold CAN_ESP_ReceiveMessage. rewrite Hcs.
  cbn [identifier data_length_code tw_data].
  eexists. split; [reflexivity|].
  cbn [id length]. repeat split.
  unfold payload. cbn [length data]. unfold memcpy, n.
  rewrite Nat2Z.id, firstn_exact_app. apply firstn_exact_app.
Qed.

Lemma plain_mode_roundtrip_witness :
  let out := CAN_ESP_SendMessage plain_cfg true (repeat 0 8) true 0x100
               (Some [1; 2; 3]) 3 in
  send_status out = CAN_ESP_OK
  /\ exists f,
       handed_to_driver out = Some f
       /\ identifier f = 0x100
       /\ wire_bytes f = [1; 2; 3]
       /\ exists m,
            CAN_ESP_ReceiveMessage plain_cfg (Some empty_message) (Some f)
            = (CAN_ESP_OK, Some m)
            /\ id m = 0x100 /\ length m = 3 /\ payload m = [1; 2; 3].
Proof.
  apply (plain_mode_roundtrip plain_cfg true (repeat 0 8) true 0x100
           empty_message [1; 2; 3]); [reflexivity | simpl; lia].
Defined.

(** In checksum mode the transmit task announces one byte more than the
    payload of a queued message but stores no checksum: the extra wire
    byte is whatever the task's frame buffer held at that index.  A
    checksum-mode receiver accepts the frame exactly when that left-over
    byte happens to equal the exclusive-or of the payload, and rejects
    it with the receive error otherwise. *)
Theorem queued_frame_carries_no_checksum :
  forall cfg cb e s msg rest m0,
    use_checksum cfg = true ->
    txQueue s = Some (msg :: rest) ->
    0 <= length msg < 8 ->
    List.length (data msg) = 8%nat ->
    List.length (tx_msg_data s) = 8%nat ->
    Forall is_u8 (data msg) ->
    let stale := nth (Z.to_nat (length msg)) (tx_msg_data s) 0 in
    exists f,
      handed (CAN_ESP_TransmitTask_iteration cfg cb e s) = handed s ++ [f]
      /\ data_length_code f = length msg + 1
      /\ wire_bytes f = payload msg ++ [stale]
      /\ fst (CAN_ESP_ReceiveMessage cfg (Some m0) (Some f))
         = if xor_bytes (payload msg) =? stale
           then CAN_ESP_OK else CAN_ESP_ERR_RECEIVE.
Proof.
  intros cfg cb e s msg rest m0 Hcs Hq Hlen Hd Hb Hu8 stale.
  set (w := payload msg).
  assert (Hw : List.length w = Z.to_nat (length msg)).
  { unfold w, payload. rewrite length_firstn. lia. }
  assert (Hdlc : data_length_code (convert_canesp_to_twai cfg msg (tx_msg_data s))
                 = Z.of_nat (List.length w) + 1).
  { unfold convert_canesp_to_twai, CAN_MAX_DATA_LENGTH. cbn [data_length_code].
    rewrite Hcs. destruct (Z.ltb_spec (length msg) 8) as [_ | ?]; [|lia].
    cbn [andb]. rewrite to_u8_small by (unfold is_u8; lia). lia. }
  assert (Hdata : tw_data (convert_canesp_to_twai cfg msg (tx_msg_data s))
                  = w ++ stale :: skipn (S (List.length w)) (tx_msg_data s)).
  { unfold convert_canesp_to_twai, memcpy. cbn [tw_data].
    fold (payload msg). fold w. f_equal.
    rewrite Hw. apply skipn_nth_cons. lia. }
  exists (convert_canesp_to_twai cfg msg (tx_msg_data s)).
  split.
  { unfold CAN_ESP_TransmitTask_iteration. rewrite Hq.
    destruct (transmit_ok e); cbn [negb handed]; [reflexivity|].
    destruct (retry_count msg <? CAN_ESP_MAX_RETRANSMISSIONS); reflexivity. }
  split; [rewrite Hdlc; lia|].
  split.
  { unfold wire_bytes. rewrite Hdlc, Hdata.
    replace (Z.to_nat (Z.of_nat (List.length w) + 1))
      with (S (List.length w)) by lia.
    apply firstn_succ_app. }
  rewrite (receive_framed cfg m0 _ w stale
             (skipn (S (List.length w)) (tx_msg_data s)) Hcs).
  - destruct (xor_bytes w =? stale); reflexivity.
  - unfold w, payload. now apply Forall_prefix.
  - lia.
  - exact Hdata.
  - exact Hdlc.
Qed.

Lemma queued_frame_carries_no_checksum_witness :
  exists f,
    handed (CAN_ESP_TransmitTask_iteration checksum_cfg true (acceptance 120)
              (tx_initial (Some [ {| id := 0x100; length := 2;
                                     data := [1; 2; 0; 0; 0; 0; 0; 0];
                                     retry_count := 0 |} ])))
    = [] ++ [f]
    /\ data_length_code f = 2 + 1
    /\ wire_bytes f = [1; 2] ++ [0]
    /\ fst (CAN_ESP_ReceiveMessage checksum_cfg (Some empty_message) (Some f))
       = CAN_ESP_ERR_RECEIVE.
Proof.
  apply (queued_frame_carries_no_checksum checksum_cfg true (acceptance 120)
           (tx_initial (Some [ {| id := 0x100; length := 2;
                                  data := [1; 2; 0; 0; 0; 0; 0; 0];
                                  retry_count := 0 |} ]))
           {| id := 0x100; length := 2; data := [1; 2; 0; 0; 0; 0; 0; 0];
              retry_count := 0 |} [] empty_message);
    try reflexivity.
  - simpl; lia.
  - repeat constructor; unfold is_u8; lia.
Defined.

(** When the driver accepts every frame, the task empties the queue in
    queue order: the frames reach the driver, and the transmit callback
    is told of each success, in the order the messages were queued, and
    nothing is counted as a retransmission. *)
Theorem accepted_frames_leave_in_queue_order :
  forall cfg cb q script s,
    txQueue s = Some q ->
    List.length script = List.length q ->
    Forall (fun e => transmit_ok e = true) script ->
    let s' := CAN_ESP_TransmitTask cfg cb script s in
    txQueue s' = Some []
    /\ map identifier (handed s') = map identifier (handed s) ++ map id q
    /\ callbacks s'
       = callbacks s
         ++ flat_map (fun m => notify_tx cb (id m) (data m) (length m) CAN_ESP_OK) q
    /\ totalRetransmissions s' = totalRetransmissions s.
Proof.
  intros cfg cb q. induction q as [|msg rest IH]; intros script s Hq Hlen Hok.
  - destruct script; [|discriminate]. simpl.
    rewrite !app_nil_r. repeat split; [exact Hq | reflexivity ..].
  - destruct script as [|e script]; [discriminate|].
    inversion Hok as [|? ? He Hok']; subst.
    injection Hlen as Hlen.
    cbn [CAN_ESP_TransmitTask fold_left].
    set (s1 := CAN_ESP_TransmitTask_iteration cfg cb e s).
    assert (H1 : txQueue s1 = Some rest
                 /\ handed s1 = handed s ++ [convert_canesp_to_twai cfg msg (tx_msg_data s)]
                 /\ callbacks s1 = callbacks s
                      ++ notify_tx cb (id msg) (data msg) (length msg) CAN_ESP_OK
                 /\ totalRetransmissions s1 = totalRetransmissions s).
    { unfold s1, CAN_ESP_TransmitTask_iteration. rewrite Hq, He.
      cbn. repeat split; reflexivity. }
    destruct H1 as (Hq1 & Hh1 & Hc1 & Hr1).
    destruct (IH script s1 Hq1 Hlen Hok') as (Hq2 & Hh2 & Hc2 & Hr2).
    unfold CAN_ESP_TransmitTask in *.
    rewrite Hq2, Hh2, Hc2, Hr2, Hh1, Hc1, Hr1.
    rewrite map_app, <- !app_assoc. cbn [map flat_map app identifier convert_canesp_to_twai].
    repeat split; reflexivity.
Qed.

Lemma accepted_frames_leave_in_queue_order_witness :
  let m1 := {| id := 0x100; length := 1; data := [1; 0; 0; 0; 0; 0; 0; 0];
               retry_count := 0 |} in
  let m2 := {| id := 0x200; length := 1; data := [2; 0; 0; 0; 0; 0; 0; 0];
               retry_count := 0 |} in
  let s' := CAN_ESP_TransmitTask plain_cfg false [acceptance 100; acceptance 90]
              (tx_initial (Some [m1; m2])) in
  txQueue s' = Some []
  /\ map identifier (handed s') = [] ++ [0x100; 0x200]
  /\ callbacks s' = [] ++ []
  /\ totalRetransmissions s' = 0.
Proof.
  intros m1 m2.
  apply (accepted_frames_leave_in_queue_order plain_cfg false [m1; m2]
           [acceptance 100; acceptance 90] (tx_initial (Some [m1; m2])));
    [reflexivity | reflexivity | repeat constructor].
Defined.

Lemma tallied_weaken k s : tallied k s -> tallied (k + 1) s.
Proof. unfold tallied. intros H. intuition lia. Qed.

(** One turn of the task keeps the counters consistent. *)
Lemma tallied_iteration cfg cb e k s :
  tallied k s -> k < 2 ^ 32 - 1 ->
  tallied (k + 1) (CAN_ESP_TransmitTask_iteration cfg cb e s).
Proof.
  intros H Hk. unfold CAN_ESP_TransmitTask_iteration.
  destruct (txQueue s) as [[|msg rest]|]; try now apply tallied_weaken.
  unfold tallied in *.
  destruct H as (H0 & Hcr & Hca & Hn & Hb & Hl).
  destruct (transmit_ok e); cbn [negb].
  - cbn [totalCollisions totalRetransmissions totalTransmissionAttempts
         latencyMetrics busLoadTotalTime num_samples total_latency
         min_latency max_latency].
    rewrite !to_u32_small by (unfold is_u32; lia).
    repeat split; try lia.
    + destruct (Z.ltb_spec (tx_end e - tx_start e) (min_latency (latencyMetrics s)));
        nia.
    + destruct (Z.ltb_spec (max_latency (latencyMetrics s)) (tx_end e - tx_start e));
        nia.
  - destruct (retry_count msg <? CAN_ESP_MAX_RETRANSMISSIONS);
      cbn [totalCollisions totalRetransmissions totalTransmissionAttempts
           latencyMetrics busLoadTotalTime num_samples total_latency
           min_latency max_latency];
      rewrite !to_u32_small by (unfold is_u32; lia);
      repeat split; lia.
Qed.

Lemma tallied_run cfg cb script : forall k s,
  tallied k s -> k + Z.of_nat (List.length script) < 2 ^ 32 ->
  tallied (k + Z.of_nat (List.length script))
          (CAN_ESP_TransmitTask cfg cb script s).
Proof.
  induction script as [|e script IH]; intros k s H Hk.
  - simpl. now rewrite Z.add_0_r.
  - cbn [CAN_ESP_TransmitTask fold_left].
    cbn [List.length] in *.
    replace (k + Z.of_nat (S (List.length script)))
      with ((k + 1) + Z.of_nat (List.length script)) by lia.
    apply IH; [apply tallied_iteration; [exact H | lia] | lia].
Qed.

Lemma tallied_initial q : tallied 0 (tx_initial q).
Proof. unfold tallied. simpl. lia. Qed.

(** One turn of the task keeps the bookkeeping of attempts exact while
    the queued messages carry a zero retry count. *)
Lemma accounted_iteration cfg cb e k s :
  tallied k s -> k < 2 ^ 32 - 1 -> fresh_queue s ->
  totalTransmissionAttempts s
  = num_samples (latencyMetrics s) + totalRetransmissions s ->
  let s' := CAN_ESP_TransmitTask_iteration cfg cb e s in
  fresh_queue s'
  /\ totalTransmissionAttempts s'
     = num_samples (latencyMetrics s') + totalRetransmissions s'.
Proof.
  intros H Hk Hf Ha. unfold CAN_ESP_TransmitTask_iteration.
  unfold fresh_queue in *.
  destruct (txQueue s) as [[|msg rest]|] eqn:Hq; cbn zeta;
    try (rewrite Hq; split; [exact Hf | exact Ha]).
  inversion Hf as [|? ? Hmsg Hrest]; subst.
  unfold tallied in H. destruct H as (H0 & Hcr & Hca & Hn & Hb & Hl).
  destruct (transmit_ok e); cbn [negb].
  - cbn [txQueue totalRetransmissions totalTransmissionAttempts
         latencyMetrics num_samples].
    rewrite !to_u32_small by (unfold is_u32; lia).
    split; [exact Hrest | lia].
  - rewrite Hmsg. cbn [Z.ltb Z.compare CAN_ESP_MAX_RETRANSMISSIONS].
    cbn [txQueue totalRetransmissions totalTransmissionAttempts
         latencyMetrics num_samples CAN_ESP_EnqueueMessage snd].
    rewrite !to_u32_small by (unfold is_u32; lia).
    split; [constructor; [reflexivity | exact Hrest] | lia].
Qed.

Lemma accounted_run cfg cb script : forall k s,
  tallied k s -> k + Z.of_nat (List.length script) < 2 ^ 32 ->
  fresh_queue s ->
  totalTransmissionAttempts s
  = num_samples (latencyMetrics s) + totalRetransmissions s ->
  let s' := CAN_ESP_TransmitTask cfg cb script s in
  totalTransmissionAttempts s'
  = num_samples (latencyMetrics s') + totalRetransmissions s'.
Proof.
  induction script as [|e script IH]; intros k s H Hk Hf Ha.
  - exact Ha.
  - cbn [CAN_ESP_TransmitTask fold_left]. cbn [List.length] in Hk.
    destruct (accounted_iteration cfg cb e k s H) as (Hf1 & Ha1);
      [lia | exact Hf | exact Ha |].
    apply (IH (k + 1)); [apply tallied_iteration; [exact H | lia] | lia
                         | exact Hf1 | exact Ha1].
Qed.

(** From the start of the task and for fewer than 2^32 turns, with the
    queue holding messages as [CAN_ESP_EnqueueMessage] stores them:
    every transmission attempt counted is either a latency sample (the
    driver accepted the frame) or a retransmission, the collision
    counter equals the retransmission counter, and the bus-load time is
    the sum of the measured latencies. *)
Theorem every_attempt_is_a_sample_or_a_retransmission :
  forall cfg cb script q,
    Forall (fun m => retry_count m = 0) q ->
    Z.of_nat (List.length script) < 2 ^ 32 ->
    let s := CAN_ESP_TransmitTask cfg cb script (tx_initial (Some q)) in
    totalTransmissionAttempts s
    = num_samples (latencyMetrics s) + totalRetransmissions s
    /\ totalCollisions s = totalRetransmissions s
    /\ busLoadTotalTime s = total_latency (latencyMetrics s)
    /\ totalTransmissionAttempts s <= Z.of_nat (List.length script).
Proof.
  intros cfg cb script q Hq Hn s.
  pose proof (tallied_run cfg cb script 0 (tx_initial (Some q))
                (tallied_initial _) Hn) as Ht.
  pose proof (accounted_run cfg cb script 0 (tx_initial (Some q))
                (tallied_initial _) Hn Hq eq_refl) as Ha.
  fold s in Ht, Ha. unfold tallied in Ht. cbn zeta in Ha.
  intuition lia.
Qed.

Lemma every_attempt_is_a_sample_or_a_retransmission_witness :
  let m := {| id := 0x100; length := 2; data := [1; 2; 0; 0; 0; 0; 0; 0];
              retry_count := 0 |} in
  let s := CAN_ESP_TransmitTask plain_cfg true
             [refusal; refusal; acceptance 120] (tx_initial (Some [m])) in
  totalTransmissionAttempts s
  = num_samples (latencyMetrics s) + totalRetransmissions s
  /\ totalCollisions s = totalRetransmissions s
  /\ busLoadTotalTime s = total_latency (latencyMetrics s)
  /\ totalTransmissionAttempts s <= 3.
Proof.
  intros m.
  apply (every_attempt_is_a_sample_or_a_retransmission plain_cfg true
           [refusal; refusal; acceptance 120] [m]);
    [repeat constructor | simpl; lia].
Defined.

(** From the start of the task and for fewer than 2^32 turns,
    [CAN_ESP_GetCollisionRate] is a percentage: it lies between 0 and
    100, whatever the driver answered and whatever was queued. *)
Theorem collision_rate_is_a_percentage :
  forall cfg cb script q,
    Z.of_nat (List.length script) < 2 ^ 32 ->
    0 <= CAN_ESP_GetCollisionRate
           (CAN_ESP_TransmitTask cfg cb script (tx_initial q)) <= 100.
Proof.
  intros cfg cb script q Hn.
  pose proof (tallied_run cfg cb script 0 (tx_initial q)
                (tallied_initial _) Hn) as Ht.
  unfold tallied in Ht. destruct Ht as (H0 & _ & Hca & _).
  unfold CAN_ESP_GetCollisionRate.
  set (s := CAN_ESP_TransmitTask cfg cb script (tx_initial q)) in *.
  destruct (Z.eqb_spec (totalTransmissionAttempts s) 0) as [_ | Hne]; [lia|].
  assert (Hq : 0 <= totalCollisions s * 100 / totalTransmissionAttempts s <= 100).
  { split.
    - apply Z.div_pos; lia.
    - apply Z.div_le_upper_bound; lia. }
  rewrite to_u32_small by (unfold is_u32; lia). exact Hq.
Qed.

Lemma collision_rate_is_a_percentage_witness :
  0 <= CAN_ESP_GetCollisionRate
         (CAN_ESP_TransmitTask plain_cfg true [refusal; refusal; acceptance 120]
            (tx_initial (Some [ {| id := 0x100; length := 2;
                                   data := [1; 2; 0; 0; 0; 0; 0; 0];
                                   retry_count := 0 |} ]))) <= 100.
Proof.
  apply (collision_rate_is_a_percentage plain_cfg true
           [refusal; refusal; acceptance 120]). simpl; lia.
Defined.

(** From the start of the task and for fewer than 2^32 turns, the
    latency metrics are consistent: the accumulated latency lies between
    the sample count times the recorded minimum and the sample count
    times the recorded maximum, so the mean a reader derives from the
    metrics is within the recorded extremes. *)
Theorem mean_latency_within_extremes :
  forall cfg cb script q,
    Z.of_nat (List.length script) < 2 ^ 32 ->
    let lm := latencyMetrics
                (CAN_ESP_TransmitTask cfg cb script (tx_initial q)) in
    0 <= num_samples lm <= Z.of_nat (List.length script)
    /\ num_samples lm * min_latency lm <= total_latency lm
       <= num_samples lm * max_latency lm.
Proof.
  intros cfg cb script q Hn lm.
  pose proof (tallied_run cfg cb script 0 (tx_initial q)
                (tallied_initial _) Hn) as Ht.
  unfold tallied in Ht. cbn zeta in Ht. fold lm in Ht.
  intuition lia.
Qed.

Lemma mean_latency_within_extremes_witness :
  let lm := latencyMetrics
              (CAN_ESP_TransmitTask plain_cfg true
                 [acceptance 120; acceptance 80]
                 (tx_initial (Some [ {| id := 0x100; length := 0;
                                        data := repeat 0 8; retry_count := 0 |};
                                     {| id := 0x101; length := 0;
                                        data := repeat 0 8; retry_count := 0 |} ])))
  in
  0 <= num_samples lm <= 2
  /\ num_samples lm * min_latency lm <= total_latency lm
     <= num_samples lm * max_latency lm.
Proof.
  apply (mean_latency_within_extremes plain_cfg true
           [acceptance 120; acceptance 80]). simpl; lia.
Defined.

(** [CAN_ESP_GetBusLoad] answers 0 while the clock has not moved past
    the start of the measurement, and otherwise a percentage between 0
    and 100 as long as the accumulated transmission time is non-negative
    and no longer than the time elapsed. *)
Theorem bus_load_is_a_percentage :
  forall start now s,
    0 <= busLoadTotalTime s <= now - start ->
    0 <= CAN_ESP_GetBusLoad start now s <= 100
    /\ (now <= start -> CAN_ESP_GetBusLoad start now s = 0).
Proof.
  intros start now s Hb. unfold CAN_ESP_GetBusLoad.
  destruct (Z.leb_spec (now - start) 0) as [Hle | Hgt].
  - split; [lia | reflexivity].
  - rewrite Z.quot_div_nonneg by lia.
    assert (Hq : 0 <= busLoadTotalTime s * 100 / (now - start) <= 100).
    { split.
      - apply Z.div_pos; lia.
      - apply Z.div_le_upper_bound; lia. }
    rewrite to_u32_small by (unfold is_u32; lia).
    split; [exact Hq | lia].
Qed.

Lemma bus_load_is_a_percentage_witness :
  let s := CAN_ESP_TransmitTask plain_cfg true [acceptance 120]
             (tx_initial (Some [ {| id := 0x100; length := 0;
                                    data := repeat 0 8; retry_count := 0 |} ])) in
  0 <= CAN_ESP_GetBusLoad 0 1000 s <= 100
  /\ (1000 <= 0 -> CAN_ESP_GetBusLoad 0 1000 s = 0).
Proof.
  intros s. apply (bus_load_is_a_percentage 0 1000 s). simpl; lia.
Defined.

(** The transmit task runs at the raised priority only while the queue
    holds at least 25 messages (80 % of its 32 slots): after any number
    of turns from its start the priority is the baseline 10, or it is 15
    and the queue is that full. *)
Theorem raised_priority_means_a_crowded_queue :
  forall cfg cb script q,
    let s := CAN_ESP_TransmitTask cfg cb script (tx_initial q) in
    task_priority s = 10
    \/ (task_priority s = 15 /\ 25 <= queue_length (txQueue s)).
Proof.
  intros cfg cb script q.
  assert (Hrun : forall script s,
             (task_priority s = 10
              \/ (task_priority s = 15 /\ 25 <= queue_length (txQueue s))) ->
             let s' := CAN_ESP_TransmitTask cfg cb script s in
             task_priority s' = 10
             \/ (task_priority s' = 15 /\ 25 <= queue_length (txQueue s'))).
  { clear script. induction script as [|e script IH]; intros s H; [exact H|].
    cbn [CAN_ESP_TransmitTask fold_left]. apply IH.
    unfold CAN_ESP_TransmitTask_iteration.
    destruct (txQueue s) as [[|msg rest]|] eqn:Hq; try (rewrite Hq; exact H).
    cbn [task_priority txQueue].
    match goal with
    | |- context [CAN_ESP_AdjustTransmitTaskPriority ?c ?p] =>
      assert (Hp : p = task_priority s)
        by (destruct (transmit_ok e); cbn [negb];
            [|destruct (retry_count msg <? CAN_ESP_MAX_RETRANSMISSIONS)];
            reflexivity);
      rewrite Hp; generalize c; intros c'
    end.
    unfold CAN_ESP_AdjustTransmitTaskPriority, TX_QUEUE_LENGTH.
    change (32 * 80 / 100) with 25.
    destruct (Z.leb_spec 25 c'), (Z.ltb_spec (task_priority s) 15),
             (Z.ltb_spec c' 25), (Z.ltb_spec 10 (task_priority s));
      cbn [andb]; lia. }
  apply Hrun. left. reflexivity.
Qed.

Lemma receive_fills_the_struct cfg m0 rx :
  exists m, snd (CAN_ESP_ReceiveMessage cfg (Some m0) rx) = Some m.
Proof.
  unfold CAN_ESP_ReceiveMessage.
  destruct rx as [f|]; [|eexists; reflexivity].
  destruct (use_checksum cfg); [|eexists; reflexivity].
  cbn [length data].
  destruct (data_length_code f <? 1); [eexists; reflexivity|].
  match goal with |- context [negb ?b] => destruct b end;
    eexists; reflexivity.
Qed.

(** [CAN_ESP_MeasureRoundTripTime] leaves the configuration as it found
    it on every path, the temporary [self_rx] included; the frame it
    gives the driver, if any, is a self-reception request with the
    self-test identifier; and a value is stored through
    [round_trip_time] exactly when the status is [CAN_ESP_OK]. *)
Theorem self_test_restores_the_configuration :
  forall cfg cb e p,
    let out := CAN_ESP_MeasureRoundTripTime cfg cb e p in
    rtt_config out = cfg
    /\ (forall f, rtt_handed out = Some f ->
                  self f = true /\ identifier f = CAN_ESP_SELF_TEST_ID)
    /\ (rtt_status out = CAN_ESP_OK <-> rtt_stored out <> None).
Proof.
  intros cfg cb e p out. subst out. unfold CAN_ESP_MeasureRoundTripTime.
  assert (Hrestore : set_self_rx (self_rx cfg) (set_self_rx true cfg) = cfg)
    by (destruct cfg; reflexivity).
  destruct p; cbn [negb].
  2: { cbn. repeat split; try discriminate. intros H; now elim H. }
  rewrite Hrestore.
  set (sent := CAN_ESP_SendMessage (set_self_rx true cfg) cb (rtt_junk e)
                 (rtt_transmit_ok e) CAN_ESP_SELF_TEST_ID
                 (Some (int64_bytes (send_timestamp e))) 8).
  assert (Hframe : forall f, handed_to_driver sent = Some f ->
                     self f = true /\ identifier f = CAN_ESP_SELF_TEST_ID).
  { intros f. unfold sent, CAN_ESP_SendMessage.
    change (CAN_MAX_DATA_LENGTH <? 8) with false.
    change (8 <? CAN_MAX_DATA_LENGTH) with false.
    cbn [use_checksum set_self_rx self_rx].
    destruct (use_checksum cfg); cbn [handed_to_driver]; [discriminate|].
    destruct (rtt_transmit_ok e); cbn [handed_to_driver];
      intros [= <-]; split; reflexivity. }
  destruct (send_status sent) eqn:Hs; cbn [rtt_config rtt_handed rtt_status rtt_stored];
    try (split; [reflexivity | split; [exact Hframe |
           split; [discriminate | intros H; now elim H]]]).
  destruct (receive_fills_the_struct (set_self_rx true cfg) (rtt_rx_msg e)
              (rtt_rx e)) as (rx_msg & Hrx).
  destruct (CAN_ESP_ReceiveMessage (set_self_rx true cfg) (Some (rtt_rx_msg e))
              (rtt_rx e)) as [st r].
  cbn [snd] in Hrx. subst r.
  destruct st; try destruct (length rx_msg <? 8);
    cbn [rtt_config rtt_handed rtt_status rtt_stored];
    (split; [reflexivity | split; [exact Hframe |
       split; [try discriminate; intros _; discriminate
              | try (intros H; now elim H); reflexivity]]]).
Qed.

(** In checksum mode the self-test cannot run: its 8-byte payload leaves
    no room for the checksum byte, so [CAN_ESP_MeasureRoundTripTime]
    fails with the invalid-length error before any frame reaches the
    driver, stores no round-trip time, and calls no callback. *)
Theorem self_test_fails_in_checksum_mode :
  forall cfg cb e,
    use_checksum cfg = true ->
    let out := CAN_ESP_MeasureRoundTripTime cfg cb e true in
    rtt_status out = CAN_ESP_ERR_INVALID_LENGTH
    /\ rtt_handed out = None
    /\ rtt_stored out = None
    /\ rtt_callbacks out = []
    /\ rtt_config out = cfg.
Proof.
  intros cfg cb e Hcs out. subst out.
  unfold CAN_ESP_MeasureRoundTripTime, CAN_ESP_SendMessage. cbn [negb].
  cbn [use_checksum set_self_rx]. rewrite Hcs.
  cbn. destruct cfg; repeat split; reflexivity.
Qed.

Lemma self_test_fails_in_checksum_mode_witness :
  let out := CAN_ESP_MeasureRoundTripTime checksum_cfg true
               {| send_timestamp := 5000; rtt_junk := repeat 0 8;
                  rtt_transmit_ok := true; rtt_rx_msg := empty_message;
                  rtt_rx := None; finish_timestamp := 5200 |} true in
  rtt_status out = CAN_ESP_ERR_INVALID_LENGTH
  /\ rtt_handed out = None
  /\ rtt_stored out = None
  /\ rtt_callbacks out = []
  /\ rtt_config out = checksum_cfg.
Proof.
  apply (self_test_fails_in_checksum_mode checksum_cfg true). reflexivity.
Defined.

(** With checksum mode off and the driver accepting the frame, the
    self-test judges the frame received next, of 0 to 8 bytes, by its
    length alone.  With 8 bytes it succeeds and stores the difference of
    the two clock readings; with fewer it fails with the receive error
    and stores nothing.  Neither the identifier nor the bytes of the
    received frame are compared with what was sent. *)
Theorem self_test_looks_at_the_length_only :
  forall cfg cb e f,
    use_checksum cfg = false ->
    rtt_transmit_ok e = true ->
    rtt_rx e = Some f ->
    0 <= data_length_code f <= 8 ->
    let out := CAN_ESP_MeasureRoundTripTime cfg cb e true in
    rtt_status out
    = (if data_length_code f <? 8 then CAN_ESP_ERR_RECEIVE else CAN_ESP_OK)
    /\ rtt_stored out
       = (if data_length_code f <? 8 then None
          else Some (finish_timestamp e - send_timestamp e)).
Proof.
  intros cfg cb e f Hcs Hok Hrx Hlen out. subst out.
  unfold CAN_ESP_MeasureRoundTripTime, CAN_ESP_SendMessage, CAN_ESP_ReceiveMessage.
  cbn [negb use_checksum set_self_rx]. rewrite Hcs, Hok, Hrx.
  cbn [CAN_MAX_DATA_LENGTH Z.ltb Z.compare send_status length].
  destruct (data_length_code f <? 8); split; reflexivity.
Qed.

Lemma self_test_looks_at_the_length_only_witness :
  let e := {| send_timestamp := 5000; rtt_junk := repeat 0 8;
              rtt_transmit_ok := true; rtt_rx_msg := empty_message;
              rtt_rx := Some {| identifier := 0x123; data_length_code := 8;
                                tw_data := repeat 9 8; extd := true;
                                rtr := false; ss := false; self := false |};
              finish_timestamp := 5200 |} in
  let out := CAN_ESP_MeasureRoundTripTime plain_cfg false e true in
  rtt_status out = CAN_ESP_OK
  /\ rtt_stored out = Some 200.
Proof.
  intros e.
  apply (self_test_looks_at_the_length_only plain_cfg false e
           {| identifier := 0x123; data_length_code := 8;
              tw_data := repeat 9 8; extd := true;
              rtr := false; ss := false; self := false |});
    [reflexivity | reflexivity | reflexivity | simpl; lia].
Defined.

End CanMetricsFacts.

(* ------------------------------------------------------------------ *)
(** ** routing_module.c: routes in use, fallback, subscribers *)

Module RoutingMoreFacts.
Import CInt CStr Routing RoutingRegistry RoutingTableFacts.

Lemma drop_first_appended key e t :
  existsb (same_dest key) t = false ->
  same_dest key e = true ->
  drop_first key (t ++ [e]) = Some t.
Proof.
  induction t as [|x t IH]; simpl; intros Hno Hyes.
  - now rewrite Hyes.
  - apply orb_false_iff in Hno. destruct Hno as [Hx Ht].
    rewrite Hx, IH by assumption. reflexivity.
Qed.


Lemma same_dest_own_key e : same_dest (dest_id e) e = true.
Proof. unfold same_dest. apply strncmp_eq_refl. Qed.

(** Inserting a route and then removing its destination restores the
    routing table: when [routing_module_insert_route] accepts an entry,
    [routing_module_remove_route] of the entry's [dest_id] succeeds and
    leaves the table exactly as it was before the insertion; the only
    trace is one table-updated notice per subscriber for each call. *)
Theorem insert_then_remove_restores_table :
  forall e s,
    fst (routing_module_insert_route (Some e) s) = true ->
    let s1 := snd (routing_module_insert_route (Some e) s) in
    let r := routing_module_remove_route (Some (dest_id e)) s1 in
    fst r = true
    /\ routing_table (snd r) = routing_table s
    /\ neighbor_table (snd r) = neighbor_table s
    /\ route_failures (notices (snd r)) = route_failures (notices s).
Proof.
  intros e s Hins s1 r. subst r s1.
  unfold routing_module_insert_route in *.
  destruct (existsb (same_dest (dest_id e)) (routing_table s)) eqn:Hdup;
    [discriminate|].
  destruct (MAX_ROUTING_TABLE_ENTRIES <=? Z.of_nat (List.length (routing_table s)));
    [discriminate|].
  cbn [snd]. unfold routing_module_remove_route.
  cbn [routing_table routing_module_notify set_table].
  rewrite (drop_first_appended _ _ _ Hdup (same_dest_own_key e)).
  cbn [fst snd routing_table neighbor_table notices routing_module_notify
       set_table routing_callbacks].
  repeat split.
  unfold route_failures. rewrite !filter_app.
  assert (Hnone : forall l : list Z,
             filter (fun n => match event n with
                              | ROUTING_EVENT_ROUTE_FAILURE => true
                              | _ => false end)
                    (map (fun cb => {| to_callback := cb;
                                       event := ROUTING_EVENT_TABLE_UPDATED;
                                       about := None |}) l) = []).
  { induction l; simpl; auto. }
  rewrite !Hnone, !app_nil_r. reflexivity.
Qed.

Lemma insert_then_remove_restores_table_witness :
  let e := route "ECU_A" "ECU_B" 1 in
  let s1 := snd (routing_module_insert_route (Some e) alone) in
  let r := routing_module_remove_route (Some (dest_id e)) s1 in
  fst r = true
  /\ routing_table (snd r) = routing_table alone
  /\ neighbor_table (snd r) = neighbor_table alone
  /\ route_failures (notices (snd r)) = route_failures (notices alone).
Proof.
  apply (insert_then_remove_restores_table (route "ECU_A" "ECU_B" 1) alone).
  reflexivity.
Defined.







Lemma overwrite_first_length e t t' :
  overwrite_first e t = Some t' -> List.length t' = List.length t.
Proof.
  revert t'. induction t as [|x t IH]; simpl; intros t' H; [discriminate|].
  destruct (same_dest (dest_id e) x).
  - injection H as <-. reflexivity.
  - destruct (overwrite_first e t) as [r|]; [|discriminate].
    injection H as <-. simpl. f_equal. now apply IH.
Qed.

Lemma drop_first_length key t t' :
  drop_first key t = Some t' -> S (List.length t') = List.length t.
Proof.
  revert t'. induction t as [|x t IH]; simpl; intros t' H; [discriminate|].
  destruct (same_dest key x).
  - injection H as <-. reflexivity.
  - destruct (drop_first key t) as [r|]; [|discriminate].
    injection H as <-. simpl. f_equal. now apply IH.
Qed.

Lemma table_step_capacity s c :
  Z.of_nat (List.length (routing_table s)) <= MAX_ROUTING_TABLE_ENTRIES ->
  Z.of_nat (List.length (routing_table (table_step s c)))
  <= MAX_ROUTING_TABLE_ENTRIES.
Proof.
  intros H. destruct c as [[e|] | [e|] | [key|]]; simpl; try exact H.
  - unfold routing_module_insert_route.
    destruct (existsb (same_dest (dest_id e)) (routing_table s)); [exact H|].
    destruct (Z.leb_spec MAX_ROUTING_TABLE_ENTRIES
                (Z.of_nat (List.length (routing_table s)))); [exact H|].
    cbn [snd routing_table routing_module_notify set_table].
    rewrite length_app. simpl. lia.
  - destruct (overwrite_first e (routing_table s)) as [t'|] eqn:Ho; [|exact H].
    cbn [snd routing_table routing_module_notify set_table].
    now rewrite (overwrite_first_length _ _ _ Ho).
  - destruct (drop_first key (routing_table s)) as [t'|] eqn:Hd.
    + cbn [snd routing_table routing_module_notify set_table].
      pose proof (drop_first_length _ _ _ Hd). lia.
    + exact H.
Qed.

(** The routing table never holds more than its 16 entries: any
    sequence of insertions, updates and removals on a table within
    capacity leaves it within capacity, an insertion into a full table
    is refused without touching it, and a recalculation from the
    neighbour table produces at most 16 routes. *)
Theorem routing_table_stays_within_capacity :
  forall calls s,
    Z.of_nat (List.length (routing_table s)) <= MAX_ROUTING_TABLE_ENTRIES ->
    Z.of_nat (List.length (routing_table (table_run calls s)))
    <= MAX_ROUTING_TABLE_ENTRIES
    /\ (forall e,
          Z.of_nat (List.length (routing_table s)) = MAX_ROUTING_TABLE_ENTRIES ->
          routing_module_insert_route (Some e) s = (false, s))
    /\ (forall tick,
          Z.of_nat (List.length
                      (routing_table (snd (routing_module_recalculate_routes tick s))))
          <= MAX_ROUTING_TABLE_ENTRIES).
Proof.
  intros calls s H. repeat split.
  - revert s H. induction calls as [|c calls IH]; intros s H; [exact H|].
    simpl. apply IH. now apply table_step_capacity.
  - intros e Hfull. unfold routing_module_insert_route.
    destruct (existsb (same_dest (dest_id e)) (routing_table s)); [reflexivity|].
    destruct (Z.leb_spec MAX_ROUTING_TABLE_ENTRIES
                (Z.of_nat (List.length (routing_table s)))); [reflexivity | lia].
  - intros tick. unfold routing_module_recalculate_routes.
    cbn [snd routing_table routing_module_notify set_table].
    rewrite length_map, length_firstn. unfold MAX_ROUTING_TABLE_ENTRIES. lia.
Qed.

Lemma routing_table_stays_within_capacity_witness :
  let calls := [Insert (Some (route "ECU_A" "ECU_B" 1));
                Insert (Some (route "ECU_C" "ECU_B" 2));
                Remove (Some "ECU_A"%string)] in
  Z.of_nat (List.length (routing_table (table_run calls alone)))
  <= MAX_ROUTING_TABLE_ENTRIES
  /\ (forall e,
        Z.of_nat (List.length (routing_table alone)) = MAX_ROUTING_TABLE_ENTRIES ->
        routing_module_insert_route (Some e) alone = (false, alone))
  /\ (forall tick,
        Z.of_nat (List.length
                    (routing_table (snd (routing_module_recalculate_routes tick alone))))
        <= MAX_ROUTING_TABLE_ENTRIES).
Proof.
  intros calls. apply (routing_table_stays_within_capacity calls alone).
  simpl. unfold MAX_ROUTING_TABLE_ENTRIES. lia.
Defined.

(** Once the send task waits for the mutex, further turns change
    nothing. *)
Lemma blocked_task_stays turns tick s :
  send_task_blocked s = true -> routing_module_send_task turns tick s = s.
Proof. intros H. destruct turns; simpl; [|rewrite H]; reflexivity. Qed.

(** A unicast whose destination is not in the routing table, with the
    fallback enabled ([retry_count] above 0, as in the default
    configuration), stops the send task for good: the task takes the
    item, sleeps [retry_delay_ms] once and then waits for
    [routing_table_mutex], which it holds itself.  However many turns
    follow, nothing is dispatched, no subscriber is called (there is no
    ROUTE_FAILURE and no recalculation), the table is what it was and
    the items queued behind stay in the queue. *)
Theorem unreachable_unicast_blocks_the_send_task :
  forall turns tick s item rest,
    send_task_blocked s = false ->
    routing_send_queue s = item :: rest ->
    item_mode item = ROUTING_MODE_UNICAST ->
    find_next_hop (item_dest_id item) (routing_table s) = None ->
    0 < retry_count (routing_config s) ->
    let s' := routing_module_send_task (S turns) tick s in
    send_task_blocked s' = true
    /\ routing_send_queue s' = rest
    /\ dispatched s' = dispatched s
    /\ notices s' = notices s
    /\ slept_ms s' = slept_ms s + retry_delay_ms (routing_config s)
    /\ routing_table s' = routing_table s
    /\ neighbor_table s' = neighbor_table s.
Proof.
  intros turns tick s item rest Hrun Hq Hmode Hmiss Hretry s'. subst s'.
  cbn [routing_module_send_task]. rewrite Hrun.
  assert (Hturn : routing_module_send_task_iteration tick s
                  = first_retry
                      {| routing_table := routing_table s;
                         neighbor_table := neighbor_table s;
                         routing_callbacks := routing_callbacks s;
                         routing_config := routing_config s;
                         routing_send_queue := rest;
                         config_ini := config_ini s;
                         slept_ms := slept_ms s;
                         notices := notices s;
                         dispatched := dispatched s;
                         send_task_blocked := send_task_blocked s |}).
  { unfold routing_module_send_task_iteration. rewrite Hq, Hmode.
    change (ROUTING_MODE_UNICAST =? ROUTING_MODE_UNICAST) with true. cbn iota.
    cbn [routing_table routing_config]. rewrite Hmiss.
    destruct (Z.ltb_spec 0 (retry_count (routing_config s))) as [_ | ?];
      [reflexivity | lia]. }
  rewrite Hturn, blocked_task_stays by reflexivity.
  repeat split; reflexivity.
Qed.

Lemma unreachable_unicast_blocks_the_send_task_witness :
  let item := {| item_dest_id := "ECU_X"; item_data := [1; 2; 3; 4; 5; 6; 7; 8];
                 item_length := 8; item_mode := ROUTING_MODE_UNICAST |} in
  let later := {| item_dest_id := EmptyString; item_data := [9];
                  item_length := 1; item_mode := ROUTING_MODE_BROADCAST |} in
  let s := snd (routing_module_send_message None (Some [9]) 1
                  ROUTING_MODE_BROADCAST true
                  (snd (routing_module_send_message (Some "ECU_X"%string)
                          (Some [1; 2; 3; 4; 5; 6; 7; 8]) 8
                          ROUTING_MODE_UNICAST true alone))) in
  let s' := routing_module_send_task 3 (fun _ => 0) s in
  send_task_blocked s' = true
  /\ routing_send_queue s' = [later]
  /\ dispatched s' = dispatched s
  /\ notices s' = notices s
  /\ slept_ms s' = slept_ms s + retry_delay_ms (routing_config s)
  /\ routing_table s' = routing_table s
  /\ neighbor_table s' = neighbor_table s.
Proof.
  intros item later s.
  apply (unreachable_unicast_blocks_the_send_task 2 (fun _ => 0) s item [later]);
    [reflexivity | reflexivity | reflexivity | reflexivity | simpl; lia].
Defined.

Lemma take_out_members cb l l' x :
  take_out cb l = Some l' -> In x l' -> In x l.
Proof.
  revert l'. induction l as [|y l IH]; simpl; intros l' H Hin; [discriminate|].
  destruct (y =? cb).
  - injection H as <-. now right.
  - destruct (take_out cb l) as [r|]; [|discriminate].
    injection H as <-. destruct Hin as [-> | Hin]; [now left | right; eauto].
Qed.

Lemma take_out_keeps_distinct cb l l' :
  take_out cb l = Some l' -> NoDup l ->
  NoDup l' /\ ~ In cb l' /\ S (List.length l') = List.length l.
Proof.
  revert l'. induction l as [|y l IH]; simpl; intros l' H Hnd; [discriminate|].
  inversion Hnd as [|? ? Hy Hl]; subst.
  destruct (Z.eqb_spec y cb) as [-> | Hne].
  - injection H as <-. repeat split; assumption.
  - destruct (take_out cb l) as [r|] eqn:Hr; [|discriminate].
    injection H as <-.
    destruct (IH r eq_refl Hl) as (Hnd' & Hnot & Hlen).
    repeat split.
    + constructor; [|exact Hnd'].
      intros Hin. apply Hy. eapply take_out_members; eauto.
    + intros [Heq | Hin]; [congruence | contradiction].
    + simpl. now rewrite Hlen.
Qed.

Lemma existsb_eqb_false cb l :
  existsb (Z.eqb cb) l = false -> ~ In cb l.
Proof.
  induction l as [|x l IH]; simpl; [tauto|].
  intros H. apply orb_false_iff in H. destruct H as [Hx Hl].
  apply Z.eqb_neq in Hx. intros [Heq | Hin]; [congruence | now apply IH].
Qed.

Lemma registry_step_sound s c :
  NoDup (routing_callbacks s) ->
  Z.of_nat (List.length (routing_callbacks s)) <= MAX_ROUTING_CALLBACKS ->
  NoDup (routing_callbacks (registry_step s c))
  /\ Z.of_nat (List.length (routing_callbacks (registry_step s c)))
     <= MAX_ROUTING_CALLBACKS
  /\ notices (registry_step s c) = notices s.
Proof.
  intros Hnd Hlen. destruct c as [[cb|] | [cb|]]; simpl; try (now repeat split).
  - unfold routing_module_register_callback.
    destruct (Z.leb_spec MAX_ROUTING_CALLBACKS
                (Z.of_nat (List.length (routing_callbacks s))));
      [now repeat split|].
    destruct (existsb (Z.eqb cb) (routing_callbacks s)) eqn:Hex;
      [now repeat split|].
    cbn [snd routing_callbacks set_callbacks notices]. repeat split.
    + apply NoDup_app; [exact Hnd | repeat constructor; simpl; tauto |].
      intros x Hx [<- | []]. now apply existsb_eqb_false in Hex.
    + rewrite length_app. simpl. lia.
  - unfold routing_module_unregister_callback.
    destruct (take_out cb (routing_callbacks s)) as [l|] eqn:Ht;
      [|now repeat split].
    destruct (take_out_keeps_distinct _ _ _ Ht Hnd) as (Hnd' & _ & Hl).
    cbn [snd routing_callbacks set_callbacks notices]. repeat split.
    + exact Hnd'.
    + lia.
Qed.

(** The subscriber list holds each callback at most once and never more
    than 10 of them, whatever the sequence of registrations and
    removals; so an event is delivered to a subscriber once, and after a
    successful [routing_module_unregister_callback] the callback is no
    longer in the list and receives no later notice. *)
Theorem subscribers_are_listed_once :
  forall calls s,
    NoDup (routing_callbacks s) ->
    Z.of_nat (List.length (routing_callbacks s)) <= MAX_ROUTING_CALLBACKS ->
    let s' := registry_run calls s in
    NoDup (routing_callbacks s')
    /\ Z.of_nat (List.length (routing_callbacks s')) <= MAX_ROUTING_CALLBACKS
    /\ forall cb ev data n,
         fst (routing_module_unregister_callback (Some cb) s') = true ->
         In n (notices (routing_module_notify ev data
                          (snd (routing_module_unregister_callback (Some cb) s')))) ->
         In n (notices s') \/ to_callback n <> cb.
Proof.
  intros calls s Hnd Hlen s'.
  assert (Hinv : NoDup (routing_callbacks s')
                 /\ Z.of_nat (List.length (routing_callbacks s'))
                    <= MAX_ROUTING_CALLBACKS).
  { subst s'. revert s Hnd Hlen.
    induction calls as [|c calls IH]; intros s Hnd Hlen; [now split|].
    simpl. destruct (registry_step_sound s c Hnd Hlen) as (H1 & H2 & _).
    now apply IH. }
  destruct Hinv as (Hnd' & Hlen'). split; [exact Hnd' | split; [exact Hlen'|]].
  intros cb ev data n Hok Hin.
  unfold routing_module_unregister_callback in *.
  destruct (take_out cb (routing_callbacks s')) as [l|] eqn:Ht; [|discriminate].
  destruct (take_out_keeps_distinct _ _ _ Ht Hnd') as (_ & Hnot & _).
  cbn [snd routing_module_notify notices set_callbacks routing_callbacks] in Hin.
  apply in_app_or in Hin. destruct Hin as [Hin | Hin]; [now left | right].
  apply in_map_iff in Hin. destruct Hin as (x & <- & Hx).
  cbn [to_callback]. intros ->. contradiction.
Qed.

Lemma subscribers_are_listed_once_witness :
  let calls := [Register (Some 7); Register (Some 9); Register (Some 7);
                Unregister (Some 9)] in
  let s' := registry_run calls routing_initial in
  NoDup (routing_callbacks s')
  /\ Z.of_nat (List.length (routing_callbacks s')) <= MAX_ROUTING_CALLBACKS
  /\ forall cb ev data n,
       fst (routing_module_unregister_callback (Some cb) s') = true ->
       In n (notices (routing_module_notify ev data
                        (snd (routing_module_unregister_callback (Some cb) s')))) ->
       In n (notices s') \/ to_callback n <> cb.
Proof.
  intros calls.
  apply (subscribers_are_listed_once calls routing_initial);
    [constructor | unfold MAX_ROUTING_CALLBACKS; simpl; lia].
Defined.

End RoutingMoreFacts.

(* ------------------------------------------------------------------ *)
(** ** routing_module.c: the configuration written is the one read back *)

Module ConfigFileFacts.
Import CInt CIntFacts CStr Routing ConfigFile.

Ltac evaluate_digit :=
  match goal with
  | |- context [digit_of ?c] =>
    let v := eval vm_compute in (digit_of c) in
    change (digit_of c) with v; cbv iota
  end.

Lemma digits_from_positive d : forall p,
  digits_value (NilEmpty.string_of_uint d) (Z.pos p)
  = Z.pos (Pos.of_uint_acc d p).
Proof.
  induction d as [|d IH|d IH|d IH|d IH|d IH|d IH|d IH|d IH|d IH|d IH];
    intros p; cbn [NilEmpty.string_of_uint digits_value Pos.of_uint_acc];
    try reflexivity;
    evaluate_digit;
    rewrite <- IH; f_equal; lia.
Qed.

Lemma digits_from_zero d :
  digits_value (NilEmpty.string_of_uint d) 0 = Z.of_N (Pos.of_uint d).
Proof.
  induction d as [|d IH|d IH|d IH|d IH|d IH|d IH|d IH|d IH|d IH|d IH];
    cbn [NilEmpty.string_of_uint digits_value Pos.of_uint];
    try reflexivity; evaluate_digit; try exact IH;
    cbn [Z.mul Z.add Z.of_N]; apply digits_from_positive.
Qed.

(** [atoi] reads back what [%u] printed. *)
Lemma atoi_dec z : 0 <= z -> atoi (dec z) = z.
Proof.
  intros Hz. unfold dec.
  assert (H : forall d, atoi (NilZero.string_of_uint d) = Z.of_N (N.of_uint d)).
  { intros d. destruct d; try reflexivity;
      match goal with
      | |- _ = Z.of_N (N.of_uint ?x) => exact (digits_from_zero x)
      end. }
  rewrite H, DecimalN.Unsigned.of_to. lia.
Qed.

Lemma nzhead_not_D0 u : forall v, Decimal.nzhead u <> Decimal.D0 v.
Proof.
  induction u; intros v; cbn [Decimal.nzhead]; try discriminate. apply IHu.
Qed.

(** The numeral of a positive number starts with a digit other than 0. *)
Lemma to_uint_leading p :
  match Pos.to_uint p with
  | Decimal.Nil | Decimal.D0 _ => False
  | _ => True
  end.
Proof.
  pose proof (DecimalPos.Unsigned.to_of (Pos.to_uint p)) as Hn.
  rewrite DecimalPos.Unsigned.of_to in Hn. cbn [N.to_uint] in Hn.
  pose proof (DecimalPos.Unsigned.to_uint_nonnil p) as Hnil.
  pose proof (DecimalPos.Unsigned.to_uint_nonzero p) as Hzero.
  destruct (Pos.to_uint p) as [|u|u|u|u|u|u|u|u|u|u]; try exact I.
  - now apply Hnil.
  - unfold Decimal.unorm in Hn. cbn [Decimal.nzhead] in Hn.
    pose proof (nzhead_not_D0 u) as Hh.
    destruct (Decimal.nzhead u) eqn:Hu; try discriminate.
    + injection Hn as Hnil'. subst u. now apply Hzero.
    + now apply (Hh u0).
Qed.

Lemma acc_lower_bound l : forall p,
  Z.pos p * 10 ^ Z.of_nat (Decimal.nb_digits l) <= Z.pos (Pos.of_uint_acc l p).
Proof.
  induction l as [|l IH|l IH|l IH|l IH|l IH|l IH|l IH|l IH|l IH|l IH];
    intros p; cbn [Decimal.nb_digits Pos.of_uint_acc];
    [simpl; lia | ..];
    rewrite Nat2Z.inj_succ, Z.pow_succ_r by lia;
    (eapply Z.le_trans; [|apply IH]);
    assert (0 < 10 ^ Z.of_nat (Decimal.nb_digits l)) by (apply Z.pow_pos_nonneg; lia);
    nia.
Qed.

Lemma length_string_of_uint d :
  String.length (NilEmpty.string_of_uint d) = Decimal.nb_digits d.
Proof. induction d; simpl; congruence. Qed.

(** A number below 10^10 prints in at most ten characters. *)
Lemma dec_short z : 0 <= z < 10 ^ 10 -> (String.length (dec z) <= 10)%nat.
Proof.
  intros Hz. unfold dec.
  destruct (Z.to_N z) as [|p] eqn:Hp; [simpl; lia|].
  assert (Hzp : z = Z.pos p) by lia.
  cbn [N.to_uint].
  pose proof (to_uint_leading p) as Hlead.
  pose proof (DecimalPos.Unsigned.of_to p) as Hval.
  destruct (Pos.to_uint p) as [|u|u|u|u|u|u|u|u|u|u]; try contradiction;
    cbn [NilZero.string_of_uint NilEmpty.string_of_uint String.length];
    rewrite length_string_of_uint;
    cbn [Pos.of_uint] in Hval; injection Hval as Hval;
    match type of Hval with
    | Pos.of_uint_acc _ ?k = _ => pose proof (acc_lower_bound u k) as Hb
    end;
    rewrite Hval in Hb;
    (destruct (Nat.le_gt_cases (Decimal.nb_digits u) 9) as [Hle | Hgt]; [lia|]);
    assert (10 ^ 10 <= 10 ^ Z.of_nat (Decimal.nb_digits u))
      by (apply Z.pow_le_mono_r; lia);
    lia.
Qed.

Lemma length_of_append (a b : string) :
  String.length (a ++ b) = (String.length a + String.length b)%nat.
Proof. induction a as [|c a IH]; simpl; [reflexivity | now rewrite IH]. Qed.

Lemma until_newline_digits d rest :
  until_newline (NilEmpty.string_of_uint d ++ rest)
  = (NilEmpty.string_of_uint d ++ until_newline rest)%string.
Proof. induction d; simpl; congruence. Qed.

Lemma until_newline_dec z :
  until_newline (dec z ++ String newline EmptyString) = dec z.
Proof.
  unfold dec.
  assert (H : forall d,
             until_newline (NilZero.string_of_uint d ++ String newline EmptyString)
             = NilZero.string_of_uint d).
  { intros d.
    assert (Hd : until_newline (NilEmpty.string_of_uint d
                                ++ String newline EmptyString)
                 = NilEmpty.string_of_uint d).
    { rewrite until_newline_digits. simpl.
      clear. induction (NilEmpty.string_of_uint d); simpl; congruence. }
    destruct d; try exact Hd. reflexivity. }
  apply H.
Qed.

(** One line of at most 127 characters, newline included, is returned
    whole by a single [fgets] into 128 bytes. *)
Lemma fgets_whole_line line :
  (String.length line <= 126)%nat ->
  file_reads 128 [line] = [(line ++ String newline EmptyString)%string].
Proof.
  intros H. unfold file_reads. cbn [flat_map fgets_pieces app].
  replace (String.length (line ++ String newline EmptyString) <=? 128 - 1)%nat
    with true; [reflexivity|].
  symmetry. apply Nat.leb_le. rewrite length_of_append. simpl. lia.
Qed.

Lemma file_reads_cons size line lines :
  file_reads size (line :: lines)
  = file_reads size [line] ++ file_reads size lines.
Proof. unfold file_reads. simpl. now rewrite app_nil_r. Qed.

Lemma substring_0_0 (v : string) : substring 0 0 v = EmptyString.
Proof. destruct v; reflexivity. Qed.

Lemma read_default_cost v c :
  read_routing_line ("ROUTING_DEFAULT_COST=" ++ v) c
  = {| default_cost := to_u8 (atoi v);
       retry_count := retry_count c;
       retry_delay_ms := retry_delay_ms c |}.
Proof.
  unfold read_routing_line, strncmp_eq.
  cbn [append substring drop]. rewrite ?substring_0_0.
  reflexivity.
Qed.

Lemma read_retry_count v c :
  read_routing_line ("ROUTING_RETRY_COUNT=" ++ v) c
  = {| default_cost := default_cost c;
       retry_count := to_u8 (atoi v);
       retry_delay_ms := retry_delay_ms c |}.
Proof.
  unfold read_routing_line, strncmp_eq.
  cbn [append substring drop]. rewrite ?substring_0_0.
  reflexivity.
Qed.

Lemma read_retry_delay v c :
  read_routing_line ("ROUTING_RETRY_DELAY_MS=" ++ v) c
  = {| default_cost := default_cost c;
       retry_count := retry_count c;
       retry_delay_ms := to_u32 (atoi v) |}.
Proof.
  unfold read_routing_line, strncmp_eq.
  cbn [append substring drop]. rewrite ?substring_0_0.
  reflexivity.
Qed.

Lemma keyed_line_read key z :
  (String.length key <= 100)%nat ->
  until_newline key = key ->
  (forall rest, until_newline (key ++ rest) = key ++ until_newline rest)%string ->
  0 <= z < 10 ^ 10 ->
  map until_newline (file_reads 128 [(key ++ dec z)%string])
  = [(key ++ dec z)%string].
Proof.
  intros Hk _ Hpre Hz.
  rewrite fgets_whole_line.
  - cbn [map]. f_equal.
    replace ((key ++ dec z) ++ String newline EmptyString)%string
      with (key ++ (dec z ++ String newline EmptyString))%string.
    + now rewrite Hpre, until_newline_dec.
    + clear. induction key as [|c key IH]; simpl; [reflexivity | now rewrite IH].
  - rewrite length_of_append. pose proof (dec_short z Hz). lia.
Qed.

Lemma fold_left_over_map {A B C} (g : B -> C) (f : A -> C -> A) l : forall a,
  fold_left (fun c piece => f c (g piece)) l a = fold_left f (map g l) a.
Proof. induction l as [|x l IH]; intros a; simpl; [reflexivity | apply IH]. Qed.

(** What [routing_module_save_config] writes, [routing_module_load_config]
    reads back: after a successful save, loading the file (at the next
    start, say, whatever the configuration in memory then is) succeeds
    and sets the three parameters to the values that were saved.  The
    retry delay must be below 2^31, the largest value [atoi] returns. *)
Theorem routing_config_survives_save_and_load :
  forall s s',
    is_u8 (default_cost (routing_config s)) ->
    is_u8 (retry_count (routing_config s)) ->
    0 <= retry_delay_ms (routing_config s) < 2 ^ 31 ->
    config_ini s' = config_ini (snd (routing_module_save_config true s)) ->
    fst (routing_module_load_config s') = true
    /\ routing_config (snd (routing_module_load_config s')) = routing_config s.
Proof.
  intros s s' Hc Hr Hd Hfile.
  unfold routing_module_load_config. rewrite Hfile.
  cbn [routing_module_save_config snd config_ini fst routing_config
       set_routing_config].
  split; [reflexivity|].
  rewrite (fold_left_over_map until_newline
             (fun c line => read_routing_line line c)).
  rewrite file_reads_cons, (file_reads_cons _ _ [_]), !map_app.
  unfold is_u8 in Hc, Hr.
  rewrite !keyed_line_read by
    (try (simpl; lia); try reflexivity; try (intros; reflexivity); lia).
  cbn [app fold_left].
  rewrite read_default_cost, read_retry_count, read_retry_delay.
  rewrite !atoi_dec by lia.
  rewrite !to_u8_small by (unfold is_u8; lia).
  rewrite to_u32_small by (unfold is_u32; lia).
  destruct (routing_config s); reflexivity.
Qed.

Lemma routing_config_survives_save_and_load_witness :
  fst (routing_module_load_config
         (snd (routing_module_save_config true alone))) = true
  /\ routing_config
       (snd (routing_module_load_config
               (snd (routing_module_save_config true alone))))
     = routing_config alone.
Proof.
  apply (routing_config_survives_save_and_load alone
           (snd (routing_module_save_config true alone)));
    try (unfold is_u8; simpl; lia); reflexivity.
Defined.

End ConfigFileFacts.

(* ------------------------------------------------------------------ *)
(** ** ota_module.c: segments on the mesh, retries *)

Module OtaFlowFacts.
Import CInt CIntFacts CStr Ota OtaFlow SegmentFacts.

Lemma emit_emit l1 l2 s : emit l2 (emit l1 s) = emit (l1 ++ l2) s.
Proof. unfold emit. cbn. now rewrite app_assoc. Qed.

Lemma mesh_payloads_app a b :
  mesh_payloads (a ++ b) = mesh_payloads a ++ mesh_payloads b.
Proof. unfold mesh_payloads. apply flat_map_app. Qed.

Lemma mesh_lengths_app a b :
  mesh_lengths (a ++ b) = mesh_lengths a ++ mesh_lengths b.
Proof. unfold mesh_lengths. apply flat_map_app. Qed.

Lemma mesh_payloads_notified (l : list Z) st ecu :
  mesh_payloads (map (fun cb => Notified cb st ecu) l) = [].
Proof. induction l; simpl; auto. Qed.

Lemma mesh_lengths_notified (l : list Z) st ecu :
  mesh_lengths (map (fun cb => Notified cb st ecu) l) = [].
Proof. induction l; simpl; auto. Qed.

Lemma mesh_payloads_sent ecu segs :
  mesh_payloads (map (sent ecu) segs) = map slice segs.
Proof. induction segs as [|g segs IH]; simpl; [reflexivity | now rewrite IH]. Qed.

(** The sending loop when every segment is accepted. *)
Lemma send_segments_all ecu segs : forall i s,
  send_segments (fun _ => true) ecu i segs s
  = (true, emit (map (sent ecu) segs) s).
Proof.
  induction segs as [|g segs IH]; intros i s.
  - simpl. unfold emit. rewrite app_nil_r. destruct s; reflexivity.
  - cbn [send_segments map]. rewrite IH, emit_emit. reflexivity.
Qed.

(** The sending loop in general: a prefix of the segments is handed to
    the mesh, at least one when there is one. *)
Lemma send_segments_prefix accepted ecu segs : forall i s,
  exists k,
    (k <= List.length segs)%nat
    /\ (segs <> [] -> (1 <= k)%nat)
    /\ snd (send_segments accepted ecu i segs s)
       = emit (map (sent ecu) (firstn k segs)) s.
Proof.
  induction segs as [|g segs IH]; intros i s.
  - exists 0%nat. simpl. repeat split; try lia; try congruence.
    unfold emit. rewrite app_nil_r. destruct s; reflexivity.
  - cbn [send_segments]. destruct (accepted i).
    + destruct (IH (S i) (emit [MeshSent ecu (slice g) (to_u16 (size g)) 0] s))
        as (k & Hk & _ & Hs).
      exists (S k). cbn [List.length firstn map]. repeat split; try lia.
      rewrite Hs, emit_emit. reflexivity.
    + exists 1%nat. cbn [List.length firstn map snd]. repeat split; try lia.
Qed.

(** What a successful segmentation leaves in the module. *)
Lemma segmented s buf :
  0 < Z.of_nat (List.length buf) ->
  let size := Z.of_nat (List.length buf) in
  let n := to_u32 (size + OTA_PACKET_SIZE - 1) / OTA_PACKET_SIZE in
  ota_module_segment_firmware true (Some buf) size s
  = (true,
     set_segments
       (Some (map (fun i => segment_at buf size (Z.of_nat i))
                  (seq 0 (Z.to_nat n)))) n s).
Proof.
  intros Hpos size n. unfold ota_module_segment_firmware.
  destruct (Z.eqb_spec size 0); [unfold size in *; lia | reflexivity].
Qed.

(** Segmenting a firmware image and distributing it with every send
    accepted hands the mesh the bytes of the image once, in order, in
    blocks of at most 1024 bytes; the descriptors are then released, so
    that a second distribution is refused until the image is segmented
    again. *)
Theorem distribution_sends_the_firmware_in_order :
  forall s buf ecu,
    0 < Z.of_nat (List.length buf) <= 4294966272 ->
    let size := Z.of_nat (List.length buf) in
    let s1 := snd (ota_module_segment_firmware true (Some buf) size s) in
    let r := ota_module_distribute_firmware (fun _ => true) (Some ecu) s1 in
    fst r = true
    /\ (exists chunks,
          mesh_payloads (trace (snd r)) = mesh_payloads (trace s) ++ chunks
          /\ List.concat chunks = buf
          /\ Forall (fun c => (List.length c <= 1024)%nat) chunks)
    /\ ota_segments (snd r) = None
    /\ ota_module_distribute_firmware (fun _ => true) (Some ecu) (snd r)
       = (false, snd r).
Proof.
  intros s buf ecu [Hpos Hmax] size s1 r.
  subst r s1. pose proof (segmented s buf Hpos) as Hseg.
  cbv zeta in Hseg. fold size in Hseg. rewrite Hseg. clear Hseg. cbn [snd].
  set (n := to_u32 (size + OTA_PACKET_SIZE - 1) / OTA_PACKET_SIZE).
  set (segs := map (fun i => segment_at buf size (Z.of_nat i))
                   (seq 0 (Z.to_nat n))).
  unfold ota_module_distribute_firmware.
  cbn [ota_segments set_segments ota_segment_count ota_notify_callbacks emit
       set_status].
  assert (Hall : firstn (Z.to_nat n) segs = segs).
  { apply firstn_all2. unfold segs. rewrite length_map, length_seq. lia. }
  rewrite Hall, send_segments_all.
  cbn [fst snd ota_segments set_segments]. split; [reflexivity|].
  split; [|split; reflexivity].
  exists (map slice segs). split; [|split].
  - cbn [trace set_segments emit set_status callbacks ota_notify_callbacks].
    rewrite !mesh_payloads_app, mesh_payloads_notified, mesh_payloads_sent.
    now rewrite app_nil_r.
  - apply (slices_cover buf size eq_refl Hpos Hmax).
  - apply Forall_forall. intros c Hc.
    apply in_map_iff in Hc. destruct Hc as (g & <- & Hg).
    apply in_map_iff in Hg. destruct Hg as (i & <- & Hi).
    apply in_seq in Hi.
    rewrite (slice_at_inside buf size eq_refl Hpos Hmax i) by (fold n; lia).
    rewrite length_firstn. lia.
Qed.

Lemma distribution_sends_the_firmware_in_order_witness :
  let s1 := snd (ota_module_segment_firmware true (Some firmware) 2500
                   subscribed) in
  let r := ota_module_distribute_firmware (fun _ => true)
             (Some "monitor_ecu"%string) s1 in
  fst r = true
  /\ (exists chunks,
        mesh_payloads (trace (snd r)) = mesh_payloads (trace subscribed) ++ chunks
        /\ List.concat chunks = firmware
        /\ Forall (fun c => (List.length c <= 1024)%nat) chunks)
  /\ ota_segments (snd r) = None
  /\ ota_module_distribute_firmware (fun _ => true) (Some "monitor_ecu"%string)
       (snd r)
     = (false, snd r).
Proof.
  apply (distribution_sends_the_firmware_in_order subscribed firmware
           "monitor_ecu"). vm_compute. split; [reflexivity | discriminate].
Defined.

(** The first block of any firmware longer than 256 bytes is passed to
    [routing_module_send_message] with a length above 256, the size of
    the array that function copies the block into: the 1024-byte packet
    of the OTA module does not fit the mesh item. *)
Theorem firmware_segments_overflow_the_mesh_item :
  forall s buf ecu accepted,
    256 < Z.of_nat (List.length buf) <= 4294966272 ->
    let size := Z.of_nat (List.length buf) in
    let s1 := snd (ota_module_segment_firmware true (Some buf) size s) in
    let r := ota_module_distribute_firmware accepted (Some ecu) s1 in
    exists len rest,
      mesh_lengths (trace (snd r)) = mesh_lengths (trace s) ++ len :: rest
      /\ len = Z.min 1024 size
      /\ ROUTING_ITEM_DATA_SIZE < len.
Proof.
  intros s buf ecu accepted [Hbig Hmax] size s1 r.
  assert (Hpos : 0 < size) by (unfold size; lia).
  subst r s1. pose proof (segmented s buf Hpos) as Hseg.
  cbv zeta in Hseg. fold size in Hseg. rewrite Hseg. clear Hseg. cbn [snd].
  set (n := to_u32 (size + OTA_PACKET_SIZE - 1) / OTA_PACKET_SIZE).
  pose proof (count_is_ceiling size Hpos Hmax) as Hn. fold n in Hn.
  unfold OTA_PACKET_SIZE in Hn.
  assert (Hn1 : 1 <= n) by lia.
  set (segs := map (fun i => segment_at buf size (Z.of_nat i))
                   (seq 0 (Z.to_nat n))).
  unfold ota_module_distribute_firmware.
  cbn [ota_segments set_segments ota_segment_count ota_notify_callbacks emit
       set_status].
  assert (Hall : firstn (Z.to_nat n) segs = segs).
  { apply firstn_all2. unfold segs. rewrite length_map, length_seq. lia. }
  rewrite Hall.
  assert (Hsegs : exists more, segs = segment_at buf size 0 :: more).
  { unfold segs. destruct (Z.to_nat n) as [|m] eqn:Hm; [lia|].
    cbn [seq map]. eexists. reflexivity. }
  destruct Hsegs as (more & Hsegs).
  match goal with
  | |- context [send_segments accepted ecu 0 segs ?st] =>
    destruct (send_segments_prefix accepted ecu segs 0 st)
      as (k & Hk & Hone & Hsent);
    destruct (send_segments accepted ecu 0 segs st) as [ok s3]
  end.
  cbn [snd] in Hsent. subst s3.
  specialize (Hone ltac:(rewrite Hsegs; discriminate)).
  destruct k as [|k]; [lia|]. rewrite Hsegs. cbn [firstn map].
  destruct (segment_at_inside buf size Hpos Hmax 0 ltac:(fold n; lia))
    as (_ & _ & Hsize).
  unfold OTA_PACKET_SIZE in Hsize. rewrite Z.mul_0_r, Z.sub_0_r in Hsize.
  exists (Z.min 1024 size).
  destruct ok; cbn [snd trace set_segments emit set_status callbacks
                    ota_notify_callbacks status];
    eexists;
    (split; [|split; [reflexivity | unfold ROUTING_ITEM_DATA_SIZE; lia]]);
    rewrite ?mesh_lengths_app, ?mesh_lengths_notified, ?app_nil_r;
    cbn [mesh_lengths flat_map sent app]; rewrite Hsize;
    rewrite <- ?app_assoc; cbn [app];
    (replace (to_u16 (Z.min 1024 size)) with (Z.min 1024 size)
       by (unfold to_u16; rewrite Z.mod_small; lia));
    reflexivity.
Qed.

Lemma firmware_segments_overflow_the_mesh_item_witness :
  let s1 := snd (ota_module_segment_firmware true (Some firmware) 2500
                   subscribed) in
  let r := ota_module_distribute_firmware (fun _ => true)
             (Some "monitor_ecu"%string) s1 in
  exists len rest,
    mesh_lengths (trace (snd r)) = mesh_lengths (trace subscribed) ++ len :: rest
    /\ len = Z.min 1024 2500
    /\ ROUTING_ITEM_DATA_SIZE < len.
Proof.
  apply (firmware_segments_overflow_the_mesh_item subscribed firmware
           "monitor_ecu" (fun _ => true)).
  vm_compute. split; [reflexivity | discriminate].
Defined.

Lemma distribute_without_segments accepted ecu s :
  ota_segments s = None ->
  ota_module_distribute_firmware accepted (Some ecu) s = (false, s).
Proof. intros H. unfold ota_module_distribute_firmware. now rewrite H. Qed.

Lemma failed_distribution_drops_segments accepted ecu s :
  fst (ota_module_distribute_firmware accepted (Some ecu) s) = false ->
  ota_segments (snd (ota_module_distribute_firmware accepted (Some ecu) s))
  = None.
Proof.
  unfold ota_module_distribute_firmware.
  destruct (ota_segments s) as [segs|] eqn:Hs; [|intros _; exact Hs].
  match goal with
  | |- context [send_segments ?a ?e ?i ?l ?st] =>
    destruct (send_segments a e i l st) as [[|] s3]
  end; [discriminate | intros _; reflexivity].
Qed.

(** Once the descriptors are gone every further turn of the loop fails
    at once and changes nothing. *)
Lemma futile_loop accepted max t :
  ota_segments t = None -> max < 2 ^ 32 ->
  forall n fuel attempt rc,
    0 <= rc -> rc + Z.of_nat n = max -> (1 <= n <= fuel)%nat ->
    distribute_loop fuel accepted max attempt rc t = (false, max, t).
Proof.
  intros Ht Hmax. induction n as [|n IH]; intros fuel attempt rc Hrc Hsum Hn;
    [lia|].
  destruct fuel as [|fuel]; [lia|].
  cbn [distribute_loop]. rewrite distribute_without_segments by exact Ht.
  rewrite to_u32_small by (unfold is_u32; lia).
  destruct (Z.ltb_spec (rc + 1) max).
  - apply IH; lia.
  - repeat f_equal. lia.
Qed.

(** The supervisor's retries of a failed distribution are idle: when
    the first [ota_module_distribute_firmware] of the loop fails, the
    descriptors are released, so each of the remaining attempts returns
    false at once; the loop ends after [g_monitor_max_retry_count]
    attempts (one, if that is zero) with the module exactly as the
    first attempt left it: no further block is sent and no subscriber
    is told anything. *)
Theorem distribution_retries_send_nothing :
  forall accepted max s,
    0 <= max < 2 ^ 32 ->
    fst (ota_module_distribute_firmware (accepted 0%nat)
           (Some "monitor_ecu"%string) s) = false ->
    distribute_loop (S (Z.to_nat max)) accepted max 0 0 s
    = (false, Z.max 1 max,
       snd (ota_module_distribute_firmware (accepted 0%nat)
              (Some "monitor_ecu"%string) s)).
Proof.
  intros accepted max s Hmax Hfail.
  pose proof (failed_distribution_drops_segments _ _ _ Hfail) as Hnone.
  cbn [distribute_loop].
  destruct (ota_module_distribute_firmware (accepted 0%nat)
              (Some "monitor_ecu"%string) s) as [result s1].
  cbn [fst snd] in *. subst result.
  change (to_u32 (0 + 1)) with 1.
  destruct (Z.ltb_spec 1 max).
  - rewrite (futile_loop accepted max s1 Hnone ltac:(lia)
               (Z.to_nat (max - 1))) by lia.
    repeat f_equal. lia.
  - repeat f_equal. lia.
Qed.

Lemma distribution_retries_send_nothing_witness :
  let s := snd (ota_module_segment_firmware true (Some firmware) 2500
                  subscribed) in
  let refuse_second := fun (_ : nat) (k : nat) => negb (Nat.eqb k 1) in
  distribute_loop (S (Z.to_nat 3)) refuse_second 3 0 0 s
  = (false, Z.max 1 3,
     snd (ota_module_distribute_firmware (refuse_second 0%nat)
            (Some "monitor_ecu"%string) s)).
Proof.
  intros s refuse_second.
  apply (distribution_retries_send_nothing refuse_second 3 s);
    [lia | reflexivity].
Defined.

(** One call of [ota_module_download_firmware] for a known ECU while no
    update is in progress. *)
Lemma download_attempt e ecu k s :
  update_in_progress s = false ->
  slot_of ecu = Some k ->
  let r := ota_module_download_firmware e (Some ecu) s in
  let file := bounded_copy 128
                ("firmware_" ++ slot_name k ++ "_v"
                 ++ dec (installed_version (ota_config s) k) ++ ".bin") in
  downloads (trace (snd r))
  = downloads (trace s) ++ [(topic_of (ota_config s) k, file)]
  /\ ota_config (snd r) = ota_config s
  /\ update_in_progress (snd r) = fst r
  /\ (fst r = false -> status (snd r) = OTA_STATUS_FAILURE).
Proof.
  intros Hfree Hslot r file. subst r.
  assert (Hnot : forall (l : list Z) st,
             downloads (map (fun cb => Notified cb st ecu) l) = [])
    by (induction l; simpl; auto).
  unfold ota_module_download_firmware. rewrite Hfree, Hslot.
  cbn [ota_config ota_notify_callbacks emit set_status set_in_progress
       status callbacks].
  fold file.
  destruct (download_ok e); cbn [negb].
  - unfold ota_module_load_firmware.
    destruct (file_data e) as [d|];
      [destruct (file_size e =? 0)|];
      cbn [negb fst snd trace ota_config update_in_progress status
           set_firmware set_status set_in_progress ota_notify_callbacks emit
           callbacks];
      unfold downloads in *; rewrite ?flat_map_app, ?Hnot, ?app_nil_r;
      cbn [flat_map app]; rewrite ?app_nil_r;
      repeat split; try reflexivity; try discriminate.
  - cbn [negb fst snd trace ota_config update_in_progress status
         set_firmware set_status set_in_progress ota_notify_callbacks emit
         callbacks];
      unfold downloads in *; rewrite ?flat_map_app, ?Hnot, ?app_nil_r;
      cbn [flat_map app]; rewrite ?app_nil_r;
      repeat split; reflexivity.
Qed.

(** A failed download does not block the module: when
    [ota_module_download_firmware] fails for a known ECU (the transfer
    or the reading of the file failed), the update-in-progress flag is
    clear again and the state is FAILURE, so that the next call is not
    refused but asks for the same file once more. *)
Theorem failed_download_can_be_retried :
  forall e e' ecu k s,
    update_in_progress s = false ->
    slot_of ecu = Some k ->
    fst (ota_module_download_firmware e (Some ecu) s) = false ->
    let s1 := snd (ota_module_download_firmware e (Some ecu) s) in
    let file := bounded_copy 128
                  ("firmware_" ++ slot_name k ++ "_v"
                   ++ dec (installed_version (ota_config s) k) ++ ".bin") in
    update_in_progress s1 = false
    /\ status s1 = OTA_STATUS_FAILURE
    /\ downloads (trace (snd (ota_module_download_firmware e' (Some ecu) s1)))
       = downloads (trace s)
         ++ [(topic_of (ota_config s) k, file); (topic_of (ota_config s) k, file)].
Proof.
  intros e e' ecu k s Hfree Hslot Hfail s1 file.
  destruct (download_attempt e ecu k s Hfree Hslot) as (Hd & Hc & Hp & Hst).
  fold s1 in Hd, Hc, Hp, Hst. cbv zeta in Hd. fold file in Hd.
  rewrite Hfail in Hp. specialize (Hst Hfail).
  split; [exact Hp | split; [exact Hst|]].
  destruct (download_attempt e' ecu k s1 Hp Hslot) as (Hd' & _).
  cbv zeta in Hd'. rewrite Hc in Hd'. fold file in Hd'.
  rewrite Hd', Hd, <- app_assoc. reflexivity.
Qed.

Lemma failed_download_can_be_retried_witness :
  let e := {| download_ok := false; file_data := None; file_size := 0 |} in
  let s1 := snd (ota_module_download_firmware e (Some "monitor_ecu"%string)
                   subscribed) in
  let file := bounded_copy 128
                ("firmware_" ++ slot_name Monitor ++ "_v"
                 ++ dec (installed_version (ota_config subscribed) Monitor)
                 ++ ".bin") in
  update_in_progress s1 = false
  /\ status s1 = OTA_STATUS_FAILURE
  /\ downloads (trace (snd (ota_module_download_firmware download_fine
                              (Some "monitor_ecu"%string) s1)))
     = downloads (trace subscribed)
       ++ [(topic_of (ota_config subscribed) Monitor, file);
           (topic_of (ota_config subscribed) Monitor, file)].
Proof.
  intros e.
  apply (failed_download_can_be_retried e download_fine "monitor_ecu" Monitor
           subscribed); reflexivity.
Defined.

End OtaFlowFacts.

(* ------------------------------------------------------------------ *)
(** ** alert_module.c: the history is a ring of the latest 100 alerts *)

Module AlertRingFacts.
Import CInt CIntFacts CStr Alert AlertRing RingFacts.

Lemma raise_snoc l a s :
  raise (l ++ [a]) s
  = (let '(now, lvl, text) := a in
     register_alert now lvl (Some text) (raise l s)).
Proof. unfold raise. rewrite fold_left_app. reflexivity. Qed.

(** After any number of alerts since start-up, the history still has its
    100 cells, the write index is the number of alerts modulo 100, and
    each of the latest 100 alerts is found, as it was registered, in the
    cell numbered by its rank modulo 100: older alerts are the ones that
    have been overwritten. *)
Theorem alert_ring_holds_the_latest_alerts :
  forall alerts,
    let s := raise alerts alert_boot in
    let n := Z.of_nat (List.length alerts) in
    alert_index s = n mod ALERT_HISTORY_SIZE
    /\ Z.of_nat (List.length (alert_history s)) = ALERT_HISTORY_SIZE
    /\ forall i a,
         nth_error alerts i = Some a ->
         n <= Z.of_nat i + ALERT_HISTORY_SIZE ->
         nth (Z.to_nat (Z.of_nat i mod ALERT_HISTORY_SIZE)) (alert_history s)
             blank
         = entry_of a.
Proof.
  unfold ALERT_HISTORY_SIZE.
  induction alerts as [|x alerts IH] using rev_ind.
  - cbn. repeat split; try reflexivity. intros [|i] a H; discriminate.
  - cbv zeta in *. destruct IH as (Hidx & Hlen & Hcells).
    rewrite raise_snoc, length_app. cbn [List.length].
    destruct x as [[now lvl] text].
    set (s := raise alerts alert_boot) in *.
    set (n := Z.of_nat (List.length alerts)) in *.
    replace (Z.of_nat (List.length alerts + 1)) with (n + 1) by (unfold n; lia).
    assert (Hn : 0 <= n) by (unfold n; lia).
    assert (Hbound : 0 <= n mod 100 < 100) by (apply Z.mod_pos_bound; lia).
    cbn [register_alert alert_index alert_history].
    unfold put. rewrite Hidx.
    assert (Hw : (Z.to_nat (n mod 100) < List.length (alert_history s))%nat)
      by lia.
    split; [|split].
    + unfold to_u32, ALERT_HISTORY_SIZE.
      Z.to_euclidean_division_equations. lia.
    + rewrite length_after_write by exact Hw. exact Hlen.
    + intros i a Hi Hrecent.
      rewrite nth_after_write by exact Hw.
      destruct (Nat.eq_dec i (List.length alerts)) as [-> | Hne].
      * rewrite nth_error_app2, Nat.sub_diag in Hi by lia.
        injection Hi as <-. fold n. rewrite Nat.eqb_refl. reflexivity.
      * assert (Hlt : (i < List.length alerts)%nat).
        { match type of Hi with
          | nth_error ?l ?k = _ =>
            pose proof (proj1 (nth_error_Some l k)) as Hsome
          end.
          rewrite Hi, length_app in Hsome. simpl in Hsome.
          specialize (Hsome ltac:(discriminate)). lia. }
        rewrite nth_error_app1 in Hi by exact Hlt.
        replace (Z.to_nat (Z.of_nat i mod 100) =? Z.to_nat (n mod 100))%nat
          with false.
        -- apply Hcells; [exact Hi | lia].
        -- symmetry. apply Nat.eqb_neq. intros Heq.
           assert (Z.of_nat i mod 100 = n mod 100).
           { pose proof (Z.mod_pos_bound (Z.of_nat i) 100 ltac:(lia)). lia. }
           assert (Z.of_nat i < n) by (unfold n; lia).
           Z.to_euclidean_division_equations. lia.
Qed.

End AlertRingFacts.

(* ------------------------------------------------------------------ *)
(** ** diagnosis_module.c *)

Module DiagnosisFacts.
Import CInt CIntFacts CanFrame CanTx CanMetrics Diagnosis RingFacts.

(** [analyze_diagnosis_data] sets the flag to the disjunction of the
    six comparisons and calls the callback on a flagged sample. *)
Lemma analyze_result d s :
  analyze_diagnosis_data d s
  = (set_abnormal (exceeds s d) d,
     match alert_callback s with
     | Some cb => if exceeds s d
                  then record_alert cb (set_abnormal true d) s else s
     | None => s
     end).
Proof.
  unfold analyze_diagnosis_data, exceeds.
  cbn [set_abnormal can_diag latency bus_load retransmission_count
       collision_count].
  destruct (threshold_tx_errors s <? tx_error_counter (can_diag d));
    cbn [set_abnormal can_diag latency bus_load retransmission_count
         collision_count];
  destruct (threshold_rx_errors s <? rx_error_counter (can_diag d));
    cbn [set_abnormal can_diag latency bus_load retransmission_count
         collision_count];
  destruct (threshold_bus_load s <? bus_load d);
    cbn [set_abnormal can_diag latency bus_load retransmission_count
         collision_count];
  destruct (threshold_max_latency s <? max_latency (latency d));
    cbn [set_abnormal can_diag latency bus_load retransmission_count
         collision_count];
  destruct (threshold_retrans s <? retransmission_count d);
    cbn [set_abnormal can_diag latency bus_load retransmission_count
         collision_count];
  destruct (threshold_collisions s <? collision_count d);
    cbn [set_abnormal can_diag latency bus_load retransmission_count
         collision_count abnormal orb];
  destruct (alert_callback s); reflexivity.
Qed.

(** A successful update, spelled out. *)
Lemma update_succeeds e tx d s info q :
  status_info e = Some info ->
  txQueue tx = Some q ->
  let reading :=
    {| can_diag := {| tx_error_counter := tx_error_counter info;
                      rx_error_counter := rx_error_counter info;
                      bus_off := bus_off info |};
       latency := latencyMetrics tx;
       queue_status := {| messages_waiting := Z.of_nat (List.length q);
                          queue_capacity := TX_QUEUE_LENGTH |};
       bus_load := CAN_ESP_GetBusLoad (busLoadStartTime e) (load_clock e) tx;
       retransmission_count := totalRetransmissions tx;
       collision_count := totalCollisions tx;
       transmission_attempts := totalTransmissionAttempts tx;
       abnormal := abnormal d;
       timestamp := stamp_clock e |} in
  let sample := set_abnormal (exceeds s reading) reading in
  diagnosis_module_update e tx (Some d) s
  = (true, Some sample,
     {| diag_history := keep (diag_history s) (diag_history_index s) sample;
        diag_history_index :=
          to_u32 (diag_history_index s + 1) mod DIAG_HISTORY_SIZE;
        threshold_tx_errors := threshold_tx_errors s;
        threshold_rx_errors := threshold_rx_errors s;
        threshold_bus_load := threshold_bus_load s;
        threshold_max_latency := threshold_max_latency s;
        threshold_retrans := threshold_retrans s;
        threshold_collisions := threshold_collisions s;
        alert_callback := alert_callback s;
        alerted := alerted s ++
                   match alert_callback s with
                   | Some cb => if exceeds s reading then [(cb, sample)] else []
                   | None => []
                   end |}).
Proof.
  intros Hinfo Hq reading sample.
  unfold diagnosis_module_update, CAN_ESP_GetDiagnostics,
    CAN_ESP_GetLatencyMetrics, CAN_ESP_GetQueueStatus,
    CAN_ESP_GetRetransmissionCount, CAN_ESP_GetCollisionCount,
    CAN_ESP_GetTransmissionAttempts.
  rewrite Hinfo, Hq. fold reading. rewrite analyze_result. fold sample.
  destruct (alert_callback s) as [cb|] eqn:Hcb.
  - destruct (exceeds s reading) eqn:Hex.
    + cbn [record_alert diag_history diag_history_index threshold_tx_errors
           threshold_rx_errors threshold_bus_load threshold_max_latency
           threshold_retrans threshold_collisions alert_callback alerted].
      rewrite Hcb. unfold sample. rewrite ?Hex. reflexivity.
    + rewrite Hcb, app_nil_r. reflexivity.
  - rewrite Hcb, app_nil_r. reflexivity.
Qed.

(** When the CAN library answers, [diagnosis_module_update] returns
    true with a sample that carries the library's counters and the
    clock reading; the sample is flagged abnormal exactly when one of
    the six monitored values is strictly above its threshold (a value
    equal to the threshold does not count, and neither does bus-off);
    the registered callback is called once, with the flagged sample,
    exactly in that case; and the sample is stored in the history cell
    the index pointed at, the index moving on modulo 50. *)
Theorem update_records_what_it_analysed :
  forall e tx d s info q,
    status_info e = Some info ->
    txQueue tx = Some q ->
    0 <= diag_history_index s < DIAG_HISTORY_SIZE ->
    Z.of_nat (List.length (diag_history s)) = DIAG_HISTORY_SIZE ->
    exists sample s',
      diagnosis_module_update e tx (Some d) s = (true, Some sample, s')
      /\ timestamp sample = stamp_clock e
      /\ retransmission_count sample = totalRetransmissions tx
      /\ collision_count sample = totalCollisions tx
      /\ latency sample = latencyMetrics tx
      /\ (abnormal sample = true <->
          threshold_tx_errors s < tx_error_counter info
          \/ threshold_rx_errors s < rx_error_counter info
          \/ threshold_bus_load s < bus_load sample
          \/ threshold_max_latency s < max_latency (latencyMetrics tx)
          \/ threshold_retrans s < totalRetransmissions tx
          \/ threshold_collisions s < totalCollisions tx)
      /\ alerted s'
         = alerted s ++
           match alert_callback s with
           | Some cb => if abnormal sample then [(cb, sample)] else []
           | None => []
           end
      /\ nth (Z.to_nat (diag_history_index s)) (diag_history s') zero_sample
         = sample
      /\ diag_history_index s' = (diag_history_index s + 1) mod DIAG_HISTORY_SIZE.
Proof.
  intros e tx d s info q Hinfo Hq Hidx Hlen.
  pose proof (update_succeeds e tx d s info q Hinfo Hq) as Hup.
  cbv zeta in Hup.
  eexists. eexists. split; [exact Hup|].
  cbn [timestamp retransmission_count collision_count latency abnormal
       set_abnormal alerted diag_history diag_history_index bus_load].
  unfold DIAG_HISTORY_SIZE in *.
  repeat split; try reflexivity.
  - unfold exceeds.
    cbn [can_diag tx_error_counter rx_error_counter bus_load latency
         retransmission_count collision_count].
    rewrite !orb_true_iff, !Z.ltb_lt. tauto.
  - unfold exceeds.
    cbn [can_diag tx_error_counter rx_error_counter bus_load latency
         retransmission_count collision_count].
    rewrite !orb_true_iff, !Z.ltb_lt. tauto.
  - unfold keep. rewrite nth_after_write by lia. now rewrite Nat.eqb_refl.
  - rewrite to_u32_small by (unfold is_u32; lia). reflexivity.
Qed.

Lemma update_records_what_it_analysed_witness :
  let e := {| status_info := Some {| tx_error_counter := 11;
                                     rx_error_counter := 0;
                                     bus_off := false |};
              busLoadStartTime := 0; load_clock := 1000;
              stamp_clock := 1000 |} in
  let tx := tx_initial (Some []) in
  let s := snd (diagnosis_module_register_alert_callback (Some 1) diag_boot) in
  exists sample s',
    diagnosis_module_update e tx (Some zero_sample) s = (true, Some sample, s')
    /\ timestamp sample = stamp_clock e
    /\ retransmission_count sample = totalRetransmissions tx
    /\ collision_count sample = totalCollisions tx
    /\ latency sample = latencyMetrics tx
    /\ (abnormal sample = true <->
        threshold_tx_errors s < 11
        \/ threshold_rx_errors s < 0
        \/ threshold_bus_load s < bus_load sample
        \/ threshold_max_latency s < max_latency (latencyMetrics tx)
        \/ threshold_retrans s < totalRetransmissions tx
        \/ threshold_collisions s < totalCollisions tx)
    /\ alerted s'
       = alerted s ++
         match alert_callback s with
         | Some cb => if abnormal sample then [(cb, sample)] else []
         | None => []
         end
    /\ nth (Z.to_nat (diag_history_index s)) (diag_history s') zero_sample
       = sample
    /\ diag_history_index s' = (diag_history_index s + 1) mod DIAG_HISTORY_SIZE.
Proof.
  intros e tx s.
  apply (update_records_what_it_analysed e tx zero_sample s
           {| tx_error_counter := 11; rx_error_counter := 0; bus_off := false |}
           []);
    [reflexivity | reflexivity | simpl; unfold DIAG_HISTORY_SIZE; lia
     | reflexivity].
Defined.

(** A failed update leaves the module alone: when
    [diagnosis_module_update] returns false (null pointer, driver
    status unavailable, or no transmit queue), the history, its index,
    the thresholds and the callback are as before, and the callback has
    not been called. *)
Theorem failed_update_changes_nothing :
  forall e tx data s,
    fst (fst (diagnosis_module_update e tx data s)) = false ->
    snd (diagnosis_module_update e tx data s) = s
    /\ (data = None \/ status_info e = None \/ txQueue tx = None).
Proof.
  intros e tx data s. unfold diagnosis_module_update.
  destruct data as [d|]; [|intros _; split; [reflexivity | now left]].
  unfold CAN_ESP_GetDiagnostics, CAN_ESP_GetLatencyMetrics,
    CAN_ESP_GetQueueStatus.
  destruct (status_info e) as [info|];
    [|intros _; split; [reflexivity | right; now left]].
  destruct (txQueue tx) as [q|];
    [|intros _; split; [reflexivity | right; now right]].
  match goal with
  | |- context [analyze_diagnosis_data ?x ?y] =>
    destruct (analyze_diagnosis_data x y)
  end.
  cbn [fst]. discriminate.
Qed.

Lemma failed_update_changes_nothing_witness :
  let e := {| status_info := None; busLoadStartTime := 0; load_clock := 1000;
              stamp_clock := 1000 |} in
  snd (diagnosis_module_update e (tx_initial (Some [])) (Some zero_sample)
         diag_boot) = diag_boot
  /\ (Some zero_sample = None \/ status_info e = None
      \/ txQueue (tx_initial (Some [])) = None).
Proof.
  intros e.
  apply (failed_update_changes_nothing e (tx_initial (Some []))
           (Some zero_sample) diag_boot). reflexivity.
Defined.

Lemma stamped_prefix samples n :
  Forall (fun d => timestamp d <> 0) samples ->
  stamped (samples ++ repeat zero_sample n) = samples.
Proof.
  intros H. unfold stamped. rewrite filter_app.
  replace (filter (fun d => negb (timestamp d =? 0)) (repeat zero_sample n))
    with (@nil DiagnosisData_t)
    by (induction n; simpl; auto).
  rewrite app_nil_r.
  induction H as [|d l Hd Hl IH]; simpl; [reflexivity|].
  destruct (Z.eqb_spec (timestamp d) 0); [contradiction|].
  simpl. now rewrite IH.
Qed.

(** Successful updates fill the history from the front. *)
Lemma updates_fill rounds : forall data s pre m,
  diag_history s = pre ++ repeat zero_sample m ->
  Z.of_nat (List.length pre) + Z.of_nat m = DIAG_HISTORY_SIZE ->
  diag_history_index s = Z.of_nat (List.length pre) mod DIAG_HISTORY_SIZE ->
  (List.length rounds <= m)%nat ->
  Forall (fun r => status_info (fst r) <> None /\ txQueue (snd r) <> None)
         rounds ->
  exists samples,
    Forall (fun ok => ok = true) (fst (fst (updates rounds data s)))
    /\ diag_history (snd (updates rounds data s))
       = (pre ++ samples) ++ repeat zero_sample (m - List.length rounds)
    /\ map timestamp samples = map (fun r => stamp_clock (fst r)) rounds.
Proof.
  unfold DIAG_HISTORY_SIZE.
  induction rounds as [|[e tx] rounds IH]; intros data s pre m Hh Hsum Hi Hm Hok.
  - exists []. cbn. rewrite app_nil_r, Nat.sub_0_r. repeat split; auto.
  - inversion Hok as [|? ? [Hinfo Hq] Hok']; subst. cbn [fst snd] in Hinfo, Hq.
    destruct (status_info e) as [info|] eqn:Einfo; [|congruence].
    destruct (txQueue tx) as [q|] eqn:Eq; [|congruence].
    cbn [List.length] in Hm. destruct m as [|m]; [lia|].
    cbn [updates].
    rewrite (update_succeeds e tx data s info q Einfo Eq).
    cbv zeta.
    match goal with
    | |- context [updates rounds ?x _] => set (sample := x)
    end.
    match goal with
    | |- context [updates rounds sample ?st] => set (s1 := st)
    end.
    assert (Hidx : diag_history_index s = Z.of_nat (List.length pre)).
    { rewrite Hi. apply Z.mod_small. lia. }
    destruct (IH sample s1 (pre ++ [sample]) m) as (samples & H1 & H2 & H3).
    + unfold s1. cbn [diag_history]. unfold keep.
      rewrite Hidx, Nat2Z.id, Hh. apply write_after_prefix.
    + rewrite length_app. simpl. lia.
    + unfold s1. cbn [diag_history_index]. rewrite Hidx, length_app.
      cbn [List.length]. unfold DIAG_HISTORY_SIZE.
      rewrite to_u32_small by (unfold is_u32; lia).
      f_equal. lia.
    + lia.
    + exact Hok'.
    + exists (sample :: samples).
      destruct (updates rounds sample s1) as [[oks d2] s2].
      cbn [fst snd] in *.
      split; [constructor; [reflexivity | exact H1]|].
      split.
      * rewrite H2, <- !app_assoc. reflexivity.
      * cbn [map]. rewrite H3. reflexivity.
Qed.

(** After [k] successful updates since start-up, [k] being at most 50,
    the history holds the [k] samples in its first [k] cells, in the
    order they were taken, and zeroes after them; when the clock never
    read zero, exactly [k] cells carry a nonzero timestamp. *)
Theorem history_counts_the_updates :
  forall rounds data,
    Z.of_nat (List.length rounds) <= DIAG_HISTORY_SIZE ->
    Forall (fun r => status_info (fst r) <> None /\ txQueue (snd r) <> None)
           rounds ->
    let out := updates rounds data diag_boot in
    Forall (fun ok => ok = true) (fst (fst out))
    /\ exists samples,
         diag_history (snd out)
         = samples
           ++ repeat zero_sample
                (Z.to_nat DIAG_HISTORY_SIZE - List.length rounds)
         /\ map timestamp samples = map (fun r => stamp_clock (fst r)) rounds
         /\ (Forall (fun r => stamp_clock (fst r) <> 0) rounds ->
             List.length (stamped (diag_history (snd out)))
             = List.length rounds).
Proof.
  intros rounds data Hlen Hok out.
  destruct (updates_fill rounds data diag_boot [] (Z.to_nat DIAG_HISTORY_SIZE))
    as (samples & H1 & H2 & H3);
    try reflexivity; try exact Hok; [unfold DIAG_HISTORY_SIZE in *; lia|].
  fold out in H1, H2. split; [exact H1|].
  exists samples. cbn [app] in H2. split; [exact H2 | split; [exact H3|]].
  intros Hclock. rewrite H2, stamped_prefix.
  - rewrite <- (length_map timestamp), H3. apply length_map.
  - clear - H3 Hclock. revert samples H3.
    induction Hclock as [|r l Hr Hl IH]; intros [|d samples] H3;
      try discriminate; constructor.
    + cbn [map] in H3. injection H3 as Hd _. now rewrite Hd.
    + apply IH. cbn [map] in H3. now injection H3.
Qed.

Lemma history_counts_the_updates_witness :
  let e := fun t => {| status_info := Some {| tx_error_counter := 0;
                                              rx_error_counter := 0;
                                              bus_off := false |};
                       busLoadStartTime := 0; load_clock := t;
                       stamp_clock := t |} in
  let rounds := [(e 1000, tx_initial (Some [])); (e 2000, tx_initial (Some []))]
  in
  let out := updates rounds zero_sample diag_boot in
  Forall (fun ok => ok = true) (fst (fst out))
  /\ exists samples,
       diag_history (snd out)
       = samples
         ++ repeat zero_sample (Z.to_nat DIAG_HISTORY_SIZE - List.length rounds)
       /\ map timestamp samples = map (fun r => stamp_clock (fst r)) rounds
       /\ (Forall (fun r => stamp_clock (fst r) <> 0) rounds ->
           List.length (stamped (diag_history (snd out)))
           = List.length rounds).
Proof.
  intros e rounds.
  apply (history_counts_the_updates rounds zero_sample);
    [unfold DIAG_HISTORY_SIZE; simpl; lia
    | repeat constructor; discriminate].
Defined.

End DiagnosisFacts.

(* ------------------------------------------------------------------ *)
(** ** logger_module.c *)

Module LoggerFacts.
Import CInt CIntFacts CStr Logger RingFacts.

Lemma heard_app a b : heard (a ++ b) = heard a ++ heard b.
Proof. unfold heard. apply flat_map_app. Qed.

Lemma sd_lines_app a b : sd_lines (a ++ b) = sd_lines a ++ sd_lines b.
Proof. unfold sd_lines. apply flat_map_app. Qed.

Lemma length_substring (s : string) : forall n,
  (String.length (substring 0 n s) <= n)%nat.
Proof.
  induction s as [|c s IH]; intros [|n]; simpl; try lia.
  specialize (IH n). lia.
Qed.

(** The loop of the SD copy writes no line for the callback to hear. *)
Lemma save_from_lines write_ok dir entries : forall i status,
  heard (snd (save_from write_ok dir i entries status)) = []
  /\ sd_lines (snd (save_from write_ok dir i entries status))
     = map log_line (filter (fun e => negb (timestamp e =? 0)) entries)
  /\ (fst (save_from write_ok dir i entries status) = true <->
      status = true
      /\ forall k e, nth_error entries k = Some e -> timestamp e <> 0 ->
                     write_ok (i + k)%nat = true).
Proof.
  induction entries as [|e entries IH]; intros i status.
  - cbn. repeat split; try tauto. intros [|k] x Hx; discriminate.
  - cbn [save_from filter].
    destruct (Z.eqb_spec (timestamp e) 0) as [Hz | Hnz]; cbn [negb].
    + destruct (IH (S i) status) as (H1 & H2 & H3).
      split; [exact H1 | split; [exact H2|]].
      rewrite H3. split; intros [Hs Hall]; (split; [exact Hs|]).
      * intros [|k] x Hx Hx0.
        -- injection Hx as <-. contradiction.
        -- replace (i + S k)%nat with (S i + k)%nat by lia. eauto.
      * intros k x Hx Hx0.
        replace (S i + k)%nat with (i + S k)%nat by lia.
        apply (Hall (S k) x); assumption.
    + destruct (IH (S i) (status && write_ok i)) as (H1 & H2 & H3).
      destruct (save_from write_ok dir (S i) entries (status && write_ok i))
        as [st l].
      cbn [fst snd] in *. cbn [heard sd_lines flat_map app map].
      fold (heard l). fold (sd_lines l).
      split; [exact H1 | split; [now rewrite H2|]].
      rewrite H3, andb_true_iff.
      split.
      * intros [[Hs Hw] Hall]. split; [exact Hs|].
        intros [|k] x Hx Hx0.
        -- now rewrite Nat.add_0_r.
        -- replace (i + S k)%nat with (S i + k)%nat by lia. eauto.
      * intros [Hs Hall]. split; [split; [exact Hs|]|].
        -- specialize (Hall 0%nat e eq_refl Hnz).
           now rewrite Nat.add_0_r in Hall.
        -- intros k x Hx Hx0.
           replace (S i + k)%nat with (i + S k)%nat by lia.
           apply (Hall (S k) x); assumption.
Qed.

Lemma step_heard s c :
  Forall (fun e => level e <> LOGGER_LEVEL_INFO
                   /\ (String.length (message e) <= 127)%nat)
         (heard (trace s)) ->
  Forall (fun e => level e <> LOGGER_LEVEL_INFO
                   /\ (String.length (message e) <= 127)%nat)
         (heard (trace (logger_step s c))).
Proof.
  intros H.
  assert (Hlog : forall rtc lvl text,
             Forall (fun e => level e <> LOGGER_LEVEL_INFO
                              /\ (String.length (message e) <= 127)%nat)
                    (heard (trace (logger_module_log rtc lvl text s)))).
  { intros rtc lvl text. unfold logger_module_log.
    destruct text as [t|]; [|exact H].
    destruct (level_value lvl <? level_value (current_log_level s)); [exact H|].
    cbn [trace]. rewrite heard_app. apply Forall_app. split; [exact H|].
    pose proof (length_substring t 127) as Hlen.
    destruct lvl, (alert_callback s); cbn; constructor;
      try constructor; cbn [level message]; try discriminate;
      unfold bounded_copy, LOGGER_MSG_MAX_SIZE; exact Hlen. }
  destruct c as [rtc lvl text | rtc lvl m | cb | lvl | ok]; cbn [logger_step].
  - apply Hlog.
  - unfold logger_module_log_alert. destruct m; [apply Hlog | exact H].
  - exact H.
  - exact H.
  - unfold logger_module_save_logs_to_sd.
    match goal with
    | |- context [save_from ?w ?d ?i ?l ?st] =>
      destruct (save_from_lines w d l i st) as (Hh & _);
      destruct (save_from w d i l st) as [st' written]
    end.
    cbn [snd trace] in *. rewrite heard_app, Hh, app_nil_r. exact H.
Qed.

(** Whatever the sequence of calls into the logger, its alert callback
    is only ever called with warning or critical entries, never with an
    informational one, and the message of each fits the 128-byte field;
    saving to the SD card calls it for nothing. *)
Theorem alert_callback_hears_no_info :
  forall calls s,
    Forall (fun e => level e <> LOGGER_LEVEL_INFO
                     /\ (String.length (message e) <= 127)%nat)
           (heard (trace s)) ->
    Forall (fun e => level e <> LOGGER_LEVEL_INFO
                     /\ (String.length (message e) <= 127)%nat)
           (heard (trace (logger_run calls s))).
Proof.
  induction calls as [|c calls IH]; intros s H; [exact H|].
  cbn [logger_run fold_left]. apply IH. now apply step_heard.
Qed.

Lemma alert_callback_hears_no_info_witness :
  Forall (fun e => level e <> LOGGER_LEVEL_INFO
                   /\ (String.length (message e) <= 127)%nat)
         (heard (trace (logger_run
                          [ RegisterAlertCallback (Some 1);
                            Log (Some 1700000000) LOGGER_LEVEL_INFO
                                (Some "start"%string);
                            LogAlert (Some 1700000001) LOGGER_LEVEL_CRITICAL
                                     (Some "Estado Bus-Off detectado!"%string) ]
                          logger_boot))).
Proof.
  apply (alert_callback_hears_no_info
           [ RegisterAlertCallback (Some 1);
             Log (Some 1700000000) LOGGER_LEVEL_INFO (Some "start"%string);
             LogAlert (Some 1700000001) LOGGER_LEVEL_CRITICAL
                      (Some "Estado Bus-Off detectado!"%string) ]
           logger_boot).
  simpl. constructor.
Defined.

(** The SD copy of a full-size buffer, for use below. *)
Lemma save_writes_the_stamped_rows write_ok s :
  Z.of_nat (List.length (log_buffer s)) = LOGGER_MAX_ENTRIES ->
  sd_lines (trace (snd (logger_module_save_logs_to_sd write_ok s)))
  = sd_lines (trace s)
    ++ map log_line (filter (fun e => negb (timestamp e =? 0)) (log_buffer s))
  /\ (fst (logger_module_save_logs_to_sd write_ok s) = true <->
      forall k e, nth_error (log_buffer s) k = Some e -> timestamp e <> 0 ->
                  write_ok k = true).
Proof.
  intros Hlen. unfold logger_module_save_logs_to_sd.
  rewrite firstn_all2 by (unfold LOGGER_MAX_ENTRIES in *; lia).
  destruct (save_from_lines write_ok (sd_log_directory s) (log_buffer s) 0 true)
    as (_ & Hl & Hr).
  destruct (save_from write_ok (sd_log_directory s) 0 (log_buffer s) true)
    as [st written].
  cbn [fst snd trace] in *.
  rewrite sd_lines_app, Hl. split; [reflexivity|].
  split.
  - intros H. apply Hr in H. destruct H as [_ H]. exact H.
  - intros H. apply Hr. split; [reflexivity | exact H].
Qed.

(** [logger_module_save_logs_to_sd] hands the SD card one line for
    each buffer entry whose timestamp is not zero, in buffer order, and
    none for the others; it carries on after a failed write, and its
    result is true exactly when every one of those writes succeeded.
    The buffer itself is left as it was. *)
Theorem save_writes_the_stamped_entries :
  forall write_ok s,
    Z.of_nat (List.length (log_buffer s)) = LOGGER_MAX_ENTRIES ->
    let r := logger_module_save_logs_to_sd write_ok s in
    sd_lines (trace (snd r))
    = sd_lines (trace s)
      ++ map log_line (filter (fun e => negb (timestamp e =? 0)) (log_buffer s))
    /\ (fst r = true <->
        forall k e, nth_error (log_buffer s) k = Some e -> timestamp e <> 0 ->
                    write_ok k = true)
    /\ log_buffer (snd r) = log_buffer s
    /\ log_index (snd r) = log_index s.
Proof.
  intros write_ok s Hlen r. subst r. unfold logger_module_save_logs_to_sd.
  rewrite firstn_all2 by (unfold LOGGER_MAX_ENTRIES in *; lia).
  destruct (save_from_lines write_ok (sd_log_directory s) (log_buffer s) 0 true)
    as (_ & Hl & Hr).
  destruct (save_from write_ok (sd_log_directory s) 0 (log_buffer s) true)
    as [st written].
  cbn [fst snd trace log_buffer log_index] in *.
  rewrite sd_lines_app, Hl. repeat split; try reflexivity.
  - intros H. apply Hr in H. destruct H as [_ H]. exact H.
  - intros H. apply Hr. split; [reflexivity | exact H].
Qed.

Lemma save_writes_the_stamped_entries_witness :
  let s := logger_run [ Log (Some 1700000000) LOGGER_LEVEL_INFO
                            (Some "start"%string) ] logger_boot in
  let r := logger_module_save_logs_to_sd (fun _ => true) s in
  sd_lines (trace (snd r))
  = sd_lines (trace s)
    ++ map log_line (filter (fun e => negb (timestamp e =? 0)) (log_buffer s))
  /\ (fst r = true <->
      forall k e, nth_error (log_buffer s) k = Some e -> timestamp e <> 0 ->
                  (fun _ : nat => true) k = true)
  /\ log_buffer (snd r) = log_buffer s
  /\ log_index (snd r) = log_index s.
Proof.
  intros s.
  apply (save_writes_the_stamped_entries (fun _ => true) s). reflexivity.
Defined.

(** An entry logged while the clock chip cannot be read gets the
    timestamp 0, which the SD copy takes for an empty cell: the entry
    is stored in the buffer but no later [logger_module_save_logs_to_sd]
    writes it, and the entry it replaced is no longer written either. *)
Theorem entries_logged_without_a_clock_are_never_saved :
  forall lvl text s write_ok,
    level_value (current_log_level s) <= level_value lvl ->
    0 <= log_index s < LOGGER_MAX_ENTRIES ->
    Z.of_nat (List.length (log_buffer s)) = LOGGER_MAX_ENTRIES ->
    let s1 := logger_module_log None lvl (Some text) s in
    let i := Z.to_nat (log_index s) in
    nth i (log_buffer s1) empty_entry
    = {| timestamp := 0; level := lvl;
         message := bounded_copy LOGGER_MSG_MAX_SIZE text |}
    /\ sd_lines (trace (snd (logger_module_save_logs_to_sd write_ok s1)))
       = sd_lines (trace s)
         ++ map log_line
              (filter (fun e => negb (timestamp e =? 0))
                      (firstn i (log_buffer s) ++ skipn (S i) (log_buffer s))).
Proof.
  intros lvl text s write_ok Hlvl Hidx Hlen s1 i.
  unfold LOGGER_MAX_ENTRIES in *.
  assert (Hi : (i < List.length (log_buffer s))%nat) by (unfold i; lia).
  assert (Hs1 : log_buffer s1
                = firstn i (log_buffer s)
                  ++ {| timestamp := 0; level := lvl;
                        message := bounded_copy LOGGER_MSG_MAX_SIZE text |}
                     :: skipn (S i) (log_buffer s)
                /\ sd_lines (trace s1) = sd_lines (trace s)).
  { unfold s1, logger_module_log.
    destruct (Z.ltb_spec (level_value lvl) (level_value (current_log_level s)));
      [lia|].
    cbn [log_buffer trace logger_module_get_rtc_timestamp].
    split; [reflexivity|].
    rewrite sd_lines_app.
    destruct lvl, (alert_callback s); cbn; now rewrite app_nil_r. }
  destruct Hs1 as (Hbuf & Htr).
  split.
  - rewrite Hbuf, nth_after_write by exact Hi. now rewrite Nat.eqb_refl.
  - destruct (save_writes_the_stamped_rows write_ok s1) as (Hl & _).
    { rewrite Hbuf, length_after_write by exact Hi.
      unfold LOGGER_MAX_ENTRIES. exact Hlen. }
    rewrite Hl, Htr, Hbuf. f_equal. f_equal.
    rewrite !filter_app. reflexivity.
Qed.

Lemma entries_logged_without_a_clock_are_never_saved_witness :
  let s1 := logger_module_log None LOGGER_LEVEL_WARNING
              (Some "RTC"%string) logger_boot in
  let i := Z.to_nat (log_index logger_boot) in
  nth i (log_buffer s1) empty_entry
  = {| timestamp := 0; level := LOGGER_LEVEL_WARNING;
       message := bounded_copy LOGGER_MSG_MAX_SIZE "RTC" |}
  /\ sd_lines (trace (snd (logger_module_save_logs_to_sd (fun _ => true) s1)))
     = sd_lines (trace logger_boot)
       ++ map log_line
            (filter (fun e => negb (timestamp e =? 0))
                    (firstn i (log_buffer logger_boot)
                     ++ skipn (S i) (log_buffer logger_boot))).
Proof.
  apply (entries_logged_without_a_clock_are_never_saved LOGGER_LEVEL_WARNING
           "RTC" logger_boot (fun _ => true));
    [simpl; lia | simpl; unfold LOGGER_MAX_ENTRIES; lia | reflexivity].
Defined.

Lemma deliver_app rtc a b l :
  deliver rtc (a ++ b) l = deliver rtc b (deliver rtc a l).
Proof. unfold deliver. apply fold_left_app. Qed.

(** A rule of [alert_module_check_conditions] that raises a warning
    adds a clock read and a warning to what the logger is handed. *)
Lemma conditional_warning (b : bool) now text s pre f :
  Alert.trace s = pre ++ f ->
  Forall (fun e => e = Alert.RtcRead
                   \/ exists m,
                        e = Alert.LoggedAlert Alert.ALERT_LEVEL_WARNING m) f ->
  exists f',
    Alert.trace (if b
                 then Alert.register_alert now Alert.ALERT_LEVEL_WARNING
                        (Some text) s
                 else s) = pre ++ f'
    /\ Forall (fun e => e = Alert.RtcRead
                        \/ exists m,
                             e = Alert.LoggedAlert Alert.ALERT_LEVEL_WARNING m)
              f'.
Proof.
  intros Ht Hf. destruct b; [|exists f; split; assumption].
  exists (f ++ [Alert.RtcRead;
                Alert.LoggedAlert Alert.ALERT_LEVEL_WARNING
                  (bounded_copy 128 text)]).
  split.
  - cbn [Alert.register_alert Alert.trace Alert.message].
    rewrite Ht, <- app_assoc. reflexivity.
  - apply Forall_app. split; [exact Hf|].
    constructor; [now left|]. constructor; [|constructor].
    right. eexists. reflexivity.
Qed.

(** What [alert_module_check_conditions] hands to the logger: the
    bus-off alert first, when the sample has the flag, then warnings. *)
Lemma check_conditions_hands_over clock d a :
  exists f,
    Alert.trace (Alert.alert_module_check_conditions clock (Some d) a)
    = (Alert.trace a
       ++ (if Alert.bus_off d
           then [Alert.RtcRead;
                 Alert.LoggedAlert Alert.ALERT_LEVEL_CRITICAL
                   "Estado Bus-Off detectado!"]
           else []))
      ++ f
    /\ Forall (fun e => e = Alert.RtcRead
                        \/ exists m,
                             e = Alert.LoggedAlert Alert.ALERT_LEVEL_WARNING m)
              f.
Proof.
  unfold Alert.alert_module_check_conditions.
  set (pre := Alert.trace a
              ++ (if Alert.bus_off d
                  then [Alert.RtcRead;
                        Alert.LoggedAlert Alert.ALERT_LEVEL_CRITICAL
                          "Estado Bus-Off detectado!"]
                  else [])).
  set (s1 := if Alert.bus_off d
             then Alert.register_alert (clock 0%nat) Alert.ALERT_LEVEL_CRITICAL
                    (Some "Estado Bus-Off detectado!"%string) a
             else a).
  assert (H1 : Alert.trace s1 = pre ++ []).
  { unfold s1, pre. rewrite app_nil_r.
    destruct (Alert.bus_off d); [reflexivity | now rewrite app_nil_r]. }
  clearbody s1.
  destruct (conditional_warning
              ((Alert.tx_error_threshold (Alert.alert_thresholds a)
                <? Alert.tx_error_counter d)
               || (Alert.rx_error_threshold (Alert.alert_thresholds a)
                   <? Alert.rx_error_counter d))
              (clock 1%nat) "Alta taxa de erros na rede CAN!" s1 pre [] H1
              (Forall_nil _)) as (f2 & H2 & Hf2).
  destruct (conditional_warning
              (Alert.bus_load_threshold (Alert.alert_thresholds a)
               <? Alert.bus_load d)
              (clock 2%nat) "Carga do barramento CAN acima do limiar!"
              _ pre f2 H2 Hf2) as (f3 & H3 & Hf3).
  exact (conditional_warning
           (Alert.retransmission_threshold (Alert.alert_thresholds a)
            <? Alert.retransmission_count d)
           (clock 3%nat) _ _ pre f3 H3 Hf3).
Qed.

(** With the minimum log level set to critical, the warnings raised by
    the alert module for a sample (any sample without bus-off raises
    warnings only) leave no trace in the logger: they are not stored in
    its buffer, its alert callback is not called, and the module is
    left exactly as it was.  The alert module's own history does hold
    them. *)
Theorem warnings_are_lost_above_their_level :
  forall clock d a rtc l,
    Alert.bus_off d = false ->
    current_log_level l = LOGGER_LEVEL_CRITICAL ->
    exists fresh,
      Alert.trace (Alert.alert_module_check_conditions clock (Some d) a)
      = Alert.trace a ++ fresh
      /\ deliver rtc fresh l = l.
Proof.
  intros clock d a rtc l Hbus Hlvl.
  destruct (check_conditions_hands_over clock d a) as (fresh & Hfresh & Hall).
  rewrite Hbus, app_nil_r in Hfresh.
  exists fresh. split; [exact Hfresh|].
  clear Hfresh. induction Hall as [|e fresh He Hall IH]; [reflexivity|].
  change (e :: fresh) with ([e] ++ fresh). rewrite deliver_app.
  replace (deliver rtc [e] l) with l; [exact IH|].
  destruct He as [-> | [m ->]]; [reflexivity|].
  cbn. unfold logger_module_log_alert, logger_module_log. now rewrite Hlvl.
Qed.

Lemma warnings_are_lost_above_their_level_witness :
  let d := {| Alert.bus_off := false; Alert.tx_error_counter := 101;
              Alert.rx_error_counter := 0; Alert.bus_load := 81;
              Alert.retransmission_count := 0 |} in
  let l := logger_module_set_log_level LOGGER_LEVEL_CRITICAL logger_boot in
  exists fresh,
    Alert.trace (Alert.alert_module_check_conditions (fun _ => 1000) (Some d)
                   Alert.alert_boot)
    = Alert.trace Alert.alert_boot ++ fresh
    /\ deliver (Some 1700000000) fresh l = l.
Proof.
  intros d l.
  apply (warnings_are_lost_above_their_level (fun _ => 1000) d
           Alert.alert_boot (Some 1700000000) l); reflexivity.
Defined.

Lemma log_alert_extends rtc lvl m l :
  exists x,
    heard (trace (logger_module_log_alert rtc lvl m l)) = heard (trace l) ++ x.
Proof.
  unfold logger_module_log_alert, logger_module_log.
  destruct m as [m|]; [|exists []; now rewrite app_nil_r].
  destruct (level_value lvl <? level_value (current_log_level l));
    [exists []; now rewrite app_nil_r|].
  cbn [trace]. rewrite heard_app. eexists. reflexivity.
Qed.

Lemma deliver_extends rtc fresh : forall l,
  exists x, heard (trace (deliver rtc fresh l)) = heard (trace l) ++ x.
Proof.
  induction fresh as [|e fresh IH]; intros l;
    [exists []; now rewrite app_nil_r|].
  change (e :: fresh) with ([e] ++ fresh). rewrite deliver_app.
  destruct (IH (deliver rtc [e] l)) as (x & Hx). rewrite Hx.
  destruct e as [| lvl m | cb al]; cbn [deliver fold_left];
    try (exists x; reflexivity).
  destruct (log_alert_extends rtc (logger_level_of lvl) (Some m) l) as (y & Hy).
  rewrite Hy, <- app_assoc. eexists. reflexivity.
Qed.

(** A bus-off sample raises a critical alert that no log level filters
    out: the logger stores it and calls its registered alert callback
    with the critical entry whose message is the alert text after the
    prefix ["ALERTA: "].  (The alert module's own notification callback
    is not involved.) *)
Theorem bus_off_alert_reaches_the_logger_callback :
  forall clock d a rtc l cb,
    Alert.bus_off d = true ->
    alert_callback l = Some cb ->
    exists fresh more,
      Alert.trace (Alert.alert_module_check_conditions clock (Some d) a)
      = Alert.trace a ++ fresh
      /\ heard (trace (deliver rtc fresh l))
         = heard (trace l)
           ++ {| timestamp := logger_module_get_rtc_timestamp rtc;
                 level := LOGGER_LEVEL_CRITICAL;
                 message := "ALERTA: Estado Bus-Off detectado!" |} :: more.
Proof.
  intros clock d a rtc l cb Hbus Hcb.
  destruct (check_conditions_hands_over clock d a) as (rest & Hfresh & _).
  rewrite Hbus, <- app_assoc in Hfresh.
  match type of Hfresh with
  | _ = _ ++ ?f => exists f
  end.
  rewrite deliver_app.
  match goal with
  | |- context [deliver rtc rest ?st] =>
    destruct (deliver_extends rtc rest st) as (x & Hx); set (l1 := st) in *
  end.
  exists x. split; [exact Hfresh|]. rewrite Hx.
  unfold l1. cbn [deliver fold_left logger_level_of].
  unfold logger_module_log_alert, logger_module_log.
  replace (level_value LOGGER_LEVEL_CRITICAL <? level_value (current_log_level l))
    with false by (destruct (current_log_level l); reflexivity).
  cbn [trace]. rewrite Hcb, heard_app, <- app_assoc. reflexivity.
Qed.

Lemma bus_off_alert_reaches_the_logger_callback_witness :
  let d := {| Alert.bus_off := true; Alert.tx_error_counter := 0;
              Alert.rx_error_counter := 0; Alert.bus_load := 0;
              Alert.retransmission_count := 0 |} in
  let l := logger_module_register_alert_callback (Some 1)
             (logger_module_set_log_level LOGGER_LEVEL_CRITICAL logger_boot) in
  exists fresh more,
    Alert.trace (Alert.alert_module_check_conditions (fun _ => 1000) (Some d)
                   Alert.alert_boot)
    = Alert.trace Alert.alert_boot ++ fresh
    /\ heard (trace (deliver (Some 1700000000) fresh l))
       = heard (trace l)
         ++ {| timestamp := logger_module_get_rtc_timestamp (Some 1700000000);
               level := LOGGER_LEVEL_CRITICAL;
               message := "ALERTA: Estado Bus-Off detectado!" |} :: more.
Proof.
  intros d l.
  apply (bus_off_alert_reaches_the_logger_callback (fun _ => 1000) d
           Alert.alert_boot (Some 1700000000) l 1); reflexivity.
Defined.

End LoggerFacts.
